(** * MT5 connector: session, streaming and order-execution engine

    A shallow embedding of [src/python/mt5_connector.py] (class
    [MT5Connector]) and the properties of its order pipeline, its
    subscription bookkeeping and its session teardown.

    Modelling conventions.
    - The numbers the venue sends (prices, volumes, point size) are finite
      floats; each is written as a rational ([Q]) that stands for the
      float nearest to it, so that 0.01 is written [1 # 100].
      [get_price] copies and compares them as rationals (its spread is
      their exact quotient).  The floats the order path computes, and the float
      arguments of [place_trade] and [close_trade], are IEEE 754 binary64
      numbers ([float], the [spec_float] of the standard library with 53
      bits of precision): [b64] reads a value into that format, every
      operation rounds to nearest, ties to even, with signed zeros,
      infinities and NaN, and [round], the division and the conversion of
      an integer raise what Python raises.
    - Every call that leaves the connector (the [MetaTrader5] package,
      [time], [threading], [socketio]) is an event answered by the
      environment; a method is a finite tree of such events ([Prog]), and
      [run] executes it against an arbitrary environment, recording the
      trace of calls and answers.
    - The methods run one at a time: [mt5_lock] serialises their venue
      calls, and a method or a worker iteration is taken as one atomic
      step on the connector.  Logging is left out.
    - The [(success, payload)] tuples returned by the methods are the
      two constructors of [returned]; the message strings are the
      constructors of [failure], each documented with the source text. *)

From Stdlib Require Import QArith Qround ZArith Lia Lqa List String Ascii Bool.
From Stdlib Require Import SpecFloat.
From stdpp Require Import gmap strings pretty.

(** ** Python primitives on numbers and strings *)

Definition Qltb (x y : Q) : bool := negb (Qle_bool y x).

(** [max(a, b)]: the first argument unless the second is strictly greater. *)
Definition py_max (a b : Q) : Q := if Qltb a b then b else a.

(** [min(a, b)]: the first argument unless the second is strictly smaller. *)
Definition py_min (a b : Q) : Q := if Qltb b a then b else a.

(** [round(x)]: nearest integer, ties to the even neighbour. *)
Definition py_round (x : Q) : Z :=
  let f := Qfloor x in
  match (x - inject_Z f ?= 1 # 2)%Q with
  | Lt => f
  | Gt => (f + 1)%Z
  | Eq => if Z.even f then f else (f + 1)%Z
  end.

(** [x or d] for an optional float: [None] and [0.0] are falsy. *)
Definition py_or (x : option Q) (d : Q) : Q :=
  match x with
  | Some v => if Qeq_bool v 0 then d else v
  | None => d
  end.

(** ** Python floats

    A [float] is a binary64 number.  The operations are those of the
    standard library's specification of IEEE 754 arithmetic. *)

Inductive exception := ZeroDivisionError | TypeError | OverflowError | ValueError.

(** The outcome of an expression that may raise. *)
Inductive raises (A : Type) :=
| Returns (a : A)
| Raises (e : exception).
Arguments Returns {A} a.
Arguments Raises {A} e.

Definition raises_bind {A B : Type} (x : raises A) (f : A -> raises B) : raises B :=
  match x with
  | Returns a => f a
  | Raises e => Raises e
  end.

Notation "'let?' x ':=' c 'in' k" := (raises_bind c (fun x => k))
  (at level 10, x name, c at level 100, k at level 200).

Definition float := spec_float.
Definition prec : Z := 53.
Definition emax : Z := 1024.

Definition fzero : float := S754_zero false.
Definition fadd : float -> float -> float := SFadd prec emax.
Definition fsub : float -> float -> float := SFsub prec emax.
Definition fmul : float -> float -> float := SFmul prec emax.
(** [x < y] and [x == y]; both are false when an operand is NaN. *)
Definition flt : float -> float -> bool := SFltb.
Definition feq : float -> float -> bool := SFeqb.
Definition fle : float -> float -> bool := SFleb.

(** The binary64 number nearest to a rational, ties to even: the float
    Python reads from a decimal literal, and the float of a venue datum
    held by its exact value.  The quotient of the two integers is rounded
    once. *)
Definition b64 (q : Q) : float :=
  match Qnum q with
  | Z0 => S754_zero false
  | Zpos n => SFdiv prec emax (S754_finite false n 0) (S754_finite false (Qden q) 0)
  | Zneg n => SFdiv prec emax (S754_finite true n 0) (S754_finite false (Qden q) 0)
  end.

(** The exact value of a finite float. *)
Definition value (x : float) : Q :=
  match x with
  | S754_finite s m e => (inject_Z (cond_Zopp s (Zpos m)) * 2 ^ e)%Q
  | _ => 0%Q
  end.

(** [float(n)] for an integer, as in [n * x]: rounded to nearest, and
    [OverflowError] when the integer is too large. *)
Definition py_float_of_int (n : Z) : raises float :=
  match binary_normalize prec emax n 0 false with
  | S754_infinity _ => Raises OverflowError
  | x => Returns x
  end.

(** [x / y]: [ZeroDivisionError] when [y] is a zero. *)
Definition py_truediv (x y : float) : raises float :=
  if feq y fzero then Raises ZeroDivisionError
  else Returns (SFdiv prec emax x y).

(** [round(x)] of a float: an integer, or [OverflowError] on an infinity
    and [ValueError] on NaN. *)
Definition py_round_float (x : float) : raises Z :=
  match x with
  | S754_nan => Raises ValueError
  | S754_infinity _ => Raises OverflowError
  | _ => Returns (py_round (value x))
  end.

(** [round(x, ndigits)] of a float: the exact value of [x] is rounded to
    [ndigits] decimals, ties to even, and the decimal is read back as a
    float; zeros, infinities and NaN round to themselves;
    [OverflowError] when the decimal is too large for a float.  Beyond
    323 digits every float rounds to itself, below -308 to a zero. *)
Definition py_round_nd (x : float) (ndigits : Z) : raises float :=
  match x with
  | S754_finite s m e =>
      if (323 <? ndigits)%Z then Returns x
      else if (ndigits <? -308)%Z then Returns (S754_zero s)
      else
        let k := py_round (inject_Z (Zpos m) * 2 ^ e * 10 ^ ndigits)%Q in
        match b64 (inject_Z k * 10 ^ (- ndigits))%Q with
        | S754_zero _ => Returns (S754_zero s)
        | S754_finite _ m' e' => Returns (S754_finite s m' e')
        | _ => Raises OverflowError
        end
  | _ => Returns x
  end.

(** [max(a, b)] and [min(a, b)] on floats: the first argument unless the
    second is strictly greater (smaller). *)
Definition py_fmax (a b : float) : float := if flt a b then b else a.
Definition py_fmin (a b : float) : float := if flt b a then b else a.

(** [d and d > 0] for an optional float. *)
Definition truthy_pos (d : option float) : bool :=
  match d with
  | Some v => negb (feq v fzero) && flt fzero v
  | None => false
  end.

Definition ascii_upper (c : ascii) : ascii :=
  let n := nat_of_ascii c in
  if ((97 <=? n) && (n <=? 122))%nat then ascii_of_nat (n - 32) else c.

(** [str.upper()] on ASCII text. *)
Fixpoint upper (s : string) : string :=
  match s with
  | EmptyString => EmptyString
  | String c s' => String (ascii_upper c) (upper s')
  end.

(** [range(n)] *)
Definition range (n : Z) : list Z := map Z.of_nat (seq 0 (Z.to_nat n)).

(** [l.remove(x)]: drops the first occurrence. *)
Fixpoint list_remove (x : string) (l : list string) : list string :=
  match l with
  | [] => []
  | y :: l' => if decide (x = y) then l' else y :: list_remove x l'
  end.

(** ** Venue data (objects returned by the MetaTrader5 package) *)

Record SymbolInfo := {
  info_name : string;
  point : Q;
  digits : Z;
  info_spread : Z;
  trade_mode : Z;
  volume_min : Q;
  volume_max : Q;
  volume_step : Q;
  stops_level : option Z;   (* read with [getattr(info, 'stops_level', 0)] *)
  filling_mode : Z
}.

Record Tick := { bid : Q; ask : Q; tick_time : Z }.

Record Rate := { rate_time : Z; rate_high : Q; rate_low : Q; rate_close : Q }.

Record Position := {
  pos_ticket : Z;
  pos_symbol : string;
  pos_type : Z;
  pos_volume : Q;
  pos_magic : Z;
  pos_profit : Q
}.

Record AccountInfo := { acc_login : Z; trade_expert : bool }.

Inductive mt5_order_type := ORDER_TYPE_BUY | ORDER_TYPE_SELL.
Inductive order_filling := ORDER_FILLING_FOK | ORDER_FILLING_IOC | ORDER_FILLING_RETURN.

(** Constants of the MetaTrader5 package. *)
Definition POSITION_TYPE_BUY : Z := 0.
Definition TRADE_ACTION_DEAL : Z := 1.
Definition ORDER_TIME_GTC : Z := 0.
Definition TIMEFRAME_M1 : Z := 1.
Definition TRADE_RETCODE_DONE : Z := 10009.

(** The request dictionary handed to [mt5.order_send]; the keys that only
    some requests carry are options. *)
Record TradeRequest := {
  req_action : Z;
  req_symbol : string;
  req_volume : float;
  req_type : mt5_order_type;
  req_position : option Z;
  req_price : Q;
  req_deviation : Z;
  req_magic : Z;
  req_comment : string;
  req_type_time : option Z;
  req_type_filling : order_filling;
  req_sl : option float;
  req_tp : option float
}.

Definition set_deviation (d : Z) (r : TradeRequest) : TradeRequest :=
  {| req_action := req_action r; req_symbol := req_symbol r;
     req_volume := req_volume r; req_type := req_type r;
     req_position := req_position r; req_price := req_price r;
     req_deviation := d; req_magic := req_magic r;
     req_comment := req_comment r; req_type_time := req_type_time r;
     req_type_filling := req_type_filling r;
     req_sl := req_sl r; req_tp := req_tp r |}.

Definition set_sl (v : float) (r : TradeRequest) : TradeRequest :=
  {| req_action := req_action r; req_symbol := req_symbol r;
     req_volume := req_volume r; req_type := req_type r;
     req_position := req_position r; req_price := req_price r;
     req_deviation := req_deviation r; req_magic := req_magic r;
     req_comment := req_comment r; req_type_time := req_type_time r;
     req_type_filling := req_type_filling r;
     req_sl := Some v; req_tp := req_tp r |}.

Definition set_tp (v : float) (r : TradeRequest) : TradeRequest :=
  {| req_action := req_action r; req_symbol := req_symbol r;
     req_volume := req_volume r; req_type := req_type r;
     req_position := req_position r; req_price := req_price r;
     req_deviation := req_deviation r; req_magic := req_magic r;
     req_comment := req_comment r; req_type_time := req_type_time r;
     req_type_filling := req_type_filling r;
     req_sl := req_sl r; req_tp := Some v |}.

Record OrderSendResult := {
  retcode : Z;
  res_order : Z;
  res_deal : Z;
  res_volume : Q;
  res_price : Q
}.

(** Value of [mt5.last_error()]: a [(code, comment)] tuple, or any other
    object, read with [getattr(error, 'code', -1)] and
    [getattr(error, 'comment', 'Unknown error')]. *)
Inductive last_error_value :=
| ErrTuple (code : Z) (comment : string)
| ErrObject (code : option Z) (comment : option string).

Definition error_code_of (e : last_error_value) : Z :=
  match e with
  | ErrTuple c _ => c
  | ErrObject c _ => default (-1)%Z c
  end.

Definition error_comment_of (e : last_error_value) : string :=
  match e with
  | ErrTuple _ m => m
  | ErrObject _ m => default "Unknown error"%string m
  end.

(** ** Values returned by the connector *)

Inductive market_status := TRADEABLE | CLOSED.

Record PriceData := {
  pd_symbol : string;
  pd_bid : Q;
  pd_ask : Q;
  pd_spread : Q;
  pd_time : string;
  pd_timestamp : Q;
  pd_high : Q;
  pd_low : Q;
  pd_marketStatus : market_status
}.

Record TradeOk := {
  ok_order : Z; ok_deal : Z; ok_volume : Q; ok_price : Q;
  ok_sl : float; ok_tp : float; ok_comment : string; ok_retcode : Z
}.

Record CloseOk := {
  cl_deal : Z; cl_retcode : Z; cl_price : Q; cl_volume : Q;
  cl_profit : Q; cl_symbol : string; cl_position_type : string
}.

(** The failure payloads, one constructor per message of the source. *)
Inductive failure :=
| NotConnected                                   (* "Not connected" *)
| SymbolNotSelected (symbol : string)            (* "Symbol {symbol} not selected" *)
| SymbolNotFound (symbol : string)               (* "Symbol {symbol} not found" *)
| SymbolNotTradable (symbol : string)            (* "Symbol {symbol} not tradable" *)
| NoPrice (symbol : string)                      (* "No price for {symbol}" *)
| NoPriceData (symbol : string)                  (* code 1009, "No price data for {symbol}" *)
| InvalidOrderType (order_type : string)         (* "Invalid order type {order_type}" *)
| NoSupportedFilling (symbol : string)           (* "No supported filling modes for {symbol}" *)
| OrderFailedCode (code : Z) (comment : string)  (* "Order failed: Code: {code} - {comment}" *)
| OrderFailed (error_msg : string)               (* "Order failed: {error_msg}" *)
| PositionNotFound (ticket : Z)                  (* "Position {ticket} not found" *)
| VolumeBelowMinimum (volume : float) (vmin : Q) (* "Volume {volume} below minimum {min}" *)
| VolumeExceedsMaximum (volume : float) (vmax : Q) (* "Volume {volume} exceeds maximum {max}" *)
| CloseFailedCode (code : Z) (comment : string)  (* "Close failed: Code: {code} - {comment}" *)
| CloseFailed (error_msg : string)               (* "Close failed: {error_msg}" *)
| CloseFailedAfter (max_retries : Z)             (* "Close failed after {max_retries} attempts" *)
| InitFailed                                     (* code 1000, "MT5 initialization failed" *)
| LoginFailed (code : Z) (comment : string)      (* "Login failed: {error[1]}" *)
| AutoTradingDisabled                            (* code 1001, "AutoTrading disabled. ..." *)
| Raised (e : exception).                        (* [except Exception as e: return False, str(e)] *)

Inductive returned (A : Type) :=
| Ok (a : A)          (* [return True, a] *)
| Fail (f : failure). (* [return False, f] *)
Arguments Ok {A} a.
Arguments Fail {A} f.

(** An exception raised inside a method's [try] is caught by its
    [except Exception as e: return False, str(e)]. *)
Notation "'try?' x ':=' c 'in' k" :=
  (match c with
   | Returns x => k
   | Raises e => Fail (Raised e)
   end)
  (at level 10, x name, c at level 100, k at level 200).

(** The [error_codes] dictionary of [place_trade] and [close_trade]. *)
Definition error_codes (code : Z) : option string :=
  match code with
  | 10018 => Some "Market closed"
  | 10019 => Some "Insufficient funds"
  | 10020 => Some "Prices changed"
  | 10021 => Some "Invalid request (check volume, symbol, or market status)"
  | 10022 => Some "Invalid SL/TP"
  | 10017 => Some "Invalid parameters"
  | 10027 => Some "AutoTrading disabled"
  | 10030 => Some "Invalid order filling type"
  | _ => None
  end%Z%string.

(** [error_codes.get(retcode, f"Error {retcode}")] *)
Definition error_msg (code : Z) : string :=
  default ("Error " ++ pretty code)%string (error_codes code).

(** ** The environment and programs over it *)

(** A [threading.Thread] object, identified by the handle the runtime
    gives it. *)
Definition thread := nat.

(** The calls that leave the connector, indexed by the type of their
    answer. *)
Inductive call : Type -> Type :=
| mt5_initialize : call bool
| mt5_login (login : Z) (password server : string) : call bool
| account_info : call (option AccountInfo)
| symbol_select (symbol : string) (enable : bool) : call bool
| symbol_info (symbol : string) : call (option SymbolInfo)
| symbol_info_tick (symbol : string) : call (option Tick)
| copy_rates_from_pos (symbol : string) (timeframe start count : Z)
    : call (option (list Rate))
| positions_get (ticket : Z) : call (option (list Position))
| order_send (request : TradeRequest) : call (option OrderSendResult)
| last_error : call last_error_value
| mt5_shutdown : call unit
| time_sleep (seconds : Q) : call unit
| time_time : call Q
| fromtimestamp_isoformat (t : Z) : call string
| socketio_emit (event : string) (data : PriceData) (room : string) : call unit
| thread_new (name : string) : call thread
| thread_start (t : thread) : call unit
| thread_is_alive (t : thread) : call bool
| thread_join (t : thread) (timeout : Q) : call unit.

(** A method body: a finite tree of calls ending in a returned value. *)
Inductive Prog (A : Type) : Type :=
| Ret (a : A)
| Vis {X : Type} (c : call X) (k : X -> Prog A).
Arguments Ret {A} a.
Arguments Vis {A X} c k.

Fixpoint bind {A B : Type} (p : Prog A) (f : A -> Prog B) : Prog B :=
  match p with
  | Ret a => f a
  | Vis c k => Vis c (fun x => bind (k x) f)
  end.

Notation "'let!' x ':=' c 'in' k" := (Vis c (fun x => k))
  (at level 10, x name, c at level 100, k at level 200).
Notation "'do!' c 'in' k" := (Vis c (fun _ => k))
  (at level 10, c at level 100, k at level 200).
Notation "'let!!' ' x ':=' p 'in' k" := (bind p (fun x => k))
  (at level 10, x pattern, p at level 100, k at level 200).

(** One call together with its answer. *)
Inductive event :=
| Ev (X : Type) (c : call X) (x : X).
Arguments Ev {X} c x.

Section Run.
Context {V : Type}.
(** An environment: a state and the way it answers each call. *)
Variable handle : forall X : Type, call X -> V -> X * V.

(** Run a program from environment state [v]: the returned value, the
    final environment state and the trace of calls in program order. *)
Fixpoint run {A : Type} (p : Prog A) (v : V) : A * V * list event :=
  match p with
  | Ret a => (a, v, [])
  | Vis c k =>
      let '(x, v1) := handle _ c v in
      let '(a, v2, tr) := run (k x) v1 in
      (a, v2, Ev c x :: tr)
  end.
End Run.

(** The orders submitted in a trace, with the venue's answers. *)
Definition sent_order (e : event) : option (TradeRequest * option OrderSendResult) :=
  match e with
  | @Ev X c x =>
      match c in call X0 return X0 -> option (TradeRequest * option OrderSendResult) with
      | order_send r => fun x => Some (r, x)
      | _ => fun _ => None
      end x
  end.

Definition sent_orders (tr : list event) : list (TradeRequest * option OrderSendResult) :=
  omap sent_order tr.

(** The values [mt5.last_error()] returned in a trace. *)
Definition error_read (e : event) : option last_error_value :=
  match e with
  | @Ev X c x =>
      match c in call X0 return X0 -> option last_error_value with
      | last_error => fun x => Some x
      | _ => fun _ => None
      end x
  end.

Definition errors_read (tr : list event) : list last_error_value :=
  omap error_read tr.

(** The ticks fetched in a trace. *)
Definition tick_read (e : event) : option (string * option Tick) :=
  match e with
  | @Ev X c x =>
      match c in call X0 return X0 -> option (string * option Tick) with
      | symbol_info_tick s => fun x => Some (s, x)
      | _ => fun _ => None
      end x
  end.

Definition ticks_read (tr : list event) : list (string * option Tick) :=
  omap tick_read tr.

(** ** The connector object *)

Record SymbolData := {
  sd_high : option Q;
  sd_low : option Q;
  sd_last_close : option Q;
  sd_last_timestamp : option string
}.

Record MT5Connector := {
  connected : bool;
  active_subscriptions : gmap string (list string);
  price_threads : gmap string thread;
  symbol_data : gmap string SymbolData;
  batch_interval : Q;
  shutdown_event : bool
}.

(** [MT5Connector.__init__] *)
Definition init : MT5Connector :=
  {| connected := false; active_subscriptions := ∅; price_threads := ∅;
     symbol_data := ∅; batch_interval := 1 # 10; shutdown_event := false |}.

Definition set_connected (b : bool) (self : MT5Connector) : MT5Connector :=
  {| connected := b; active_subscriptions := active_subscriptions self;
     price_threads := price_threads self; symbol_data := symbol_data self;
     batch_interval := batch_interval self; shutdown_event := shutdown_event self |}.

Definition set_shutdown_event (b : bool) (self : MT5Connector) : MT5Connector :=
  {| connected := connected self; active_subscriptions := active_subscriptions self;
     price_threads := price_threads self; symbol_data := symbol_data self;
     batch_interval := batch_interval self; shutdown_event := b |}.

Definition set_active_subscriptions (m : gmap string (list string))
    (self : MT5Connector) : MT5Connector :=
  {| connected := connected self; active_subscriptions := m;
     price_threads := price_threads self; symbol_data := symbol_data self;
     batch_interval := batch_interval self; shutdown_event := shutdown_event self |}.

Definition set_price_threads (m : gmap string thread)
    (self : MT5Connector) : MT5Connector :=
  {| connected := connected self; active_subscriptions := active_subscriptions self;
     price_threads := m; symbol_data := symbol_data self;
     batch_interval := batch_interval self; shutdown_event := shutdown_event self |}.

Definition set_symbol_data (m : gmap string SymbolData)
    (self : MT5Connector) : MT5Connector :=
  {| connected := connected self; active_subscriptions := active_subscriptions self;
     price_threads := price_threads self; symbol_data := m;
     batch_interval := batch_interval self; shutdown_event := shutdown_event self |}.

(** ** [MT5Connector.connect] (lines 37-61) *)

Definition connect (self : MT5Connector) (server : string) (login : Z)
    (password : string) : Prog (returned (option Z) * MT5Connector) :=
  let! initialized := mt5_initialize in
  if negb initialized then Ret (Fail InitFailed, self) else
  let! authorized := mt5_login login password server in
  if negb authorized then
    let! error := last_error in
    match error with
    | ErrTuple code comment => Ret (Fail (LoginFailed code comment), self)
    | ErrObject _ _ => Ret (Fail (Raised TypeError), self)   (* [error[0]] *)
    end
  else
    let self := set_shutdown_event false (set_connected true self) in
    let! account_info := account_info in
    match account_info with
    | Some a =>
        if negb (trade_expert a) then Ret (Fail AutoTradingDisabled, self)
        else Ret (Ok (Some (acc_login a)), self)
    | None => Ret (Ok None, self)
    end.

(** ** [MT5Connector.get_price] (lines 131-193) *)

Definition get_price (self : MT5Connector) (symbol : string)
    : Prog (returned PriceData * MT5Connector) :=
  if negb (connected self) then Ret (Fail NotConnected, self) else
  let! selected := symbol_select symbol true in
  if negb selected then Ret (Fail (SymbolNotSelected symbol), self) else
  do! time_sleep (5 # 100) in
  let! tick := symbol_info_tick symbol in
  match tick with
  | None =>
      let! rates := copy_rates_from_pos symbol TIMEFRAME_M1 0 1 in
      match rates with
      | None | Some [] => Ret (Fail (NoPriceData symbol), self)
      | Some (rate :: _) =>
          let! iso := fromtimestamp_isoformat (rate_time rate) in
          let! now := time_time in
          Ret (Ok {| pd_symbol := symbol;
                     pd_bid := rate_close rate;
                     pd_ask := rate_close rate;
                     pd_spread := 0;
                     pd_time := iso;
                     pd_timestamp := now;
                     pd_high := rate_high rate;
                     pd_low := rate_low rate;
                     pd_marketStatus := CLOSED |}, self)
      end
  | Some tick =>
      let! symbol_info := symbol_info symbol in
      let spread :=
        match symbol_info with
        | Some i => if Qltb 0 (point i) then ((ask tick - bid tick) / point i)%Q else 0%Q
        | None => 0%Q
        end in
      let current_data :=
        default {| sd_high := None; sd_low := None;
                   sd_last_close := None; sd_last_timestamp := None |}
                (symbol_data self !! symbol) in
      let current_high := py_or (sd_high current_data) (bid tick) in
      let current_low := py_or (sd_low current_data) (bid tick) in
      let current_high := py_max (py_max current_high (bid tick)) (ask tick) in
      let current_low := py_min (py_min current_low (bid tick)) (ask tick) in
      let! stamp := fromtimestamp_isoformat (tick_time tick) in
      let self :=
        set_symbol_data
          (<[symbol := {| sd_high := Some current_high;
                          sd_low := Some current_low;
                          sd_last_close :=
                            match symbol_info with
                            | Some i => if (trade_mode i =? 0)%Z then Some (bid tick)
                                        else sd_last_close current_data
                            | None => sd_last_close current_data
                            end;
                          sd_last_timestamp := Some stamp |}]> (symbol_data self))
          self in
      let! iso := fromtimestamp_isoformat (tick_time tick) in
      let! now := time_time in
      Ret (Ok {| pd_symbol := symbol;
                 pd_bid := bid tick;
                 pd_ask := ask tick;
                 pd_spread := spread;
                 pd_time := iso;
                 pd_timestamp := now;
                 pd_high := current_high;
                 pd_low := current_low;
                 pd_marketStatus :=
                   match symbol_info with
                   | Some i => if (trade_mode i =? 0)%Z then CLOSED else TRADEABLE
                   | None => CLOSED
                   end |}, self)
  end.

(** ** Streaming: [start_price_stream], [price_worker], [stop_price_stream] *)

(** [x in l] on a list of client ids. *)
Definition py_in (x : string) (l : list string) : bool := bool_decide (x ∈ l).

(** [MT5Connector.start_price_stream] (lines 195-201 and 237-239); the
    worker body is [price_worker] below. *)
Definition start_price_stream (self : MT5Connector) (symbol client_id : string)
    : Prog MT5Connector :=
  match price_threads self !! symbol with
  | Some _ =>
      if negb (py_in client_id (default [] (active_subscriptions self !! symbol)))
      then Ret (set_active_subscriptions
                  (<[symbol := default [] (active_subscriptions self !! symbol)
                               ++ [client_id]]> (active_subscriptions self)) self)
      else Ret self
  | None =>
      let self :=
        set_active_subscriptions
          (<[symbol := [client_id]]> (active_subscriptions self)) self in
      let! t := thread_new ("PriceStream-" ++ symbol) in
      let self := set_price_threads (<[symbol := t]> (price_threads self)) self in
      do! thread_start t in
      Ret self
  end.

(** The two [del] statements that end [price_worker] (lines 231-234). *)
Definition worker_cleanup (symbol : string) (self : MT5Connector) : MT5Connector :=
  set_active_subscriptions (delete symbol (active_subscriptions self))
    (set_price_threads (delete symbol (price_threads self)) self).

Definition max_errors : nat := 5.

(** The loop of [price_worker] (lines 203-235) with its locals
    [last_price] and [error_count].  [fuel] bounds the number of
    iterations looked at: [None] means the loop is still running after
    that many; [Some self'] is the connector once the worker has left the
    loop and cleaned up.  The quote signature ["{bid}-{ask}"] is the pair
    of the two prices.  [get_price] reports its own failures as a result
    and the other calls of the body do not raise, so the [except] branch
    of the loop (lines 225-230), which counts errors the same way, is
    never entered. *)
Fixpoint price_worker_loop (fuel : nat) (symbol : string)
    (last_price : option (Q * Q)) (error_count : nat) (self : MT5Connector)
    : Prog (option MT5Connector) :=
  match fuel with
  | O => Ret None
  | S fuel' =>
      if bool_decide (is_Some (price_threads self !! symbol))
         && connected self && negb (shutdown_event self)
      then
        let!! '(res, self) := get_price self symbol in
        match res with
        | Ok price_data =>
            let current_price := (pd_bid price_data, pd_ask price_data) in
            let unchanged :=
              match last_price with
              | Some (b, a) => Qeq_bool b (fst current_price)
                               && Qeq_bool a (snd current_price)
              | None => false
              end in
            if unchanged then
              do! time_sleep (batch_interval self) in
              price_worker_loop fuel' symbol last_price error_count self
            else
              do! socketio_emit "market-data" price_data ("symbol_" ++ symbol) in
              do! time_sleep (batch_interval self) in
              price_worker_loop fuel' symbol (Some current_price) 0 self
        | Fail _ =>
            let error_count := S error_count in
            if (max_errors <=? error_count)%nat
            then Ret (Some (worker_cleanup symbol self))
            else
              do! time_sleep (batch_interval self) in
              price_worker_loop fuel' symbol last_price error_count self
        end
      else Ret (Some (worker_cleanup symbol self))
  end.

Definition price_worker (fuel : nat) (symbol : string) (self : MT5Connector)
    : Prog (option MT5Connector) :=
  price_worker_loop fuel symbol None 0 self.

(** Truth value of the optional [client_id] argument. *)
Definition client_given (client_id : option string) : option string :=
  match client_id with
  | Some c => if String.eqb c "" then None else Some c
  | None => None
  end.

(** [MT5Connector.stop_price_stream] (lines 242-261). *)
Definition stop_price_stream (self : MT5Connector) (symbol : string)
    (client_id : option string) : MT5Connector :=
  match active_subscriptions self !! symbol with
  | None => self
  | Some subscribers =>
      match client_given client_id with
      | Some c =>
          let subscribers :=
            if py_in c subscribers then list_remove c subscribers else subscribers in
          let self :=
            set_active_subscriptions
              (<[symbol := subscribers]> (active_subscriptions self)) self in
          match subscribers with
          | [] =>
              set_price_threads (delete symbol (price_threads self))
                (set_active_subscriptions
                   (delete symbol (active_subscriptions self)) self)
          | _ :: _ => self
          end
      | None =>
          set_price_threads (delete symbol (price_threads self))
            (set_active_subscriptions
               (delete symbol (active_subscriptions self)) self)
      end
  end.

(** ** [MT5Connector.disconnect] (lines 63-83) *)

(** The second loop: [if thread.is_alive(): thread.join(timeout=2)]. *)
Fixpoint join_threads {A : Type} (threads : list thread) (k : Prog A) : Prog A :=
  match threads with
  | [] => k
  | t :: rest =>
      let! alive := thread_is_alive t in
      if alive then do! thread_join t 2 in join_threads rest k
      else join_threads rest k
  end.

Definition disconnect (self : MT5Connector) : Prog (returned string * MT5Connector) :=
  let self := set_shutdown_event true (set_connected false self) in
  let self :=
    foldl (fun s symbol => stop_price_stream s symbol None) self
          (map fst (map_to_list (price_threads self))) in
  join_threads (map snd (map_to_list (price_threads self)))
    (let self := set_price_threads ∅ (set_active_subscriptions ∅ self) in
     do! mt5_shutdown in
     Ret (Ok "Disconnected"%string, self)).

(** ** Order execution: [place_trade] and [close_trade] *)

(** The [supported_fillings] list built from the [filling_mode] bitmask
    (lines 295-302 and 404-411): bit 1 is FOK, bit 2 IOC, bit 4 RETURN. *)
Definition supported_fillings (filling_mode : Z) : list order_filling :=
  (if (Z.land filling_mode 1 =? 0)%Z then [] else [ORDER_FILLING_FOK])
  ++ (if (Z.land filling_mode 2 =? 0)%Z then [] else [ORDER_FILLING_IOC])
  ++ (if (Z.land filling_mode 4 =? 0)%Z then [] else [ORDER_FILLING_RETURN]).

(** The volume expression of lines 292 and 399:
    [max(volume_min, min(volume_max, round(volume / volume_step) * volume_step))].
    The division raises on a zero step, [round] on an infinite or NaN
    quotient. *)
Definition normalize_volume (info : SymbolInfo) (volume : float) : raises float :=
  let? quotient := py_truediv volume (b64 (volume_step info)) in
  let? steps := py_round_float quotient in
  let? steps := py_float_of_int steps in
  Returns (py_fmax (b64 (volume_min info))
             (py_fmin (b64 (volume_max info)) (fmul steps (b64 (volume_step info))))).

(** The distance of an optional SL/TP argument once it is known truthy. *)
Definition distance (d : option float) : float := default fzero d.

(** Line 275: [getattr(info, 'stops_level', 0) * info.point]. *)
Definition stop_level_of (info : SymbolInfo) : raises float :=
  let? level := py_float_of_int (default 0%Z (stops_level info)) in
  Returns (fmul level (b64 (point info))).

(** [round(x, digits) if d and d > 0 else 0] (lines 283-284 and 288-289). *)
Definition first_stop (d : option float) (x : float) (ndigits : Z) : raises float :=
  if truthy_pos d then py_round_nd x ndigits else Returns fzero.

(** Lines 349-371 of [place_trade]: the answer built from a venue result. *)
Definition trade_outcome (result : OrderSendResult) (sl tp : float) (comment : string)
    : returned TradeOk :=
  if (retcode result =? TRADE_RETCODE_DONE)%Z
  then Ok {| ok_order := res_order result; ok_deal := res_deal result;
             ok_volume := res_volume result; ok_price := res_price result;
             ok_sl := sl; ok_tp := tp; ok_comment := comment;
             ok_retcode := retcode result |}
  else Fail (OrderFailed (error_msg (retcode result))).

(** Lines 279-333 of [place_trade]: from the instrument, its stop level
    and the tick to the request dictionary and the locals [sl] and [tp],
    or to the failure returned on the way.  No call is made in between. *)
Definition build_request (symbol : string) (volume : float) (order_type : string)
    (sl_distance tp_distance : option float) (comment : string) (magic : Z)
    (info : SymbolInfo) (stop_level : float) (tick : Tick)
    : returned (TradeRequest * float * float) :=
  let order_type := upper order_type in
  let side :=
    if String.eqb order_type "BUY" then
      let price := ask tick in
      Some (ORDER_TYPE_BUY, price,
            first_stop sl_distance (fsub (b64 price) (distance sl_distance)) (digits info),
            first_stop tp_distance (fadd (b64 price) (distance tp_distance)) (digits info))
    else if String.eqb order_type "SELL" then
      let price := bid tick in
      Some (ORDER_TYPE_SELL, price,
            first_stop sl_distance (fadd (b64 price) (distance sl_distance)) (digits info),
            first_stop tp_distance (fsub (b64 price) (distance tp_distance)) (digits info))
    else None in
  match side with
  | None => Fail (InvalidOrderType order_type)
  | Some (mt5_type, price, sl, tp) =>
  try? sl := sl in
  try? tp := tp in
  try? volume := normalize_volume info volume in
  match supported_fillings (filling_mode info) with
  | [] => Fail (NoSupportedFilling symbol)
  | filling_type :: _ =>
  let request :=
    {| req_action := TRADE_ACTION_DEAL; req_symbol := symbol;
       req_volume := volume; req_type := mt5_type; req_position := None;
       req_price := price; req_deviation := 20; req_magic := magic;
       req_comment := comment; req_type_time := Some ORDER_TIME_GTC;
       req_type_filling := filling_type; req_sl := None; req_tp := None |} in
  try? sl_request :=
    (if truthy_pos sl_distance && negb (feq sl fzero) then
       let? sl :=
         if flt (distance sl_distance) stop_level
         then py_round_nd (if String.eqb order_type "BUY"
                           then fsub (b64 price) stop_level
                           else fadd (b64 price) stop_level)
                          (digits info)
         else Returns sl in
       Returns (sl, set_sl sl request)
     else Returns (sl, request)) in
  let '(sl, request) := sl_request in
  try? tp_request :=
    (if truthy_pos tp_distance && negb (feq tp fzero) then
       let? tp :=
         if flt (distance tp_distance) stop_level
         then py_round_nd (if String.eqb order_type "BUY"
                           then fadd (b64 price) stop_level
                           else fsub (b64 price) stop_level)
                          (digits info)
         else Returns tp in
       Returns (tp, set_tp tp request)
     else Returns (tp, request)) in
  let '(tp, request) := tp_request in
  Ok (request, sl, tp)
  end
  end.

(** [MT5Connector.place_trade] (lines 263-374). *)
Definition place_trade (self : MT5Connector) (symbol : string) (volume : float)
    (order_type : string) (sl_distance tp_distance : option float)
    (comment : string) (magic : Z) : Prog (returned TradeOk) :=
  if negb (connected self) then Ret (Fail NotConnected) else
  let! selected := symbol_select symbol true in
  if negb selected then Ret (Fail (SymbolNotSelected symbol)) else
  let! info := symbol_info symbol in
  match info with
  | None => Ret (Fail (SymbolNotFound symbol))
  | Some info =>
  if (trade_mode info =? 0)%Z then Ret (Fail (SymbolNotTradable symbol)) else
  match stop_level_of info with
  | Raises e => Ret (Fail (Raised e))
  | Returns stop_level =>
  let! tick := symbol_info_tick symbol in
  match tick with
  | None => Ret (Fail (NoPrice symbol))
  | Some tick =>
  match build_request symbol volume order_type sl_distance tp_distance comment
          magic info stop_level tick with
  | Fail f => Ret (Fail f)
  | Ok (request, sl, tp) =>
  let! result := order_send request in
  match result with
  | None =>
      let! error := last_error in
      if (error_code_of error =? 10013)%Z then
        let request := set_deviation 50 request in
        let! result := order_send request in
        match result with
        | None =>
            let! error := last_error in
            Ret (Fail (OrderFailedCode (error_code_of error) (error_comment_of error)))
        | Some result => Ret (trade_outcome result sl tp comment)
        end
      else
        Ret (Fail (OrderFailedCode (error_code_of error) (error_comment_of error)))
  | Some result => Ret (trade_outcome result sl tp comment)
  end
  end
  end
  end
  end.

(** The [for attempt in range(max_retries)] loop of [close_trade]
    (lines 416-465), over the attempts still to make. *)
Fixpoint close_attempts (ticket : Z) (pos : Position) (symbol position_type : string)
    (close_type : mt5_order_type) (volume : float) (fillings : list order_filling)
    (max_retries : Z) (attempts : list Z) (filling_type : order_filling)
    : Prog (returned CloseOk) :=
  match attempts with
  | [] => Ret (Fail (CloseFailedAfter max_retries))
  | attempt :: rest =>
      let! tick := symbol_info_tick symbol in
      match tick with
      | None => Ret (Fail (NoPrice symbol))
      | Some tick =>
          let price :=
            if (pos_type pos =? POSITION_TYPE_BUY)%Z then bid tick else ask tick in
          let request :=
            {| req_action := TRADE_ACTION_DEAL; req_symbol := symbol;
               req_volume := volume; req_type := close_type;
               req_position := Some ticket; req_price := price;
               req_deviation := 20 + attempt * 10; req_magic := pos_magic pos;
               req_comment := "Close " ++ pretty ticket; req_type_time := None;
               req_type_filling := filling_type; req_sl := None; req_tp := None |} in
          let! result := order_send request in
          match result with
          | None =>
              let! error := last_error in
              Ret (Fail (CloseFailedCode (error_code_of error) (error_comment_of error)))
          | Some result =>
              if (retcode result =? TRADE_RETCODE_DONE)%Z then
                Ret (Ok {| cl_deal := res_deal result; cl_retcode := retcode result;
                           cl_price := res_price result; cl_volume := res_volume result;
                           cl_profit := pos_profit pos; cl_symbol := symbol;
                           cl_position_type := position_type |})
              else if (retcode result =? 10021)%Z && (attempt <? max_retries - 1)%Z then
                let filling_type :=
                  match fillings with
                  | _ :: second :: _ => second
                  | _ => filling_type
                  end in
                do! time_sleep (1 # 2) in
                close_attempts ticket pos symbol position_type close_type volume
                  fillings max_retries rest filling_type
              else Ret (Fail (CloseFailed (error_msg (retcode result))))
          end
      end
  end.

(** [symbol or pos.symbol]: an absent or empty argument is falsy. *)
Definition symbol_or (symbol : option string) (d : string) : string :=
  match symbol with
  | Some s => if String.eqb s "" then d else s
  | None => d
  end.

(** The volume a close works with before normalisation (lines 388-391). *)
Definition capped_volume (volume : option float) (pos : Position) : float :=
  match volume with
  | None => b64 (pos_volume pos)
  | Some v => py_fmin v (b64 (pos_volume pos))
  end.

(** [MT5Connector.close_trade] (lines 376-468). *)
Definition close_trade (self : MT5Connector) (ticket : Z) (volume : option float)
    (symbol : option string) (max_retries : Z) : Prog (returned CloseOk) :=
  if negb (connected self) then Ret (Fail NotConnected) else
  let! position := positions_get ticket in
  match position with
  | None | Some [] => Ret (Fail (PositionNotFound ticket))
  | Some (pos :: _) =>
  let symbol := symbol_or symbol (pos_symbol pos) in
  let position_type :=
    if (pos_type pos =? POSITION_TYPE_BUY)%Z then "BUY"%string else "SELL"%string in
  let close_type :=
    if (pos_type pos =? POSITION_TYPE_BUY)%Z then ORDER_TYPE_SELL else ORDER_TYPE_BUY in
  let volume := capped_volume volume pos in
  let! selected := symbol_select symbol true in
  if negb selected then Ret (Fail (SymbolNotSelected symbol)) else
  let! info := symbol_info symbol in
  match info with
  | None => Ret (Fail (SymbolNotFound symbol))
  | Some info =>
  if (trade_mode info =? 0)%Z then Ret (Fail (SymbolNotTradable symbol)) else
  match normalize_volume info volume with
  | Raises e => Ret (Fail (Raised e))
  | Returns volume =>
  if flt volume (b64 (volume_min info))
  then Ret (Fail (VolumeBelowMinimum volume (volume_min info))) else
  if flt (b64 (volume_max info)) volume
  then Ret (Fail (VolumeExceedsMaximum volume (volume_max info))) else
  match supported_fillings (filling_mode info) with
  | [] => Ret (Fail (NoSupportedFilling symbol))
  | filling_type :: _ =>
      close_attempts ticket pos symbol position_type close_type volume
        (supported_fillings (filling_mode info)) max_retries
        (range max_retries) filling_type
  end
  end
  end
  end.

(** ** A scripted environment

    A concrete environment for running the methods on explicit inputs: the
    venue answers from fixed scripts, one per kind of call, consumed in
    order. *)

Record Script := {
  s_select : bool;                          (* every [symbol_select] *)
  s_info : option SymbolInfo;               (* every [symbol_info] *)
  s_ticks : list (option Tick);             (* successive [symbol_info_tick] *)
  s_rates : option (list Rate);             (* every [copy_rates_from_pos] *)
  s_positions : option (list Position);     (* every [positions_get] *)
  s_sends : list (option OrderSendResult);  (* successive [order_send] *)
  s_errors : list last_error_value;         (* successive [last_error] *)
  s_alive : bool;                           (* every [is_alive] *)
  s_next_thread : thread                    (* handle of the next thread *)
}.

Definition pop_tick (s : Script) : option Tick * Script :=
  (default None (head (s_ticks s)),
   {| s_select := s_select s; s_info := s_info s; s_ticks := tail (s_ticks s);
      s_rates := s_rates s; s_positions := s_positions s; s_sends := s_sends s;
      s_errors := s_errors s; s_alive := s_alive s;
      s_next_thread := s_next_thread s |}).

Definition pop_send (s : Script) : option OrderSendResult * Script :=
  (default None (head (s_sends s)),
   {| s_select := s_select s; s_info := s_info s; s_ticks := s_ticks s;
      s_rates := s_rates s; s_positions := s_positions s; s_sends := tail (s_sends s);
      s_errors := s_errors s; s_alive := s_alive s;
      s_next_thread := s_next_thread s |}).

Definition pop_error (s : Script) : last_error_value * Script :=
  (default (ErrTuple 1 "Success") (head (s_errors s)),
   {| s_select := s_select s; s_info := s_info s; s_ticks := s_ticks s;
      s_rates := s_rates s; s_positions := s_positions s; s_sends := s_sends s;
      s_errors := tail (s_errors s); s_alive := s_alive s;
      s_next_thread := s_next_thread s |}).

Definition fresh_thread (s : Script) : thread * Script :=
  (s_next_thread s,
   {| s_select := s_select s; s_info := s_info s; s_ticks := s_ticks s;
      s_rates := s_rates s; s_positions := s_positions s; s_sends := s_sends s;
      s_errors := s_errors s; s_alive := s_alive s;
      s_next_thread := S (s_next_thread s) |}).

Definition scripted (X : Type) (c : call X) (s : Script) : X * Script :=
  match c in call X0 return X0 * Script with
  | mt5_initialize => (true, s)
  | mt5_login _ _ _ => (true, s)
  | account_info => (Some {| acc_login := 1; trade_expert := true |}, s)
  | symbol_select _ _ => (s_select s, s)
  | symbol_info _ => (s_info s, s)
  | symbol_info_tick _ => pop_tick s
  | copy_rates_from_pos _ _ _ _ => (s_rates s, s)
  | positions_get _ => (s_positions s, s)
  | order_send _ => pop_send s
  | last_error => pop_error s
  | mt5_shutdown => (tt, s)
  | time_sleep _ => (tt, s)
  | time_time => (0%Q, s)
  | fromtimestamp_isoformat t => (pretty t, s)
  | socketio_emit _ _ _ => (tt, s)
  | thread_new _ => fresh_thread s
  | thread_start _ => (tt, s)
  | thread_is_alive _ => (s_alive s, s)
  | thread_join _ _ => (tt, s)
  end.

(** An instrument with step 0.01, minimum 0.01, maximum 10, two digits. *)
Definition gold (stops : option Z) (filling : Z) : SymbolInfo :=
  {| info_name := "XAUUSD"; point := 1 # 100; digits := 2; info_spread := 0;
     trade_mode := 4; volume_min := 1 # 100; volume_max := 10;
     volume_step := 1 # 100; stops_level := stops; filling_mode := filling |}.

Definition quiet (info : option SymbolInfo) (ticks : list (option Tick))
    (sends : list (option OrderSendResult)) (errors : list last_error_value)
    : Script :=
  {| s_select := true; s_info := info; s_ticks := ticks; s_rates := None;
     s_positions := None; s_sends := sends; s_errors := errors;
     s_alive := true; s_next_thread := 0 |}.

Definition with_positions (p : list Position) (s : Script) : Script :=
  {| s_select := s_select s; s_info := s_info s; s_ticks := s_ticks s;
     s_rates := s_rates s; s_positions := Some p; s_sends := s_sends s;
     s_errors := s_errors s; s_alive := s_alive s;
     s_next_thread := s_next_thread s |}.

Definition with_rates (r : option (list Rate)) (s : Script) : Script :=
  {| s_select := s_select s; s_info := s_info s; s_ticks := s_ticks s;
     s_rates := r; s_positions := s_positions s; s_sends := s_sends s;
     s_errors := s_errors s; s_alive := s_alive s;
     s_next_thread := s_next_thread s |}.

Definition online : MT5Connector := set_connected true init.

Definition done_result (v p : Q) : OrderSendResult :=
  {| retcode := TRADE_RETCODE_DONE; res_order := 1; res_deal := 1;
     res_volume := v; res_price := p |}.

Definition rejected (code : Z) : OrderSendResult :=
  {| retcode := code; res_order := 0; res_deal := 0; res_volume := 0; res_price := 0 |}.

(** ** What the specification says, in its own words *)

(** [clamp(x, lo, hi)]: the larger of [lo] and the smaller of [hi] and
    [x]. *)
Definition clamp (x lo hi : float) : float := py_fmax lo (py_fmin hi x).

(** [clamp(round(volume/step)*step, min, max)] of an instrument, in the
    float arithmetic of the implementation. *)
Definition spec_volume (info : SymbolInfo) (requested : float) : raises float :=
  let? quotient := py_truediv requested (b64 (volume_step info)) in
  let? steps := py_round_float quotient in
  let? steps := py_float_of_int steps in
  Returns (clamp (fmul steps (b64 (volume_step info)))
                 (b64 (volume_min info)) (b64 (volume_max info))).

(** The instrument's minimum stop distance: [stops_level] times [point]. *)
Definition min_stop_distance (info : SymbolInfo) : raises float :=
  let? level := py_float_of_int (default 0%Z (stops_level info)) in
  Returns (fmul level (b64 (point info))).

(** Stop-loss and take-profit prices at a distance from the reference
    price: BUY has its SL below and its TP above, SELL the reverse. *)
Definition sl_price (side : mt5_order_type) (price distance : float) : float :=
  match side with
  | ORDER_TYPE_BUY => fsub price distance
  | ORDER_TYPE_SELL => fadd price distance
  end.

Definition tp_price (side : mt5_order_type) (price distance : float) : float :=
  match side with
  | ORDER_TYPE_BUY => fadd price distance
  | ORDER_TYPE_SELL => fsub price distance
  end.

(** The reference price of an order: ask for BUY, bid for SELL. *)
Definition reference_price (side : mt5_order_type) (tick : Tick) : Q :=
  match side with
  | ORDER_TYPE_BUY => ask tick
  | ORDER_TYPE_SELL => bid tick
  end.

(** The stop-distance floor on a submitted request: a positive distance
    below the instrument's minimum [floor], whose first price (the one at
    the raw distance, rounded to the instrument's digits) is not zero, is
    submitted as the price at the minimum distance, rounded to the
    instrument's digits. *)
Definition floored (side : mt5_order_type)
    (at_distance : mt5_order_type -> float -> float -> float)
    (d : option float) (ndigits : Z) (floor price : float)
    (submitted : option float) : Prop :=
  forall x first,
    d = Some x -> flt fzero x = true -> flt x floor = true ->
    py_round_nd (at_distance side price x) ndigits = Returns first ->
    feq first fzero = false ->
    exists stop,
      py_round_nd (at_distance side price floor) ndigits = Returns stop
      /\ submitted = Some stop.

Definition stops_floored (sl_distance tp_distance : option float) (info : SymbolInfo)
    (req : TradeRequest) : Prop :=
  forall floor,
    min_stop_distance info = Returns floor ->
    floored (req_type req) sl_price sl_distance (digits info) floor
            (b64 (req_price req)) (req_sl req)
    /\ floored (req_type req) tp_price tp_distance (digits info) floor
               (b64 (req_price req)) (req_tp req).

(** What lines 280-289 and 324-333 make of one distance: the local [sl]
    (or [tp]) that the answer reports, and the key the request carries.
    [first] is the price at the raw distance; it is replaced by the price
    at [stop_level] when the distance is below it. *)
Definition stop_outcome (side : mt5_order_type)
    (at_distance : mt5_order_type -> float -> float -> float)
    (d : option float) (ndigits : Z) (stop_level price : float)
    (reported : float) (submitted : option float) : Prop :=
  exists first,
    first_stop d (at_distance side price (distance d)) ndigits = Returns first
    /\ if truthy_pos d && negb (feq first fzero)
       then submitted = Some reported
            /\ (if flt (distance d) stop_level
                then py_round_nd (at_distance side price stop_level) ndigits
                     = Returns reported
                else reported = first)
       else submitted = None /\ reported = first.

(** Membership of a filling mode in the capability bitmask. *)
Definition capable (filling_mode : Z) (f : order_filling) : bool :=
  match f with
  | ORDER_FILLING_FOK => Z.testbit filling_mode 0
  | ORDER_FILLING_IOC => Z.testbit filling_mode 1
  | ORDER_FILLING_RETURN => Z.testbit filling_mode 2
  end.

(** The first capability in the priority order FOK, IOC, RETURN. *)
Definition first_by_priority (filling_mode : Z) : option order_filling :=
  if capable filling_mode ORDER_FILLING_FOK then Some ORDER_FILLING_FOK
  else if capable filling_mode ORDER_FILLING_IOC then Some ORDER_FILLING_IOC
  else if capable filling_mode ORDER_FILLING_RETURN then Some ORDER_FILLING_RETURN
  else None.

(** The capabilities of a bitmask in the priority order FOK, IOC, RETURN. *)
Definition capabilities (filling_mode : Z) : list order_filling :=
  List.filter (capable filling_mode)
    [ORDER_FILLING_FOK; ORDER_FILLING_IOC; ORDER_FILLING_RETURN].

(** The capability a close falls back to: the second one in priority
    order when the instrument has at least two, the first one otherwise. *)
Definition fallback_capability (filling_mode : Z) : option order_filling :=
  match capabilities filling_mode with
  | _ :: second :: _ => Some second
  | first :: _ => Some first
  | [] => None
  end.

(** Two connectors with the same subscription map and worker registry. *)
Definition same_registry (self self' : MT5Connector) : Prop :=
  active_subscriptions self' = active_subscriptions self
  /\ price_threads self' = price_threads self.

(** A symbol has a registered worker iff its subscriber list is non-empty. *)
Definition registry_inv (self : MT5Connector) : Prop :=
  forall symbol : string,
    is_Some (price_threads self !! symbol) <->
    exists subscribers, active_subscriptions self !! symbol = Some subscribers
                        /\ subscribers <> [].

(** ** Observations on traces *)

Definition info_read (e : event) : option (option SymbolInfo) :=
  match e with
  | @Ev X c x =>
      match c in call X0 return X0 -> option (option SymbolInfo) with
      | symbol_info _ => fun x => Some x
      | _ => fun _ => None
      end x
  end.

Definition infos_read (tr : list event) : list (option SymbolInfo) :=
  omap info_read tr.

Definition position_read (e : event) : option (option (list Position)) :=
  match e with
  | @Ev X c x =>
      match c in call X0 return X0 -> option (option (list Position)) with
      | positions_get _ => fun x => Some x
      | _ => fun _ => None
      end x
  end.

Definition positions_read (tr : list event) : list (option (list Position)) :=
  omap position_read tr.

Definition rate_read (e : event) : option (option (list Rate)) :=
  match e with
  | @Ev X c x =>
      match c in call X0 return X0 -> option (option (list Rate)) with
      | copy_rates_from_pos _ _ _ _ => fun x => Some x
      | _ => fun _ => None
      end x
  end.

Definition rates_read (tr : list event) : list (option (list Rate)) :=
  omap rate_read tr.

Definition select_read (e : event) : option bool :=
  match e with
  | @Ev X c x =>
      match c in call X0 return X0 -> option bool with
      | symbol_select _ _ => fun x => Some x
      | _ => fun _ => None
      end x
  end.

Definition selects_read (tr : list event) : list bool := omap select_read tr.

(** The threads started, joined or asked for liveness in a trace. *)
Definition thread_started (e : event) : option thread :=
  match e with
  | @Ev X c x =>
      match c in call X0 return option thread with
      | thread_start t => Some t
      | _ => None
      end
  end.

Definition threads_started (tr : list event) : list thread := omap thread_started tr.

Definition thread_awaited (e : event) : option thread :=
  match e with
  | @Ev X c x =>
      match c in call X0 return option thread with
      | thread_join t _ => Some t
      | thread_is_alive t => Some t
      | _ => None
      end
  end.

Definition threads_awaited (tr : list event) : list thread := omap thread_awaited tr.

(** The pauses taken in a trace. *)
Definition pause_taken (e : event) : option Q :=
  match e with
  | @Ev X c x =>
      match c in call X0 return option Q with
      | time_sleep s => Some s
      | _ => None
      end
  end.

Definition pauses_taken (tr : list event) : list Q := omap pause_taken tr.

(** ** Reasoning about every environment at once *)

(** [wp p Q]: whatever the environment answers, the trace and the value
    of [p] satisfy [Q]. *)
Fixpoint wp {A : Type} (p : Prog A) (Q : list event -> A -> Prop) : Prop :=
  match p with
  | Ret a => Q [] a
  | Vis c k => forall x, wp (k x) (fun tr a => Q (Ev c x :: tr) a)
  end.

Section Fetches.
Context {V : Type}.
Variable handle : forall X : Type, call X -> V -> X * V.

(** The next [n] iterations of the worker of [symbol] all see
    [get_price] fail, the environment being the one left by the previous
    fetch and pause. *)
Fixpoint fetch_fails (n : nat) (symbol : string) (self : MT5Connector) (v : V)
    : Prop :=
  match n with
  | O => True
  | S n' =>
      let '(res, self1, v1, _) := run handle (get_price self symbol) v in
      (exists f, res = Fail f)
      /\ fetch_fails n' symbol self1
           (snd (handle _ (time_sleep (batch_interval self1)) v1))
  end.

(** The environment answers the calls of a list of events, in order, as
    the events say. *)
Fixpoint answers (evs : list event) (v : V) : Prop :=
  match evs with
  | [] => True
  | @Ev X c x :: rest =>
      fst (handle X c v) = x /\ answers rest (snd (handle X c v))
  end.
End Fetches.

(** The loop test of a worker (line 208) holds. *)
Definition live (symbol : string) (self : MT5Connector) : Prop :=
  is_Some (price_threads self !! symbol)
  /\ connected self = true /\ shutdown_event self = false.

(** The answers that make a price fetch fail: a refused selection, or no
    tick and no bar. *)
Definition fetch_failed (e : event) : bool :=
  match e with
  | @Ev X c x =>
      match c in call X0 return X0 -> bool with
      | symbol_select _ _ => fun x => negb x
      | copy_rates_from_pos _ _ _ _ =>
          fun x => match x with
                   | None | Some [] => true
                   | Some (_ :: _) => false
                   end
      | _ => fun _ => false
      end x
  end.

Definition pushed (e : event) : bool :=
  match e with
  | @Ev X c x =>
      match c in call X0 return bool with
      | socketio_emit _ _ _ => true
      | _ => false
      end
  end.

(** The error count the specification describes, read off a trace: one
    more for each failed fetch, back to zero at each published quote. *)
Fixpoint errors_counted (count : nat) (tr : list event) : nat :=
  match tr with
  | [] => count
  | e :: tr' =>
      errors_counted (if pushed e then 0%nat
                      else if fetch_failed e then S count else count) tr'
  end.

(** The operations that change the connector between two observations. *)
Inductive step : MT5Connector -> MT5Connector -> Prop :=
| step_connect {V} (handle : forall X, call X -> V -> X * V) v self server login password :
    step self (snd (fst (fst (run handle (connect self server login password) v))))
| step_get_price {V} (handle : forall X, call X -> V -> X * V) v self symbol :
    step self (snd (fst (fst (run handle (get_price self symbol) v))))
| step_subscribe {V} (handle : forall X, call X -> V -> X * V) v self symbol client_id :
    step self (fst (fst (run handle (start_price_stream self symbol client_id) v)))
| step_unsubscribe self symbol client_id :
    step self (stop_price_stream self symbol client_id)
| step_worker_exit {V} (handle : forall X, call X -> V -> X * V) v self fuel symbol self' :
    fst (fst (run handle (price_worker fuel symbol self) v)) = Some self' ->
    step self self'
| step_disconnect {V} (handle : forall X, call X -> V -> X * V) v self :
    step self (snd (fst (fst (run handle (disconnect self) v)))).

(** The states the connector can be in, starting from [__init__]. *)
Inductive reachable : MT5Connector -> Prop :=
| reachable_init : reachable init
| reachable_step self self' : reachable self -> step self self' -> reachable self'.

(** Scripts used to exercise the order pipeline. *)
Definition tick_2000 : Tick := {| bid := 2000; ask := 2001; tick_time := 0 |}.

Definition long_position (volume : Q) : Position :=
  {| pos_ticket := 7; pos_symbol := "XAUUSD"; pos_type := POSITION_TYPE_BUY;
     pos_volume := volume; pos_magic := 0; pos_profit := 0 |}.

(** One open long position of volume 1 on an instrument accepting FOK and
    IOC; the venue fills the first close order. *)
Definition close_script : Script :=
  with_positions [long_position 1]
    (quiet (Some (gold None 3)) [Some tick_2000] [Some (done_result 1 2000)] []).

(** A placement of one lot on an instrument whose minimum stop distance
    is [stops] points of 0.01, at the given tick. *)
Definition stop_script (stops : Z) (tick : Tick) : Script :=
  quiet (Some (gold (Some stops) 1)) [Some tick] [Some (done_result 1 (ask tick))] [].

(** The same position; the venue rejects the first close order with the
    invalid-request code and fills the second. *)
Definition close_retry_script : Script :=
  with_positions [long_position 1]
    (quiet (Some (gold None 3)) [Some tick_2000; Some tick_2000]
           [Some (rejected 10021); Some (done_result 1 2000)] []).

(** An instrument whose volume bounds are out of order (minimum 2,
    maximum 1). *)
Definition inverted_bounds : SymbolInfo :=
  {| info_name := "XAUUSD"; point := 1 # 100; digits := 2; info_spread := 0;
     trade_mode := 4; volume_min := 2; volume_max := 1;
     volume_step := 1 # 100; stops_level := None; filling_mode := 1 |}.

(** A closed market: no tick, one last one-minute bar. *)
Definition last_bar : Rate :=
  {| rate_time := 60; rate_high := 2010; rate_low := 1990; rate_close := 2005 |}.

Definition closed_market : Script :=
  with_rates (Some [last_bar]) (quiet None [None] [] []).

(** The same position on an instrument accepting FOK, IOC and RETURN; the
    venue answers every close order with the invalid-request code. *)
Definition three_rejections : Script :=
  with_positions [long_position 1]
    (quiet (Some (gold None 7)) [Some tick_2000; Some tick_2000; Some tick_2000]
           [Some (rejected 10021); Some (rejected 10021); Some (rejected 10021)] []).

(** A venue on which no symbol can be selected: every price fetch fails. *)
Definition unselectable : Script :=
  {| s_select := false; s_info := None; s_ticks := []; s_rates := None;
     s_positions := None; s_sends := []; s_errors := [];
     s_alive := true; s_next_thread := 0 |}.

(** The connector after one client subscribed to one symbol: one worker
    thread (handle 0) is registered. *)
Definition subscribed : MT5Connector :=
  fst (fst (run scripted (start_price_stream online "XAUUSD" "c1") unselectable)).

(** A venue that quotes once, fails four times, repeats the first quote
    and fails again. *)
Definition flaky_quotes : Script :=
  quiet None [Some tick_2000; None; None; None; None; Some tick_2000; None] [] [].

(** ** Further methods and handlers *)

(** The dictionary returned by [get_symbol_info]. *)
Record SymbolInfoDict := {
  d_name : string;
  d_point : Q;
  d_digits : Z;
  d_spread : Z;
  d_trade_mode : Z;
  d_volume_min : Q;
  d_volume_max : Q;
  d_volume_step : Q;
  d_stops_level : Z;
  d_filling_mode : Z
}.

(** [MT5Connector.get_symbol_info] (lines 98-129). *)
Definition get_symbol_info (self : MT5Connector) (symbol : string)
    : Prog (returned SymbolInfoDict) :=
  if negb (connected self) then Ret (Fail NotConnected) else
  let! selected := symbol_select symbol true in
  if negb selected then Ret (Fail (SymbolNotSelected symbol)) else
  let! info := symbol_info symbol in
  match info with
  | None => Ret (Fail (SymbolNotFound symbol))
  | Some info =>
      let stops_level := default 0%Z (stops_level info) in
      Ret (Ok {| d_name := info_name info; d_point := point info;
                 d_digits := digits info; d_spread := info_spread info;
                 d_trade_mode := trade_mode info;
                 d_volume_min := volume_min info;
                 d_volume_max := volume_max info;
                 d_volume_step := volume_step info;
                 d_stops_level := stops_level;
                 d_filling_mode := filling_mode info |})
  end.

(** The payload of the [/symbol_filling/<symbol>] endpoint. *)
Record FillingReport := {
  fr_symbol : string;
  fr_filling_mode : Z;
  fr_supported_fillings : list string
}.

(** The endpoint [get_symbol_filling] (lines 699-724), without the HTTP
    wrapping of its answer. *)
Definition get_symbol_filling (self : MT5Connector) (symbol : string)
    : Prog (returned FillingReport) :=
  let!! 'result := get_symbol_info self symbol in
  match result with
  | Ok result =>
      let filling_mode := d_filling_mode result in
      let supported_fillings :=
        (if (Z.land filling_mode 1 =? 0)%Z then [] else ["FOK"%string])
        ++ (if (Z.land filling_mode 2 =? 0)%Z then [] else ["IOC"%string])
        ++ (if (Z.land filling_mode 4 =? 0)%Z then [] else ["RETURN"%string]) in
      Ret (Ok {| fr_symbol := symbol; fr_filling_mode := filling_mode;
                 fr_supported_fillings := supported_fillings |})
  | Fail f => Ret (Fail f)
  end.

(** The socket handler [handle_disconnect] (lines 521-526) for the
    session id [client_id]: one [stop_price_stream] per subscribed
    symbol. *)
Definition handle_disconnect (self : MT5Connector) (client_id : string)
    : MT5Connector :=
  foldl (fun s symbol => stop_price_stream s symbol (Some client_id)) self
        (map fst (map_to_list (active_subscriptions self))).

(** ** Further observations and specifications *)

(** The market-data pushes of a trace: event name, payload and room. *)
Definition emit_read (e : event) : option (string * PriceData * string) :=
  match e with
  | @Ev X c x =>
      match c in call X0 return option (string * PriceData * string) with
      | socketio_emit ev data room => Some (ev, data, room)
      | _ => None
      end
  end.

Definition emits_read (tr : list event) : list (string * PriceData * string) :=
  omap emit_read tr.

(** Two quotes with the same bid and the same ask. *)
Definition same_quote (p q : Q * Q) : Prop :=
  (fst p == fst q)%Q /\ (snd p == snd q)%Q.

(** Every quote of the list differs from the one before it, the first one
    from [prev] when there is one. *)
Fixpoint quotes_change (prev : option (Q * Q)) (quotes : list (Q * Q)) : Prop :=
  match quotes with
  | [] => True
  | q :: rest =>
      match prev with
      | Some p => ~ same_quote p q
      | None => True
      end
      /\ quotes_change (Some q) rest
  end.

(** Name of a filling mode, as the endpoint prints it. *)
Definition filling_name (f : order_filling) : string :=
  match f with
  | ORDER_FILLING_FOK => "FOK"
  | ORDER_FILLING_IOC => "IOC"
  | ORDER_FILLING_RETURN => "RETURN"
  end.

(** The maps are well formed: the same symbols have a worker and a
    subscriber list, and every subscriber list is non-empty and without
    duplicates. *)
Definition registry_wf (self : MT5Connector) : Prop :=
  (forall symbol : string,
      is_Some (price_threads self !! symbol)
      <-> is_Some (active_subscriptions self !! symbol))
  /\ (forall (symbol : string) subscribers,
        active_subscriptions self !! symbol = Some subscribers ->
        subscribers <> [] /\ NoDup subscribers).

(** What unsubscribing [client_id] makes of the subscriber entry of a
    symbol. *)
Definition unsub_entry (client_id : string) (entry : option (list string))
    : option (list string) :=
  match entry with
  | None => None
  | Some subscribers =>
      match list_remove client_id subscribers with
      | [] => None
      | l => Some l
      end
  end.

(** The price a close order is sent at: bid for a long position, ask
    otherwise. *)
Definition closing_price (pos : Position) (tick : Tick) : Q :=
  if (pos_type pos =? POSITION_TYPE_BUY)%Z then bid tick else ask tick.

(** The side of the order that closes a position. *)
Definition closing_side (pos : Position) : mt5_order_type :=
  if (pos_type pos =? POSITION_TYPE_BUY)%Z then ORDER_TYPE_SELL else ORDER_TYPE_BUY.

(** A venue whose account forbids automated trading. *)
Definition scripted_no_algo (X : Type) (c : call X) (s : Script) : X * Script :=
  match c in call X0 return X0 * Script with
  | account_info => (Some {| acc_login := 1; trade_expert := false |}, s)
  | c' => scripted _ c' s
  end.

(** The connector [disconnect] leaves behind. *)
Definition disconnected (self : MT5Connector) : MT5Connector :=
  {| connected := false; active_subscriptions := ∅; price_threads := ∅;
     symbol_data := symbol_data self; batch_interval := batch_interval self;
     shutdown_event := true |}.

(** The quotes (bid, ask) pushed in a trace, in order. *)
Definition quotes_pushed (tr : list event) : list (Q * Q) :=
  map (fun e => (pd_bid (snd (fst e)), pd_ask (snd (fst e)))) (emits_read tr).

(** A push of the worker of [symbol]: the market-data event, addressed to
    the room of the symbol, carrying a price of that symbol. *)
Definition push_for (symbol : string) (e : string * PriceData * string) : Prop :=
  fst (fst e) = "market-data"%string
  /\ snd e = ("symbol_" ++ symbol)%string
  /\ pd_symbol (snd (fst e)) = symbol.

(** The SL/TP of a submitted request when nothing has to be widened: a
    positive distance that is not below the instrument's minimum [floor]
    (first price not zero) is submitted as the price at that distance,
    rounded to the instrument's digits; an absent distance, or one that is
    not positive, gives a request without that key. *)
Definition kept (side : mt5_order_type)
    (at_distance : mt5_order_type -> float -> float -> float)
    (d : option float) (ndigits : Z) (floor price : float)
    (submitted : option float) : Prop :=
  (forall x first,
     d = Some x -> flt fzero x = true -> flt x floor = false ->
     py_round_nd (at_distance side price x) ndigits = Returns first ->
     feq first fzero = false ->
     submitted = Some first)
  /\ ((d = None \/ exists x, d = Some x /\ flt fzero x = false) ->
      submitted = None).

Definition stops_kept (sl_distance tp_distance : option float) (info : SymbolInfo)
    (req : TradeRequest) : Prop :=
  forall floor,
    min_stop_distance info = Returns floor ->
    kept (req_type req) sl_price sl_distance (digits info) floor
         (b64 (req_price req)) (req_sl req)
    /\ kept (req_type req) tp_price tp_distance (digits info) floor
            (b64 (req_price req)) (req_tp req).

(** What every order of a close looks like: the side opposite to the
    position, the position's ticket and magic number, the symbol closed,
    a market deal without stop-loss or take-profit. *)
Definition closes_position (ticket : Z) (pos : Position) (symbol : string)
    (req : TradeRequest) : Prop :=
  req_action req = TRADE_ACTION_DEAL
  /\ req_type req = closing_side pos
  /\ req_position req = Some ticket
  /\ req_symbol req = symbol
  /\ req_magic req = pos_magic pos
  /\ req_sl req = None /\ req_tp req = None.

(** The prices a close would send at, one per tick fetched. *)
Definition closing_prices (pos : Position) (ticks : list (string * option Tick))
    : list (option Q) :=
  map (fun st => match snd st with
                 | Some tick => Some (closing_price pos tick)
                 | None => None
                 end) ticks.

(** * Properties *)

(** ** Basic facts *)

Lemma Qltb_true x y : Qltb x y = true <-> (x < y)%Q.
Proof.
  unfold Qltb. rewrite negb_true_iff. split.
  - intros H. apply Qnot_le_lt. intros Hle. apply Qle_bool_iff in Hle. congruence.
  - intros H. destruct (Qle_bool y x) eqn:E; [|reflexivity].
    apply Qle_bool_iff in E. exfalso. exact (Qlt_not_le _ _ H E).
Qed.

Lemma Qltb_false x y : Qltb x y = false <-> (y <= x)%Q.
Proof.
  unfold Qltb. rewrite negb_false_iff. apply Qle_bool_iff.
Qed.

(** [round] goes to the even neighbour on a tie, [upper] maps ASCII
    letters, [range] counts from zero. *)
Example py_round_ties :
  py_round (25 # 10) = 2%Z /\ py_round (35 # 10) = 4%Z
  /\ py_round (-25 # 10) = (-2)%Z /\ py_round (127 # 10) = 13%Z.
Proof. repeat split; reflexivity. Qed.

Example upper_buy : upper "buy" = "BUY"%string /\ upper "Sell" = "SELL"%string.
Proof. split; reflexivity. Qed.

Example range_three : range 3 = [0; 1; 2]%Z /\ range (-1) = [].
Proof. split; reflexivity. Qed.

Ltac Qltb_facts :=
  repeat match goal with
  | H : Qltb _ _ = true |- _ => apply Qltb_true in H
  | H : Qltb _ _ = false |- _ => apply Qltb_false in H
  end.

(** Running a program against any environment yields a trace and a value
    that [wp] has accounted for. *)
Lemma wp_run {A : Type} (p : Prog A) :
  forall (Q : list event -> A -> Prop), wp p Q ->
  forall (V : Type) (handle : forall X, call X -> V -> X * V) (v : V),
    Q (snd (run handle p v)) (fst (fst (run handle p v))).
Proof.
  induction p as [a | X c k IH]; intros Q Hwp V handle v.
  - exact Hwp.
  - cbn [run wp] in *. destruct (handle X c v) as [x v1].
    specialize (IH x _ (Hwp x) V handle v1).
    destruct (run handle (k x) v1) as [[a v2] tr]. exact IH.
Qed.

Lemma wp_mono {A : Type} (p : Prog A) :
  forall (Q Q' : list event -> A -> Prop),
    (forall tr a, Q tr a -> Q' tr a) -> wp p Q -> wp p Q'.
Proof.
  induction p as [a | X c k IH]; intros Q Q' Himp Hwp; cbn [wp] in *.
  - auto.
  - intros x. apply (IH x (fun tr a => Q (Ev c x :: tr) a)); auto.
Qed.

(** Symbolic execution of a method body: one case per answer of the
    environment and per branch taken. *)
Ltac exec_step :=
  match goal with
  | |- wp (Ret _) _ => cbn [wp]
  | |- wp (Vis ?c ?k) ?Q =>
      change (forall x, wp (k x) (fun tr a => Q (Ev c x :: tr) a)); intro; cbv beta
  | |- wp (if ?b then _ else _) _ => destruct b eqn:?
  | |- wp (match (if ?b then _ else _) with _ => _ end) _ => destruct b eqn:?
  | |- wp (match ?o with _ => _ end) _ => destruct o eqn:?
  | |- wp (let x := _ in _) _ => cbv zeta
  end.
Ltac exec := repeat exec_step.

Ltac trace_facts :=
  cbn [sent_orders errors_read infos_read positions_read ticks_read rates_read
       selects_read threads_started threads_awaited pauses_taken
       omap list_omap sent_order error_read info_read position_read
       tick_read rate_read select_read thread_started thread_awaited
       pause_taken In] in *.

Ltac split_cases :=
  repeat match goal with
  | H : _ \/ _ |- _ => destruct H
  | H : False |- _ => destruct H
  | H : Some _ = Some _ |- _ => injection H as H; subst
  | H : (_, _) = (_, _) |- _ => injection H as H; subst
  | H : _ :: _ = _ :: _ |- _ => injection H as H; subst
  end; try discriminate.

Ltac Zeqb_facts :=
  repeat match goal with
  | H : (_ =? _)%Z = true |- _ => apply Z.eqb_eq in H
  | H : (_ =? _)%Z = false |- _ => apply Z.eqb_neq in H
  end.


Lemma Qeq_bool_false x y : Qeq_bool x y = false <-> ~ (x == y)%Q.
Proof.
  split.
  - intros H E. apply Qeq_eq_bool in E. congruence.
  - intros H. destruct (Qeq_bool x y) eqn:E; [| reflexivity].
    apply Qeq_bool_eq in E. contradiction.
Qed.

(** ** Order on floats *)

Lemma SFcompare_antisym (a b : float) :
  SFcompare b a = option_map CompOpp (SFcompare a b).
Proof.
  destruct a as [sa | sa | | sa ma ea], b as [sb | sb | | sb mb eb];
    try destruct sa; try destruct sb; cbn; try reflexivity.
  all: rewrite (Z.compare_antisym ea eb); destruct (ea ?= eb)%Z; cbn; try reflexivity.
  all: change (Pos.compare_cont Eq mb ma) with (Pos.compare mb ma);
    change (Pos.compare_cont Eq ma mb) with (Pos.compare ma mb);
    rewrite (Pos.compare_antisym ma mb); destruct (Pos.compare ma mb); reflexivity.
Qed.

Lemma flt_antisym (a b : float) : flt a b = true -> flt b a = false.
Proof.
  unfold flt, SFltb. rewrite (SFcompare_antisym a b).
  destruct (SFcompare a b) as [[] |]; cbn; congruence.
Qed.

Lemma flt_irrefl (a : float) : flt a a = false.
Proof.
  destruct (flt a a) eqn:E; [| reflexivity].
  rewrite (flt_antisym a a E) in E. discriminate.
Qed.

Lemma flt_fle (a b : float) : flt a b = true -> fle a b = true.
Proof.
  unfold flt, fle, SFltb, SFleb. destruct (SFcompare a b) as [[] |]; congruence.
Qed.

Lemma SFcompare_refl (a : float) : a <> S754_nan -> SFcompare a a = Some Eq.
Proof.
  destruct a as [s | s | | s m e]; intros Hn; try destruct s; cbn;
    try reflexivity; try congruence.
  all: rewrite Z.compare_refl; f_equal.
  all: change (Pos.compare_cont Eq m m) with (Pos.compare m m);
    rewrite Pos.compare_refl; reflexivity.
Qed.

Lemma fle_ordered (a b : float) :
  fle a b = true -> fle a a = true /\ fle b b = true.
Proof.
  unfold fle, SFleb. intros H.
  assert (Ha : a <> S754_nan) by (intros ->; discriminate H).
  assert (Hb : b <> S754_nan) by (intros ->; destruct a; discriminate H).
  rewrite (SFcompare_refl a Ha), (SFcompare_refl b Hb). auto.
Qed.

(** Between ordered bounds the clamp stays within them. *)
Lemma clamp_bounds (x lo hi : float) :
  fle lo hi = true ->
  fle lo (clamp x lo hi) = true /\ fle (clamp x lo hi) hi = true.
Proof.
  intros Hle. destruct (fle_ordered lo hi Hle) as [Hlo Hhi].
  unfold clamp, py_fmax, py_fmin.
  destruct (flt x hi) eqn:Ex; destruct (flt lo _) eqn:El; auto using flt_fle.
Qed.

(** A clamp is never below its lower bound, whatever the bounds. *)
Lemma clamp_not_below (x lo hi : float) : flt (clamp x lo hi) lo = false.
Proof.
  unfold clamp, py_fmax. destruct (flt lo _) eqn:E.
  - apply flt_antisym. exact E.
  - apply flt_irrefl.
Qed.

(** It exceeds its upper bound only when the bounds are out of order. *)
Lemma clamp_above (x lo hi : float) :
  flt hi (clamp x lo hi) = true -> flt hi lo = true.
Proof.
  unfold clamp, py_fmax, py_fmin.
  destruct (flt x hi) eqn:Ex; destruct (flt lo _) eqn:El; intros H; try exact H.
  - rewrite (flt_antisym _ _ Ex) in H. discriminate.
  - rewrite flt_irrefl in H. discriminate.
Qed.

Lemma truthy_pos_Some (d : float) : truthy_pos (Some d) = flt fzero d.
Proof.
  unfold truthy_pos, feq, flt, SFeqb, SFltb.
  rewrite (SFcompare_antisym fzero d).
  destruct (SFcompare fzero d) as [[] |]; reflexivity.
Qed.

(** Two properties of the runs of a program hold together. *)
Lemma wp_and {A : Type} (p : Prog A) :
  forall (Q1 Q2 : list event -> A -> Prop),
    wp p Q1 -> wp p Q2 -> wp p (fun tr a => Q1 tr a /\ Q2 tr a).
Proof.
  induction p as [a | X c k IH]; intros Q1 Q2 H1 H2; cbn [wp] in *.
  - auto.
  - intros x. exact (IH x _ _ (H1 x) (H2 x)).
Qed.

(** The normalised volume is never below the minimum, and above the
    maximum only on an instrument whose maximum is below its minimum. *)
Lemma normalize_volume_not_below info volume vol :
  normalize_volume info volume = Returns vol ->
  flt vol (b64 (volume_min info)) = false.
Proof.
  unfold normalize_volume.
  destruct (py_truediv _ _); [| discriminate]. cbn [raises_bind].
  destruct (py_round_float _); [| discriminate]. cbn [raises_bind].
  destruct (py_float_of_int _); [| discriminate]. cbn [raises_bind].
  intros [= <-]. apply clamp_not_below.
Qed.

Lemma normalize_volume_above info volume vol :
  normalize_volume info volume = Returns vol ->
  flt (b64 (volume_max info)) vol = true ->
  flt (b64 (volume_max info)) (b64 (volume_min info)) = true.
Proof.
  unfold normalize_volume.
  destruct (py_truediv _ _); [| discriminate]. cbn [raises_bind].
  destruct (py_round_float _); [| discriminate]. cbn [raises_bind].
  destruct (py_float_of_int _); [| discriminate]. cbn [raises_bind].
  intros [= <-]. apply clamp_above.
Qed.

(** ** The request of a placement *)

Lemma normalize_volume_spec info volume :
  normalize_volume info volume = spec_volume info volume.
Proof. reflexivity. Qed.

Lemma stop_level_spec info : stop_level_of info = min_stop_distance info.
Proof. reflexivity. Qed.

(** Everything [build_request] decides, read off a request it returned. *)
Lemma build_request_Ok symbol volume order_type sl_distance tp_distance comment
    magic info stop_level tick request sl tp :
  build_request symbol volume order_type sl_distance tp_distance comment magic
    info stop_level tick = Ok (request, sl, tp) ->
  (req_action request = TRADE_ACTION_DEAL /\ req_symbol request = symbol
   /\ req_deviation request = 20%Z /\ req_magic request = magic
   /\ req_comment request = comment /\ req_position request = None
   /\ req_type_time request = Some ORDER_TIME_GTC)
  /\ (upper order_type = "BUY"%string /\ req_type request = ORDER_TYPE_BUY
      \/ upper order_type = "SELL"%string /\ req_type request = ORDER_TYPE_SELL)
  /\ req_price request = reference_price (req_type request) tick
  /\ normalize_volume info volume = Returns (req_volume request)
  /\ head (supported_fillings (filling_mode info)) = Some (req_type_filling request)
  /\ stop_outcome (req_type request) sl_price sl_distance (digits info) stop_level
       (b64 (req_price request)) sl (req_sl request)
  /\ stop_outcome (req_type request) tp_price tp_distance (digits info) stop_level
       (b64 (req_price request)) tp (req_tp request).
Proof.
  unfold build_request, stop_outcome.
  destruct (String.eqb (upper order_type) "BUY") eqn:Eb;
    [| destruct (String.eqb (upper order_type) "SELL") eqn:Es; [| discriminate]].
  all: destruct (first_stop sl_distance _ _) as [sl0 |] eqn:Esl; [| discriminate].
  all: destruct (first_stop tp_distance _ _) as [tp0 |] eqn:Etp; [| discriminate].
  all: destruct (normalize_volume info volume) as [vol |] eqn:Ev; [| discriminate].
  all: destruct (supported_fillings _) as [| f fs] eqn:Ef; [discriminate |].
  all: destruct (truthy_pos sl_distance && negb (feq sl0 fzero)) eqn:Gs;
    [destruct (flt (distance sl_distance) stop_level) eqn:Ls |].
  all: try match goal with
       | |- context [raises_bind (py_round_nd ?a ?b) _] =>
           destruct (py_round_nd a b) as [sl1 |] eqn:Rs; [| discriminate]
       end.
  all: cbn [raises_bind].
  all: destruct (truthy_pos tp_distance && negb (feq tp0 fzero)) eqn:Gt;
    [destruct (flt (distance tp_distance) stop_level) eqn:Lt |].
  all: try match goal with
       | |- context [raises_bind (py_round_nd ?a ?b) _] =>
           destruct (py_round_nd a b) as [tp1 |] eqn:Rt; [| discriminate]
       end.
  all: cbn [raises_bind].
  all: intros [= <- <- <-].
  all: cbn [req_action req_symbol req_deviation req_magic req_comment req_position
            req_type_time req_type req_price req_volume req_type_filling req_sl
            req_tp set_sl set_tp reference_price sl_price tp_price head].
  all: try apply String.eqb_eq in Eb; try apply String.eqb_eq in Es.
  all: split; [repeat split |].
  all: split; [auto |].
  all: split; [reflexivity |]. all: split; [reflexivity |].
  all: split; [reflexivity |].
  all: split; eexists; (split; [eassumption |]).
  all: rewrite ?Gs, ?Gt, ?Ls, ?Lt; auto.
Qed.

(** Every order [place_trade] sends is the request [build_request] made
    from the instrument and the tick the venue answered with, or that
    request at tolerance 50. *)
Lemma place_trade_request self symbol volume order_type sl_distance tp_distance
    comment magic :
  wp (place_trade self symbol volume order_type sl_distance tp_distance comment magic)
     (fun tr _ => forall info req ans,
        In (Some info) (infos_read tr) -> In (req, ans) (sent_orders tr) ->
        exists stop_level tick request sl tp,
          stop_level_of info = Returns stop_level
          /\ ticks_read tr = [(symbol, Some tick)]
          /\ build_request symbol volume order_type sl_distance tp_distance comment
               magic info stop_level tick = Ok (request, sl, tp)
          /\ (req = request \/ req = set_deviation 50 request)).
Proof.
  unfold place_trade. exec.
  all: intros info req ans Hinfo Hsent; trace_facts; split_cases.
  all: do 5 eexists; (split; [eassumption |]); (split; [reflexivity |]);
    (split; [eassumption |]); auto.
Qed.

(** ** Volume normalisation *)

Lemma place_trade_volume self symbol volume order_type sl_distance tp_distance
    comment magic :
  wp (place_trade self symbol volume order_type sl_distance tp_distance comment magic)
     (fun tr _ => forall info req ans,
        In (Some info) (infos_read tr) -> In (req, ans) (sent_orders tr) ->
        normalize_volume info volume = Returns (req_volume req)).
Proof.
  eapply wp_mono; [| apply place_trade_request]. cbn beta.
  intros tr _ H info req ans Hinfo Hsent.
  destruct (H info req ans Hinfo Hsent)
    as (stop_level & tick & request & sl & tp & _ & _ & Hb & Hreq).
  apply build_request_Ok in Hb. destruct Hb as (_ & _ & _ & Hv & _).
  destruct Hreq as [-> | ->]; exact Hv.
Qed.

(** Every order of the close loop carries the volume and one of the two
    filling modes the loop was entered with; the loop reads neither the
    position nor the instrument again. *)
Lemma close_attempts_sent ticket pos symbol position_type close_type volume
    fillings max_retries :
  forall attempts filling_type,
    wp (close_attempts ticket pos symbol position_type close_type volume
          fillings max_retries attempts filling_type)
       (fun tr _ =>
          Forall (fun ra : TradeRequest * option OrderSendResult =>
                    req_volume (fst ra) = volume
                    /\ (req_type_filling (fst ra) = filling_type
                        \/ fillings !! 1%nat = Some (req_type_filling (fst ra))))
                 (sent_orders tr)
          /\ (forall ra rest, sent_orders tr = ra :: rest ->
                req_type_filling (fst ra) = filling_type)
          /\ positions_read tr = [] /\ infos_read tr = []).
Proof.
  induction attempts as [| attempt rest IH]; intros filling_type;
    cbn [close_attempts]; exec; trace_facts.
  all: try (split; [repeat constructor; cbn; auto
                   | split; [intros; split_cases; reflexivity | auto]]).
  eapply wp_mono; [| apply IH]. cbn beta. intros tr _ (HF & _ & Hp & Hi). trace_facts.
  split; [| split; [intros; split_cases; reflexivity | auto]].
  constructor; [cbn; auto |].
  eapply Forall_impl; [exact HF |]. cbn beta. intros [r a] [Hv Hf]; cbn in *.
  split; [exact Hv |].
  destruct fillings as [| f0 [| f1 fs]]; cbn in *; destruct Hf as [Hf | Hf]; auto.
  right. congruence.
Qed.

(** What every order sent by [close_trade] looks like, in terms of the
    position and the instrument the venue answered with. *)
Lemma close_trade_sent self ticket volume symbol max_retries :
  wp (close_trade self ticket volume symbol max_retries)
     (fun tr _ => forall pos others info,
        In (Some (pos :: others)) (positions_read tr) ->
        In (Some info) (infos_read tr) ->
        (forall req ans, In (req, ans) (sent_orders tr) ->
           normalize_volume info (capped_volume volume pos) = Returns (req_volume req)
           /\ flt (req_volume req) (b64 (volume_min info)) = false
           /\ flt (b64 (volume_max info)) (req_volume req) = false
           /\ In (req_type_filling req) (supported_fillings (filling_mode info)))
        /\ (forall ra rest, sent_orders tr = ra :: rest ->
              head (supported_fillings (filling_mode info))
              = Some (req_type_filling (fst ra)))).
Proof.
  unfold close_trade. exec.
  all: try (intros pos' others info' Hpos Hinfo; trace_facts; split_cases;
            split; intros; trace_facts; split_cases).
  eapply wp_mono; [| apply close_attempts_sent]. cbn beta.
  intros tr _ (HF & Hfirst & Hp & Hi) pos' others info' Hpos Hinfo.
  trace_facts. fold (positions_read tr) in Hpos. fold (infos_read tr) in Hinfo.
  rewrite Hp in Hpos. rewrite Hi in Hinfo. trace_facts. split_cases.
  all: split.
  all: try (intros ra rest Hs; rewrite (Hfirst _ _ Hs);
            match goal with H : supported_fillings _ = _ |- _ => rewrite H end;
            reflexivity).
  all: intros req ans Hin; rewrite Forall_forall in HF;
    apply list_elem_of_In in Hin; destruct (HF _ Hin) as [Hv Hf]; cbn in Hv, Hf;
    rewrite Hv;
    split; [assumption |]; split; [assumption |]; split; [assumption |];
    match goal with H : supported_fillings _ = _ |- _ => rewrite H end;
    destruct Hf as [Hf | Hf];
    [ rewrite Hf; left; reflexivity
    | right; apply list_elem_of_In; eapply list_elem_of_lookup_2; exact Hf ].
Qed.

(** C1, as stated, fails for a close: a close asked for volume 5 on a
    position of volume 1 (step 0.01, minimum 0.01, maximum 10) submits
    volume 1, whereas the clamp of the requested volume is 5. *)
Lemma close_volume_counterexample :
  exists req ans,
    sent_orders (snd (run scripted (close_trade online 7 (Some (b64 5)) None 3)
                        close_script)) = [(req, ans)]
    /\ req_volume req = b64 1
    /\ spec_volume (gold None 3) (b64 5) = Returns (b64 5)
    /\ b64 5 <> b64 1.
Proof.
  eexists. eexists. split; [vm_compute; reflexivity |].
  split; [vm_compute; reflexivity |].
  split; [vm_compute; reflexivity |].
  vm_compute. discriminate.
Qed.

(** C1 (amended).  An order placement submits the volume
    [clamp(round(requested/step)*step, min, max)] of the instrument; a
    position close submits the same expression of the requested volume
    capped at the position's volume (the position's volume when none is
    requested).  The expression is evaluated in float arithmetic, and on
    an instrument whose minimum does not exceed its maximum the volume
    lies between the two.  This holds for every order the two methods
    send, whatever the environment answers. *)
Theorem submitted_volume :
  forall (V : Type) (handle : forall X, call X -> V -> X * V) (v : V)
         self symbol volume order_type sl_distance tp_distance comment magic
         ticket close_volume close_symbol max_retries,
    (forall info req ans,
        In (Some info)
           (infos_read (snd (run handle (place_trade self symbol volume order_type
                                           sl_distance tp_distance comment magic) v))) ->
        In (req, ans)
           (sent_orders (snd (run handle (place_trade self symbol volume order_type
                                            sl_distance tp_distance comment magic) v))) ->
        spec_volume info volume = Returns (req_volume req)
        /\ (fle (b64 (volume_min info)) (b64 (volume_max info)) = true ->
            fle (b64 (volume_min info)) (req_volume req) = true
            /\ fle (req_volume req) (b64 (volume_max info)) = true))
    /\ (forall pos others info req ans,
        In (Some (pos :: others))
           (positions_read (snd (run handle (close_trade self ticket close_volume
                                               close_symbol max_retries) v))) ->
        In (Some info)
           (infos_read (snd (run handle (close_trade self ticket close_volume
                                           close_symbol max_retries) v))) ->
        In (req, ans)
           (sent_orders (snd (run handle (close_trade self ticket close_volume
                                            close_symbol max_retries) v))) ->
        spec_volume info (capped_volume close_volume pos) = Returns (req_volume req)
        /\ (fle (b64 (volume_min info)) (b64 (volume_max info)) = true ->
            fle (b64 (volume_min info)) (req_volume req) = true
            /\ fle (req_volume req) (b64 (volume_max info)) = true)).
Proof.
  assert (Hbounds : forall info requested vol,
             spec_volume info requested = Returns vol ->
             fle (b64 (volume_min info)) (b64 (volume_max info)) = true ->
             fle (b64 (volume_min info)) vol = true
             /\ fle vol (b64 (volume_max info)) = true).
  { intros info requested vol. unfold spec_volume.
    destruct (py_truediv _ _); [| discriminate]. cbn [raises_bind].
    destruct (py_round_float _); [| discriminate]. cbn [raises_bind].
    destruct (py_float_of_int _); [| discriminate]. cbn [raises_bind].
    intros [= <-]. apply clamp_bounds. }
  intros. split.
  - intros info req ans Hinfo Hsent.
    pose proof (wp_run _ _ (place_trade_volume self symbol volume order_type
                              sl_distance tp_distance comment magic)
                  V handle v info req ans Hinfo Hsent) as Hv.
    rewrite normalize_volume_spec in Hv. split; [exact Hv |].
    exact (Hbounds _ _ _ Hv).
  - intros pos others info req ans Hpos Hinfo Hsent.
    destruct (wp_run _ _ (close_trade_sent self ticket close_volume close_symbol
                            max_retries) V handle v pos others info Hpos Hinfo)
      as [Hall _].
    destruct (Hall req ans Hsent) as (Hv & _).
    rewrite normalize_volume_spec in Hv. split; [exact Hv |].
    exact (Hbounds _ _ _ Hv).
Qed.

(** The example of the specification: step 0.01, minimum 0.01, maximum
    10, requested 0.127, submitted 0.13. *)
Lemma submitted_volume_witness :
  exists req ans,
    In (req, ans)
       (sent_orders (snd (run scripted
          (place_trade online "XAUUSD" (b64 (127 # 1000)) "BUY" None None "" 0)
          (quiet (Some (gold None 1)) [Some tick_2000]
                 [Some (done_result (13 # 100) 2001)] []))))
    /\ req_volume req = b64 (13 # 100).
Proof.
  eexists. eexists. split.
  - vm_compute. left. reflexivity.
  - destruct (submitted_volume Script scripted
                (quiet (Some (gold None 1)) [Some tick_2000]
                       [Some (done_result (13 # 100) 2001)] [])
                online "XAUUSD" (b64 (127 # 1000)) "BUY" None None "" 0
                0%Z None None 0%Z) as [Hplace _].
    edestruct (Hplace (gold None 1)) as [Hv _].
    + vm_compute. left. reflexivity.
    + vm_compute. left. reflexivity.
    + assert (Hs : spec_volume (gold None 1) (b64 (127 # 1000))
                   = Returns (b64 (13 # 100))) by (vm_compute; reflexivity).
      congruence.
Defined.

(** Float arithmetic decides the ties: 0.235 / 0.01 is the float just
    below 23.5, so a requested 0.235 is submitted as 0.23.  A requested
    1e308 has an infinite quotient, on which [round] raises: the placement
    fails with the error text and no order is sent, also on an instrument
    without any filling capability. *)
Example submitted_volume_float_cases :
  normalize_volume (gold None 1) (b64 (235 # 1000)) = Returns (b64 (23 # 100))
  /\ normalize_volume (gold None 1) (b64 (10 ^ 308)) = Raises OverflowError
  /\ run scripted (place_trade online "XAUUSD" (b64 (10 ^ 308)) "BUY" None None "" 0)
         (quiet (Some (gold None 0)) [Some tick_2000] [] [])
     = (Fail (Raised OverflowError), quiet (Some (gold None 0)) [] [] [],
        [Ev (symbol_select "XAUUSD" true) true;
         Ev (symbol_info "XAUUSD") (Some (gold None 0));
         Ev (symbol_info_tick "XAUUSD") (Some tick_2000)]).
Proof. repeat split; vm_compute; reflexivity. Qed.

(** ** Requote retry in [place_trade] *)

(** The shapes a run of [place_trade] can have, over every environment. *)
Lemma place_trade_shapes self symbol volume order_type sl_distance tp_distance
    comment magic :
  wp (place_trade self symbol volume order_type sl_distance tp_distance comment magic)
     (fun tr res =>
        match sent_orders tr, errors_read tr with
        | [], [] => exists f, res = Fail f
        | [(r1, Some o1)], [] =>
            req_deviation r1 = 20%Z
            /\ (if (retcode o1 =? TRADE_RETCODE_DONE)%Z then exists ok, res = Ok ok
                else res = Fail (OrderFailed (error_msg (retcode o1))))
        | [(r1, None)], [e1] =>
            req_deviation r1 = 20%Z /\ error_code_of e1 <> 10013%Z
            /\ res = Fail (OrderFailedCode (error_code_of e1) (error_comment_of e1))
        | [(r1, None); (r2, Some o2)], [e1] =>
            req_deviation r1 = 20%Z /\ error_code_of e1 = 10013%Z
            /\ r2 = set_deviation 50 r1 /\ req_deviation r2 = 50%Z
            /\ (if (retcode o2 =? TRADE_RETCODE_DONE)%Z then exists ok, res = Ok ok
                else res = Fail (OrderFailed (error_msg (retcode o2))))
        | [(r1, None); (r2, None)], [e1; e2] =>
            req_deviation r1 = 20%Z /\ error_code_of e1 = 10013%Z
            /\ r2 = set_deviation 50 r1 /\ req_deviation r2 = 50%Z
            /\ res = Fail (OrderFailedCode (error_code_of e2) (error_comment_of e2))
        | _, _ => False
        end).
Proof.
  unfold place_trade. exec.
  all: trace_facts.
  all: try (eexists; reflexivity).
  all: match goal with
       | H : build_request _ _ _ _ _ _ _ _ _ _ = Ok _ |- _ =>
           apply build_request_Ok in H; destruct H as ((_ & _ & Hdev & _) & _)
       end.
  all: unfold trade_outcome; Zeqb_facts.
  all: repeat split; try reflexivity; try assumption.
  all: destruct (retcode _ =? TRADE_RETCODE_DONE)%Z; [eexists; reflexivity | reflexivity].
Qed.

Section Requote.
Context {V : Type}.
Variable handle : forall X : Type, call X -> V -> X * V.

(** One answered call of a run. *)
Lemma run_answered {A X : Type} (c : call X) (k : X -> Prog A) (x : X)
    (evs : list event) (v : V) :
  answers handle (Ev c x :: evs) v ->
  answers handle evs (snd (handle X c v))
  /\ run handle (Vis c k) v
     = (let '(a, v2, tr) := run handle (k x) (snd (handle X c v)) in
        (a, v2, Ev c x :: tr)).
Proof.
  cbn [answers run]. intros [Hx Hrest]. split; [exact Hrest |].
  destruct (handle X c v) as [x' v1]. cbn [fst snd] in *. subst x'. reflexivity.
Qed.

Ltac answered H :=
  match goal with
  | |- context [run handle (Vis ?c ?k) ?v] =>
      let H' := fresh "Hans" in
      destruct (run_answered c k _ _ v H) as [H' ->]; clear H; rename H' into H;
      cbn [negb]
  end.

(** What an environment that answers as listed makes of a placement
    whose request [build_request] has made: the orders sent and the
    value returned. *)
Lemma place_trade_answered self symbol volume order_type sl_distance tp_distance
    comment magic info stop_level tick request sl tp (v : V) :
  connected self = true -> trade_mode info <> 0%Z ->
  stop_level_of info = Returns stop_level ->
  build_request symbol volume order_type sl_distance tp_distance comment magic
    info stop_level tick = Ok (request, sl, tp) ->
  let venue := [Ev (symbol_select symbol true) true;
                Ev (symbol_info symbol) (Some info);
                Ev (symbol_info_tick symbol) (Some tick)] in
  let out := run handle (place_trade self symbol volume order_type sl_distance
                           tp_distance comment magic) v in
  (forall o1,
      answers handle (venue ++ [Ev (order_send request) (Some o1)]) v ->
      sent_orders (snd out) = [(request, Some o1)]
      /\ fst (fst out) = trade_outcome o1 sl tp comment)
  /\ (forall e1,
      answers handle (venue ++ [Ev (order_send request) None; Ev last_error e1]) v ->
      error_code_of e1 <> 10013%Z ->
      sent_orders (snd out) = [(request, None)]
      /\ fst (fst out)
         = Fail (OrderFailedCode (error_code_of e1) (error_comment_of e1)))
  /\ (forall e1 a2,
      answers handle (venue ++ [Ev (order_send request) None; Ev last_error e1;
                                Ev (order_send (set_deviation 50 request)) a2]) v ->
      error_code_of e1 = 10013%Z ->
      sent_orders (snd out) = [(request, None); (set_deviation 50 request, a2)]
      /\ (forall o2, a2 = Some o2 ->
            fst (fst out) = trade_outcome o2 sl tp comment)
      /\ (a2 = None ->
          exists e2, errors_read (snd out) = [e1; e2]
                     /\ fst (fst out)
                        = Fail (OrderFailedCode (error_code_of e2)
                                  (error_comment_of e2)))).
Proof.
  intros Hconn Hmode Hstop Hbuild venue out.
  apply Z.eqb_neq in Hmode.
  subst out venue. unfold place_trade. rewrite Hconn. cbn [negb app].
  split; [| split].
  - intros o1 Hans. do 2 answered Hans. rewrite Hmode, Hstop. answered Hans.
    rewrite Hbuild. answered Hans.
    cbn [run fst snd]. trace_facts. auto.
  - intros e1 Hans Hcode. do 2 answered Hans. rewrite Hmode, Hstop. answered Hans.
    rewrite Hbuild. do 2 answered Hans.
    apply Z.eqb_neq in Hcode. rewrite Hcode.
    cbn [run fst snd]. trace_facts. auto.
  - intros e1 a2 Hans Hcode. do 2 answered Hans. rewrite Hmode, Hstop. answered Hans.
    rewrite Hbuild. do 2 answered Hans.
    apply Z.eqb_eq in Hcode. rewrite Hcode. answered Hans.
    destruct a2 as [o2 |].
    + cbn [run fst snd]. trace_facts.
      split; [reflexivity |]. split; [intros ? [= <-]; reflexivity | discriminate].
    + cbn [run].
      match goal with
      | |- context [let '(x, v1) := handle _ last_error ?w in _] =>
          destruct (handle _ last_error w) as [e2 v6]
      end.
      cbn [fst snd]. trace_facts.
      split; [reflexivity |]. split; [discriminate |]. intros _. eauto.
Qed.
End Requote.

(** C4.  A placement retries once, and only after a no-result answer with
    error code 10013.  On an environment that accepts the symbol and on
    which [build_request] has made the request:
    - a first answer with a result ends the call: one order, success on
      the done code and the order-failed error otherwise (also for a
      requote-class return code);
    - no result with an error code other than 10013 ends the call: one
      order, the order-failed error with the venue code and message;
    - no result with error code 10013 makes exactly one resubmission, of
      the same request at tolerance 50 instead of 20; its result decides
      as above, and a second no-result gives the order-failed error with
      the code and message of the second error.
    Whatever the environment answers, a run has one of these shapes or
    sends nothing: never a third order, never a retry after a result. *)
Theorem place_trade_requote_retry :
  forall (V : Type) (handle : forall X, call X -> V -> X * V) (v : V)
         self symbol volume order_type sl_distance tp_distance comment magic,
    let out := run handle (place_trade self symbol volume order_type
                             sl_distance tp_distance comment magic) v in
    let res := fst (fst out) in
    let tr := snd out in
    match sent_orders tr, errors_read tr with
    | [], [] => exists f, res = Fail f
    | [(r1, Some o1)], [] =>
        req_deviation r1 = 20%Z
        /\ (if (retcode o1 =? TRADE_RETCODE_DONE)%Z then exists ok, res = Ok ok
            else res = Fail (OrderFailed (error_msg (retcode o1))))
    | [(r1, None)], [e1] =>
        req_deviation r1 = 20%Z /\ error_code_of e1 <> 10013%Z
        /\ res = Fail (OrderFailedCode (error_code_of e1) (error_comment_of e1))
    | [(r1, None); (r2, Some o2)], [e1] =>
        req_deviation r1 = 20%Z /\ error_code_of e1 = 10013%Z
        /\ r2 = set_deviation 50 r1 /\ req_deviation r2 = 50%Z
        /\ (if (retcode o2 =? TRADE_RETCODE_DONE)%Z then exists ok, res = Ok ok
            else res = Fail (OrderFailed (error_msg (retcode o2))))
    | [(r1, None); (r2, None)], [e1; e2] =>
        req_deviation r1 = 20%Z /\ error_code_of e1 = 10013%Z
        /\ r2 = set_deviation 50 r1 /\ req_deviation r2 = 50%Z
        /\ res = Fail (OrderFailedCode (error_code_of e2) (error_comment_of e2))
    | _, _ => False
    end
    /\ forall info stop_level tick request sl tp,
         connected self = true -> trade_mode info <> 0%Z ->
         stop_level_of info = Returns stop_level ->
         build_request symbol volume order_type sl_distance tp_distance comment
           magic info stop_level tick = Ok (request, sl, tp) ->
         let venue := [Ev (symbol_select symbol true) true;
                       Ev (symbol_info symbol) (Some info);
                       Ev (symbol_info_tick symbol) (Some tick)] in
         req_deviation request = 20%Z
         /\ (forall o1,
               answers handle (venue ++ [Ev (order_send request) (Some o1)]) v ->
               sent_orders tr = [(request, Some o1)]
               /\ res = trade_outcome o1 sl tp comment)
         /\ (forall e1,
               answers handle
                 (venue ++ [Ev (order_send request) None; Ev last_error e1]) v ->
               error_code_of e1 <> 10013%Z ->
               sent_orders tr = [(request, None)]
               /\ res = Fail (OrderFailedCode (error_code_of e1)
                                (error_comment_of e1)))
         /\ (forall e1 a2,
               answers handle
                 (venue ++ [Ev (order_send request) None; Ev last_error e1;
                            Ev (order_send (set_deviation 50 request)) a2]) v ->
               error_code_of e1 = 10013%Z ->
               sent_orders tr = [(request, None); (set_deviation 50 request, a2)]
               /\ (forall o2, a2 = Some o2 -> res = trade_outcome o2 sl tp comment)
               /\ (a2 = None ->
                   exists e2, errors_read tr = [e1; e2]
                              /\ res = Fail (OrderFailedCode (error_code_of e2)
                                               (error_comment_of e2)))).
Proof.
  intros V handle v self symbol volume order_type sl_distance tp_distance comment magic.
  cbv zeta. split.
  - exact (wp_run _ _ (place_trade_shapes self symbol volume order_type sl_distance
                         tp_distance comment magic) V handle v).
  - intros info stop_level tick request sl tp Hconn Hmode Hstop Hbuild.
    split.
    + apply build_request_Ok in Hbuild. destruct Hbuild as ((_ & _ & Hdev & _) & _).
      exact Hdev.
    + exact (place_trade_answered handle self symbol volume order_type sl_distance
               tp_distance comment magic info stop_level tick request sl tp v
               Hconn Hmode Hstop Hbuild).
Qed.

(** A requote: the venue gives no result with error code 10013, then
    fills the resubmission; two orders go out, at tolerances 20 and 50,
    and the call succeeds. *)
Lemma place_trade_requote_retry_witness :
  let out := run scripted (place_trade online "XAUUSD" (b64 1) "BUY" None None "" 0)
               (quiet (Some (gold None 1)) [Some tick_2000]
                      [None; Some (done_result 1 2001)]
                      [ErrTuple 10013 "Requote"]) in
  map (fun ra => (req_deviation (fst ra), snd ra)) (sent_orders (snd out))
  = [(20%Z, None); (50%Z, Some (done_result 1 2001))]
  /\ exists ok, fst (fst out) = Ok ok.
Proof.
  cbv zeta.
  destruct (place_trade_requote_retry Script scripted
              (quiet (Some (gold None 1)) [Some tick_2000]
                     [None; Some (done_result 1 2001)] [ErrTuple 10013 "Requote"])
              online "XAUUSD"%string (b64 1) "BUY"%string None None ""%string 0%Z)
    as [_ Hretry].
  edestruct (Hretry (gold None 1) fzero tick_2000) as (Hdev & _ & _ & Hrequote).
  - reflexivity.
  - discriminate.
  - vm_compute. reflexivity.
  - vm_compute. reflexivity.
  - destruct (Hrequote (ErrTuple 10013 "Requote") (Some (done_result 1 2001)))
      as (Hsent & Hres & _).
    + vm_compute. repeat split; reflexivity.
    + reflexivity.
    + rewrite Hsent, (Hres _ eq_refl). split; [reflexivity |].
      eexists. reflexivity.
Defined.

(** A run of the retry where the venue gives no result twice, first with
    the requote code: the second error is the one reported. *)
Example place_trade_requote_twice :
  let out := run scripted (place_trade online "XAUUSD" (b64 1) "BUY" None None "" 0)
               (quiet (Some (gold None 1)) [Some tick_2000] [None; None]
                      [ErrTuple 10013 "Requote"; ErrTuple 10006 "Rejected"]) in
  map (fun ra => req_deviation (fst ra)) (sent_orders (snd out)) = [20%Z; 50%Z]
  /\ fst (fst out) = Fail (OrderFailedCode 10006 "Rejected").
Proof. vm_compute. split; reflexivity. Qed.

(** ** Stop-distance floor in [place_trade] *)

(** The floor, read off what the SL/TP block has done with one distance. *)
Lemma stop_outcome_floored side at_distance d ndigits stop_level price reported
    submitted :
  stop_outcome side at_distance d ndigits stop_level price reported submitted ->
  floored side at_distance d ndigits stop_level price submitted.
Proof.
  intros (first & Hfirst & Hout) x first' -> Hpos Hlt Hraw Hnz.
  unfold first_stop in Hfirst. cbn [distance default from_option id] in *.
  rewrite truthy_pos_Some, Hpos in *. rewrite Hraw in Hfirst.
  injection Hfirst as <-. rewrite Hnz, Hlt in Hout. cbn [andb negb] in Hout.
  destruct Hout as [-> Hround]. eauto.
Qed.

Lemma place_trade_stops self symbol volume order_type sl_distance tp_distance
    comment magic :
  wp (place_trade self symbol volume order_type sl_distance tp_distance comment magic)
     (fun tr _ => forall info req ans,
        In (Some info) (infos_read tr) -> In (req, ans) (sent_orders tr) ->
        stops_floored sl_distance tp_distance info req
        /\ (forall tick, In (symbol, Some tick) (ticks_read tr) ->
              req_price req = reference_price (req_type req) tick)).
Proof.
  eapply wp_mono; [| apply place_trade_request]. cbn beta.
  intros tr _ H info req ans Hinfo Hsent.
  destruct (H info req ans Hinfo Hsent)
    as (stop_level & tick & request & sl & tp & Hstop & Hticks & Hb & Hreq).
  apply build_request_Ok in Hb.
  destruct Hb as (_ & _ & Hprice & _ & _ & Hsl & Htp).
  assert (Hsame : req_type req = req_type request /\ req_price req = req_price request
                  /\ req_sl req = req_sl request /\ req_tp req = req_tp request)
    by (destruct Hreq as [-> | ->]; repeat split).
  destruct Hsame as (Etype & Eprice & Esl & Etp). split.
  - intros floor Hfloor. rewrite <- stop_level_spec, Hstop in Hfloor.
    injection Hfloor as <-. rewrite Etype, Eprice, Esl, Etp.
    split; eapply stop_outcome_floored; eassumption.
  - intros tick' Htick. rewrite Hticks in Htick. cbn in Htick.
    destruct Htick as [[= <-] | []]. rewrite Etype, Eprice. exact Hprice.
Qed.

(** C2, as stated, fails in three ways, each on an instrument with two
    digits and a point of 0.01:
    - a negative distance (-1, minimum 0.5) is non-zero and below the
      minimum, yet the request carries no stop-loss at all;
    - a distance (1, minimum 2) whose first price is zero (BUY at ask 1)
      is not widened either: no stop-loss is submitted;
    - a widened price is rounded to the instrument's digits: at ask
      2001.005 and minimum 0.5 the request carries the stop-loss 2000.51,
      which is not the price minus the minimum distance. *)
Lemma stop_floor_counterexample :
  (exists req ans floor,
      sent_orders (snd (run scripted
        (place_trade online "XAUUSD" (b64 1) "BUY" (Some (b64 (-1))) None "" 0)
        (stop_script 50 tick_2000))) = [(req, ans)]
      /\ min_stop_distance (gold (Some 50%Z) 1) = Returns floor
      /\ feq (b64 (-1)) fzero = false /\ flt (b64 (-1)) floor = true
      /\ req_sl req = None)
  /\ (exists req ans floor,
      sent_orders (snd (run scripted
        (place_trade online "XAUUSD" (b64 1) "BUY" (Some (b64 1)) None "" 0)
        (stop_script 200 {| bid := 1; ask := 1; tick_time := 0 |}))) = [(req, ans)]
      /\ min_stop_distance (gold (Some 200%Z) 1) = Returns floor
      /\ flt fzero (b64 1) = true /\ flt (b64 1) floor = true
      /\ req_sl req = None)
  /\ (exists req ans floor,
      sent_orders (snd (run scripted
        (place_trade online "XAUUSD" (b64 1) "BUY" (Some (b64 (1 # 10))) None "" 0)
        (stop_script 50 {| bid := 2000; ask := 2001005 # 1000; tick_time := 0 |})))
      = [(req, ans)]
      /\ min_stop_distance (gold (Some 50%Z) 1) = Returns floor
      /\ flt fzero (b64 (1 # 10)) = true /\ flt (b64 (1 # 10)) floor = true
      /\ req_sl req = Some (b64 (200051 # 100))
      /\ fsub (b64 (req_price req)) floor <> b64 (200051 # 100)).
Proof.
  split; [| split].
  - eexists. eexists. eexists. split; [vm_compute; reflexivity |].
    split; [vm_compute; reflexivity |]. repeat split.
  - eexists. eexists. eexists. split; [vm_compute; reflexivity |].
    split; [vm_compute; reflexivity |]. repeat split.
  - eexists. eexists. eexists. split; [vm_compute; reflexivity |].
    split; [vm_compute; reflexivity |].
    split; [reflexivity |]. split; [reflexivity |].
    split; [vm_compute; reflexivity |]. vm_compute. discriminate.
Qed.

(** C2 (amended).  In [place_trade], for every positive stop-loss or
    take-profit distance strictly smaller than the instrument's minimum
    stop distance ([stops_level] times [point]) and whose first computed
    price is not zero, every submitted request carries the SL/TP price
    recomputed from the reference price (ask for BUY, bid for SELL) at
    exactly that minimum distance, rounded to the instrument's digits
    (BUY: SL below, TP above; SELL: SL above, TP below). *)
Theorem stop_distance_floor :
  forall (V : Type) (handle : forall X, call X -> V -> X * V) (v : V)
         self symbol volume order_type sl_distance tp_distance comment magic
         info req ans,
    In (Some info)
       (infos_read (snd (run handle (place_trade self symbol volume order_type
                                       sl_distance tp_distance comment magic) v))) ->
    In (req, ans)
       (sent_orders (snd (run handle (place_trade self symbol volume order_type
                                        sl_distance tp_distance comment magic) v))) ->
    stops_floored sl_distance tp_distance info req
    /\ (forall tick,
          In (symbol, Some tick)
             (ticks_read (snd (run handle (place_trade self symbol volume order_type
                                             sl_distance tp_distance comment magic) v))) ->
          req_price req = reference_price (req_type req) tick).
Proof.
  intros V handle v self symbol volume order_type sl_distance tp_distance comment
    magic info req ans Hinfo Hsent.
  exact (wp_run _ _ (place_trade_stops self symbol volume order_type sl_distance
                       tp_distance comment magic) V handle v info req ans Hinfo Hsent).
Qed.

(** A BUY at ask 2001 with a stop-loss distance of 0.1 where the minimum
    is 0.5: the submitted stop-loss is 2000.5. *)
Lemma stop_distance_floor_witness :
  exists req ans,
    In (req, ans)
       (sent_orders (snd (run scripted
          (place_trade online "XAUUSD" (b64 1) "BUY" (Some (b64 (1 # 10))) None "" 0)
          (stop_script 50 tick_2000))))
    /\ req_sl req = Some (b64 (20005 # 10)).
Proof.
  eexists. eexists. split; [vm_compute; left; reflexivity |].
  edestruct (stop_distance_floor Script scripted (stop_script 50 tick_2000)
               online "XAUUSD"%string (b64 1) "BUY"%string (Some (b64 (1 # 10))) None
               ""%string 0%Z (gold (Some 50%Z) 1)) as [Hfloor _].
  - vm_compute. left. reflexivity.
  - vm_compute. left. reflexivity.
  - destruct (Hfloor (b64 (1 # 2))) as [Hsl _]; [vm_compute; reflexivity |].
    destruct (Hsl (b64 (1 # 10)) (b64 (20009 # 10))) as (stop & Hstop & Hreq).
    + reflexivity.
    + reflexivity.
    + reflexivity.
    + vm_compute. reflexivity.
    + reflexivity.
    + rewrite Hreq. vm_compute in Hstop. injection Hstop as <-.
      vm_compute. reflexivity.
Defined.

(** After rounding, the price at the minimum distance can be the price
    the raw distance gave: at ask 2001, a distance of 0.008 and a minimum
    of 0.01 both give 2000.99. *)
Example stop_floor_can_coincide :
  py_round_nd (fsub (b64 2001) (b64 (8 # 1000))) 2 = Returns (b64 (200099 # 100))
  /\ min_stop_distance (gold (Some 1%Z) 1) = Returns (b64 (1 # 100))
  /\ py_round_nd (fsub (b64 2001) (b64 (1 # 100))) 2 = Returns (b64 (200099 # 100)).
Proof. repeat split; vm_compute; reflexivity. Qed.

(** ** Filling-mode selection *)

Lemma land_pow2 a n :
  (0 <= n)%Z -> Z.land a (2 ^ n) = if Z.testbit a n then (2 ^ n)%Z else 0%Z.
Proof.
  intros Hn. apply Z.bits_inj'. intros m Hm.
  rewrite Z.land_spec, Z.pow2_bits_eqb by lia.
  destruct (Z.eqb_spec n m) as [-> | Hne].
  - rewrite andb_true_r. destruct (Z.testbit a m) eqn:E.
    + rewrite Z.pow2_bits_true by lia. reflexivity.
    + rewrite Z.bits_0. reflexivity.
  - rewrite andb_false_r. destruct (Z.testbit a n).
    + rewrite Z.pow2_bits_false by lia. reflexivity.
    + rewrite Z.bits_0. reflexivity.
Qed.

Lemma land_bit_zero a n :
  (0 <= n)%Z -> (Z.land a (2 ^ n) =? 0)%Z = negb (Z.testbit a n).
Proof.
  intros Hn. rewrite land_pow2 by exact Hn.
  destruct (Z.testbit a n); cbn [negb].
  - apply Z.eqb_neq. pose proof (Z.pow_pos_nonneg 2 n). lia.
  - reflexivity.
Qed.

Lemma supported_fillings_capable fm :
  supported_fillings fm
  = List.filter (capable fm) [ORDER_FILLING_FOK; ORDER_FILLING_IOC; ORDER_FILLING_RETURN].
Proof.
  unfold supported_fillings.
  change 1%Z with (2 ^ 0)%Z. change 2%Z with (2 ^ 1)%Z. change 4%Z with (2 ^ 2)%Z.
  rewrite !land_bit_zero by lia. cbn [List.filter capable].
  destruct (Z.testbit fm 0), (Z.testbit fm 1), (Z.testbit fm 2); reflexivity.
Qed.

Lemma supported_fillings_head fm :
  head (supported_fillings fm) = first_by_priority fm.
Proof.
  rewrite supported_fillings_capable. unfold first_by_priority.
  cbn [List.filter capable].
  destruct (Z.testbit fm 0), (Z.testbit fm 1), (Z.testbit fm 2); reflexivity.
Qed.

Lemma supported_fillings_In fm f :
  In f (supported_fillings fm) <-> capable fm f = true.
Proof.
  rewrite supported_fillings_capable, filter_In. split.
  - intros [_ H]. exact H.
  - intros H. split; [| exact H]. destruct f; cbn; auto.
Qed.

Lemma supported_fillings_capabilities fm : supported_fillings fm = capabilities fm.
Proof. apply supported_fillings_capable. Qed.

(** The failures of [build_request]: an order type that is neither BUY
    nor SELL, an arithmetic error, or an empty capability set. *)
Lemma build_request_Fail symbol volume order_type sl_distance tp_distance comment
    magic info stop_level tick f :
  build_request symbol volume order_type sl_distance tp_distance comment magic
    info stop_level tick = Fail f ->
  (f = InvalidOrderType (upper order_type)
   /\ upper order_type <> "BUY"%string /\ upper order_type <> "SELL"%string)
  \/ (exists e, f = Raised e)
  \/ (f = NoSupportedFilling symbol /\ supported_fillings (filling_mode info) = []).
Proof.
  unfold build_request.
  destruct (String.eqb (upper order_type) "BUY") eqn:Eb;
    [| destruct (String.eqb (upper order_type) "SELL") eqn:Es].
  3: { intros [= <-]. left. apply String.eqb_neq in Eb, Es. auto. }
  all: destruct (first_stop sl_distance _ _) as [sl0 |] eqn:Esl;
    [| intros [= <-]; right; left; eauto].
  all: destruct (first_stop tp_distance _ _) as [tp0 |] eqn:Etp;
    [| intros [= <-]; right; left; eauto].
  all: destruct (normalize_volume info volume) as [vol |] eqn:Ev;
    [| intros [= <-]; right; left; eauto].
  all: destruct (supported_fillings _) as [| f0 fs] eqn:Ef;
    [intros [= <-]; right; right; auto |].
  all: repeat match goal with
       | |- context [match ?x with Returns _ => _ | Raises _ => _ end] =>
           destruct x as [[? ?] |] eqn:?
       end.
  all: intros [= <-]; right; left; eauto.
Qed.

Lemma place_trade_filling self symbol volume order_type sl_distance tp_distance
    comment magic :
  wp (place_trade self symbol volume order_type sl_distance tp_distance comment magic)
     (fun tr res => forall info,
        In (Some info) (infos_read tr) ->
        (forall req ans, In (req, ans) (sent_orders tr) ->
           first_by_priority (filling_mode info) = Some (req_type_filling req))
        /\ (first_by_priority (filling_mode info) = None ->
            sent_orders tr = []
            /\ (trade_mode info <> 0%Z ->
                (exists tick, In (symbol, Some tick) (ticks_read tr)) ->
                upper order_type = "BUY"%string \/ upper order_type = "SELL"%string ->
                (forall e, res <> Fail (Raised e)) ->
                res = Fail (NoSupportedFilling symbol)))).
Proof.
  unfold place_trade. exec.
  all: intros info Hinfo; trace_facts; split_cases.
  all: rewrite <- supported_fillings_head.
  all: try match goal with
       | H : build_request _ _ _ _ _ _ _ _ _ _ = Ok _ |- _ =>
           apply build_request_Ok in H;
           destruct H as (_ & _ & _ & _ & Hhead & _); rewrite Hhead
       end.
  all: try match goal with
       | H : build_request _ _ _ _ _ _ _ _ _ _ = Fail _ |- _ =>
           apply build_request_Fail in H
       end.
  all: split.
  all: try solve [intros req ans Hsent; split_cases; reflexivity].
  all: intros Hnone; try discriminate; split; try reflexivity.
  all: intros Hmode [tick' Htick] Hside Hexn; split_cases.
  all: Zeqb_facts; try contradiction.
  all: try solve [exfalso; eapply Hexn; reflexivity].
  all: repeat match goal with
       | H : _ /\ _ |- _ => destruct H
       | H : exists _, _ |- _ => destruct H
       end; subst; try reflexivity; try tauto.
  all: exfalso; eapply Hexn; reflexivity.
Qed.

(** The orders of the close loop: the first carries the filling mode the
    loop was entered with, every later one the second capability when
    there is one and the same mode otherwise. *)
Lemma close_attempts_fillings ticket pos symbol position_type close_type volume
    fillings max_retries :
  forall attempts filling_type,
    wp (close_attempts ticket pos symbol position_type close_type volume
          fillings max_retries attempts filling_type)
       (fun tr _ =>
          forall ra rest, sent_orders tr = ra :: rest ->
            req_type_filling (fst ra) = filling_type
            /\ Forall (fun r : TradeRequest * option OrderSendResult =>
                         req_type_filling (fst r)
                         = match fillings with
                           | _ :: second :: _ => second
                           | _ => filling_type
                           end) rest).
Proof.
  induction attempts as [| attempt rest IH]; intros filling_type;
    cbn [close_attempts]; exec; trace_facts.
  all: try (intros ra rest' Hs;
            first [discriminate Hs
                  | injection Hs as <- <-; split; [reflexivity | constructor]]).
  eapply wp_mono; [| apply IH].
  cbn beta. intros tr _ Hrest ra rest' Hs. trace_facts.
  injection Hs as <- <-. split; [reflexivity |].
  fold (sent_orders tr).
  destruct (sent_orders tr) as [| rb rest''] eqn:Es; [constructor |].
  destruct (Hrest rb rest'' eq_refl) as [Hb Hall].
  constructor.
  - rewrite Hb. reflexivity.
  - eapply Forall_impl; [exact Hall |]. cbn beta. intros r ->.
    destruct fillings as [| f0 [| f1 fs]]; reflexivity.
Qed.

Lemma close_trade_fillings self ticket volume symbol max_retries :
  wp (close_trade self ticket volume symbol max_retries)
     (fun tr _ => forall pos others info,
        In (Some (pos :: others)) (positions_read tr) ->
        In (Some info) (infos_read tr) ->
        forall ra rest, sent_orders tr = ra :: rest ->
          first_by_priority (filling_mode info) = Some (req_type_filling (fst ra))
          /\ Forall (fun r : TradeRequest * option OrderSendResult =>
                       fallback_capability (filling_mode info)
                       = Some (req_type_filling (fst r))) rest).
Proof.
  unfold close_trade. exec.
  all: try (intros pos' others info' Hpos Hinfo ra rest Hs; trace_facts;
            discriminate Hs).
  eapply wp_mono; [| apply wp_and;
                     [apply close_attempts_fillings | apply close_attempts_sent]].
  cbn beta. intros tr _ [Hfill (_ & _ & Hp & Hi)] pos' others info' Hpos Hinfo ra rest Hs.
  trace_facts. fold (positions_read tr) in Hpos. fold (infos_read tr) in Hinfo.
  fold (sent_orders tr) in Hs.
  rewrite Hp in Hpos. rewrite Hi in Hinfo. trace_facts. split_cases.
  destruct (Hfill ra rest Hs) as [Hfirst Hrest].
  rewrite <- supported_fillings_head.
  unfold fallback_capability. rewrite <- supported_fillings_capabilities.
  match goal with H : supported_fillings _ = _ |- _ => rewrite H in * end.
  split; [cbn; congruence |].
  eapply Forall_impl; [exact Hrest |]. cbn beta. intros r ->.
  match goal with |- context [match ?l with _ => _ end] => destruct l as [| ? ?] end;
    reflexivity.
Qed.

Lemma close_trade_no_filling self ticket volume symbol max_retries :
  wp (close_trade self ticket volume symbol max_retries)
     (fun tr res => forall pos others info,
        In (Some (pos :: others)) (positions_read tr) ->
        In (Some info) (infos_read tr) ->
        first_by_priority (filling_mode info) = None ->
        sent_orders tr = []
        /\ (trade_mode info <> 0%Z -> (forall e, res <> Fail (Raised e)) ->
            flt (b64 (volume_max info)) (b64 (volume_min info)) = false ->
            res = Fail (NoSupportedFilling (symbol_or symbol (pos_symbol pos))))).
Proof.
  unfold close_trade. exec.
  all: try (intros pos' others info' Hpos Hinfo Hnone; trace_facts; split_cases;
            rewrite <- supported_fillings_head in Hnone;
            repeat match goal with H : supported_fillings _ = _ |- _ =>
                     rewrite H in Hnone end;
            try discriminate; split; try reflexivity;
            intros Hmode Hexn Hwf; Zeqb_facts;
            try contradiction; try reflexivity;
            try solve [exfalso; eapply Hexn; reflexivity];
            repeat match goal with
            | H : normalize_volume _ _ = Returns _ |- _ =>
                pose proof (normalize_volume_not_below _ _ _ H);
                pose proof (normalize_volume_above _ _ _ H);
                clear H
            end;
            exfalso; intuition congruence).
  eapply wp_mono; [| apply close_attempts_sent]. cbn beta.
  intros tr res (_ & _ & Hp & Hi) pos' others info' Hpos Hinfo Hnone.
  trace_facts. fold (positions_read tr) in Hpos. fold (infos_read tr) in Hinfo.
  rewrite Hp in Hpos. rewrite Hi in Hinfo. trace_facts. split_cases.
  all: rewrite <- supported_fillings_head in Hnone;
    match goal with H : supported_fillings _ = _ |- _ => rewrite H in Hnone end;
    discriminate.
Qed.

(** C3, as stated, fails for a close: on an instrument accepting FOK and
    IOC, a close whose first order is answered with the invalid-request
    code submits its second order with IOC, which is not the first member
    (FOK) of the capability set. *)
Lemma close_filling_counterexample :
  exists r1 a1 r2 a2,
    sent_orders (snd (run scripted (close_trade online 7 None None 3)
                        close_retry_script)) = [(r1, a1); (r2, a2)]
    /\ first_by_priority (filling_mode (gold None 3)) = Some ORDER_FILLING_FOK
    /\ req_type_filling r2 = ORDER_FILLING_IOC.
Proof.
  do 4 eexists. split; [vm_compute; reflexivity |]. split; reflexivity.
Qed.

(** C3 (amended).  Every order of a placement, and the first order of a
    position close, is submitted with the first member of the
    instrument's filling capabilities in the priority order FOK, IOC,
    RETURN; every later order of a close is submitted with the second
    member in that order when the instrument has at least two
    capabilities, and with the first member again when it has one.  If
    the capability set is empty, no order is submitted; the call then
    fails with the no-supported-filling error, the earlier checks having
    passed (instrument tradable, price available and order type valid for
    a placement, no arithmetic error raised, and for a close a maximum
    volume that is not below the minimum). *)
Theorem filling_mode_selection :
  forall (V : Type) (handle : forall X, call X -> V -> X * V) (v : V)
         self symbol volume order_type sl_distance tp_distance comment magic
         ticket close_volume close_symbol max_retries,
    let placed := run handle (place_trade self symbol volume order_type
                                sl_distance tp_distance comment magic) v in
    let closed := run handle (close_trade self ticket close_volume close_symbol
                                max_retries) v in
    (forall info, In (Some info) (infos_read (snd placed)) ->
       (forall req ans, In (req, ans) (sent_orders (snd placed)) ->
          first_by_priority (filling_mode info) = Some (req_type_filling req))
       /\ (first_by_priority (filling_mode info) = None ->
           sent_orders (snd placed) = []
           /\ (trade_mode info <> 0%Z ->
               (exists tick, In (symbol, Some tick) (ticks_read (snd placed))) ->
               upper order_type = "BUY"%string \/ upper order_type = "SELL"%string ->
               (forall e, fst (fst placed) <> Fail (Raised e)) ->
               fst (fst placed) = Fail (NoSupportedFilling symbol))))
    /\ (forall pos others info,
         In (Some (pos :: others)) (positions_read (snd closed)) ->
         In (Some info) (infos_read (snd closed)) ->
         (forall ra rest, sent_orders (snd closed) = ra :: rest ->
            first_by_priority (filling_mode info) = Some (req_type_filling (fst ra))
            /\ Forall (fun r : TradeRequest * option OrderSendResult =>
                         fallback_capability (filling_mode info)
                         = Some (req_type_filling (fst r))) rest)
         /\ (first_by_priority (filling_mode info) = None ->
             sent_orders (snd closed) = []
             /\ (trade_mode info <> 0%Z ->
                 (forall e, fst (fst closed) <> Fail (Raised e)) ->
                 flt (b64 (volume_max info)) (b64 (volume_min info)) = false ->
                 fst (fst closed)
                 = Fail (NoSupportedFilling (symbol_or close_symbol (pos_symbol pos)))))).
Proof.
  intros V handle v self symbol volume order_type sl_distance tp_distance comment
    magic ticket close_volume close_symbol max_retries. cbv zeta. split.
  - exact (wp_run _ _ (place_trade_filling self symbol volume order_type sl_distance
                         tp_distance comment magic) V handle v).
  - intros pos others info Hpos Hinfo. split.
    + exact (wp_run _ _ (close_trade_fillings self ticket close_volume close_symbol
                           max_retries) V handle v pos others info Hpos Hinfo).
    + exact (wp_run _ _ (close_trade_no_filling self ticket close_volume close_symbol
                           max_retries) V handle v pos others info Hpos Hinfo).
Qed.

(** The example of the specification: a bitmask with FOK and RETURN but
    not IOC (5) selects FOK; with bitmask 0 the placement fails with the
    no-supported-filling error and sends nothing.  A close on that
    instrument whose orders are all answered with the invalid-request
    code sends FOK, then RETURN twice. *)
Lemma filling_mode_selection_witness :
  (exists req ans,
      In (req, ans)
         (sent_orders (snd (run scripted
            (place_trade online "XAUUSD" (b64 1) "BUY" None None "" 0)
            (quiet (Some (gold None 5)) [Some tick_2000]
                   [Some (done_result 1 2001)] []))))
      /\ Some (req_type_filling req) = Some ORDER_FILLING_FOK)
  /\ (sent_orders (snd (run scripted
          (place_trade online "XAUUSD" (b64 1) "BUY" None None "" 0)
          (quiet (Some (gold None 0)) [Some tick_2000] [] []))) = []
      /\ fst (fst (run scripted
            (place_trade online "XAUUSD" (b64 1) "BUY" None None "" 0)
            (quiet (Some (gold None 0)) [Some tick_2000] [] [])))
         = Fail (NoSupportedFilling "XAUUSD"))
  /\ map (fun ra => req_type_filling (fst ra))
         (sent_orders (snd (run scripted (close_trade online 7 None None 3)
            (with_positions [long_position 1]
               (quiet (Some (gold None 5))
                  [Some tick_2000; Some tick_2000; Some tick_2000]
                  [Some (rejected 10021); Some (rejected 10021);
                   Some (rejected 10021)] [])))))
     = [ORDER_FILLING_FOK; ORDER_FILLING_RETURN; ORDER_FILLING_RETURN].
Proof.
  split; [| split].
  - eexists. eexists. split; [vm_compute; left; reflexivity |].
    destruct (filling_mode_selection Script scripted
                (quiet (Some (gold None 5)) [Some tick_2000]
                       [Some (done_result 1 2001)] [])
                online "XAUUSD" (b64 1) "BUY" None None ""%string 0%Z
                0%Z None None 0%Z) as [Hplace _].
    destruct (Hplace (gold None 5)) as [Hsel _]; [vm_compute; left; reflexivity |].
    rewrite <- (Hsel _ _ ltac:(vm_compute; left; reflexivity)). reflexivity.
  - destruct (filling_mode_selection Script scripted
                (quiet (Some (gold None 0)) [Some tick_2000] [] [])
                online "XAUUSD" (b64 1) "BUY" None None ""%string 0%Z
                0%Z None None 0%Z) as [Hplace _].
    destruct (Hplace (gold None 0)) as [_ Hempty]; [vm_compute; left; reflexivity |].
    destruct (Hempty eq_refl) as [Hsent Hres]. split; [exact Hsent |].
    apply Hres.
    + discriminate.
    + exists tick_2000. vm_compute. left. reflexivity.
    + left. reflexivity.
    + intros e. vm_compute. discriminate.
  - destruct (filling_mode_selection Script scripted
                (with_positions [long_position 1]
                   (quiet (Some (gold None 5))
                      [Some tick_2000; Some tick_2000; Some tick_2000]
                      [Some (rejected 10021); Some (rejected 10021);
                       Some (rejected 10021)] []))
                online "XAUUSD" (b64 1) "BUY" None None ""%string 0%Z
                7%Z None None 3%Z) as [_ Hclose].
    destruct (Hclose (long_position 1) [] (gold None 5)) as [Hfill _].
    + vm_compute. left. reflexivity.
    + vm_compute. left. reflexivity.
    + edestruct Hfill as [Hfirst Hrest]; [vm_compute; reflexivity |].
      vm_compute. reflexivity.
Defined.

(** ** Volume of a position close *)

(** The cap of line 391 never exceeds the position's volume. *)
Lemma capped_volume_le volume pos :
  flt (b64 (pos_volume pos)) (capped_volume volume pos) = false.
Proof.
  destruct volume as [r |]; cbn [capped_volume]; unfold py_fmin.
  - destruct (flt (b64 (pos_volume pos)) r) eqn:E; [apply flt_irrefl | exact E].
  - apply flt_irrefl.
Qed.

Lemma close_attempts_no_volume_error ticket pos symbol position_type close_type
    volume fillings max_retries :
  forall attempts filling_type,
    wp (close_attempts ticket pos symbol position_type close_type volume
          fillings max_retries attempts filling_type)
       (fun _ res => forall vol m,
          res <> Fail (VolumeBelowMinimum vol m)
          /\ res <> Fail (VolumeExceedsMaximum vol m)).
Proof.
  induction attempts as [| attempt rest IH]; intros filling_type;
    cbn [close_attempts]; exec.
  all: try (intros vol m; split; discriminate).
  eapply wp_mono; [| apply IH]. cbn beta. auto.
Qed.

(** The two volume checks of lines 400-403 come after the clamp of line
    399: the first can never fire, the second only on an instrument whose
    maximum volume is below its minimum. *)
Lemma close_trade_volume_checks self ticket volume symbol max_retries :
  wp (close_trade self ticket volume symbol max_retries)
     (fun tr res =>
        (forall vol m, res <> Fail (VolumeBelowMinimum vol m))
        /\ (forall vol m, res = Fail (VolumeExceedsMaximum vol m) ->
              exists info, In (Some info) (infos_read tr)
                /\ flt (b64 (volume_max info)) (b64 (volume_min info)) = true)).
Proof.
  unfold close_trade. exec.
  all: try (split; intros vol m; [discriminate | intros [= <- <-] || discriminate]).
  - match goal with
    | H : normalize_volume _ _ = Returns _ |- _ =>
        pose proof (normalize_volume_not_below _ _ _ H)
    end. congruence.
  - trace_facts. eexists. split; [left; reflexivity |].
    eapply normalize_volume_above; eassumption.
  - eapply wp_mono; [| apply close_attempts_no_volume_error]. cbn beta.
    intros tr res H. split; intros vol m.
    + apply H.
    + intros Hres. destruct (H vol m) as [_ Hne]. contradiction.
Qed.


(** The checks are dead whatever the environment answers: no close ever
    fails with the below-minimum error, nor, on an instrument whose
    maximum is not below its minimum, with the above-maximum error. *)
Lemma close_trade_never_rejects_volume :
  forall (V : Type) (handle : forall X, call X -> V -> X * V) (v : V)
         self ticket volume symbol max_retries,
    let out := run handle (close_trade self ticket volume symbol max_retries) v in
    (forall vol m, fst (fst out) <> Fail (VolumeBelowMinimum vol m))
    /\ (forall vol m, fst (fst out) = Fail (VolumeExceedsMaximum vol m) ->
          exists info, In (Some info) (infos_read (snd out))
            /\ flt (b64 (volume_max info)) (b64 (volume_min info)) = true).
Proof.
  intros V handle v self ticket volume symbol max_retries. cbv zeta.
  exact (wp_run _ _ (close_trade_volume_checks self ticket volume symbol max_retries)
           V handle v).
Qed.

(** On an instrument whose maximum (1) is below its minimum (2) the
    second check does fire: the clamp gives the minimum, which exceeds the
    maximum. *)
Example close_above_inverted_maximum :
  run scripted (close_trade online 7 None None 3)
      (with_positions [long_position 1] (quiet (Some inverted_bounds) [] [] []))
  = (Fail (VolumeExceedsMaximum (b64 2) 1),
     with_positions [long_position 1] (quiet (Some inverted_bounds) [] [] []),
     [Ev (positions_get 7) (Some [long_position 1]);
      Ev (symbol_select "XAUUSD" true) true;
      Ev (symbol_info "XAUUSD") (Some inverted_bounds)]).
Proof. vm_compute. reflexivity. Qed.

(** ** Price of a closed market *)

Lemma get_price_fallback self symbol :
  connected self = true ->
  wp (get_price self symbol)
     (fun tr out =>
        (forall rate others,
            selects_read tr = [true] -> ticks_read tr = [(symbol, None)] ->
            rates_read tr = [Some (rate :: others)] ->
            exists pd, fst out = Ok pd
                       /\ pd_symbol pd = symbol
                       /\ pd_bid pd = rate_close rate /\ pd_ask pd = rate_close rate
                       /\ pd_spread pd = 0%Q
                       /\ pd_high pd = rate_high rate /\ pd_low pd = rate_low rate
                       /\ pd_marketStatus pd = CLOSED)
        /\ (fst out = Fail (NoPriceData symbol) <->
            selects_read tr = [true] /\ ticks_read tr = [(symbol, None)]
            /\ (rates_read tr = [None] \/ rates_read tr = [Some []]))).
Proof.
  intros Hconn. unfold get_price. rewrite Hconn. cbn [negb]. exec.
  all: trace_facts; cbn [fst].
  all: repeat match goal with
       | H : negb ?b = false |- _ => destruct b; [clear H | discriminate H]
       | H : negb ?b = true |- _ => destruct b; [discriminate H | clear H]
       end.
  all: split.
  all: try solve [intros rate others Hs Ht Hr; split_cases].
  all: try solve [intros rate others Hs Ht Hr; split_cases;
                  eexists; repeat split; reflexivity].
  all: split.
  all: try discriminate.
  all: try solve [intros (Hs & Ht & [Hr | Hr]); split_cases].
  all: try solve [intros _; auto].
Qed.

(** C10.  On a connected session, when the symbol is selected, the venue
    has no current tick and the last one-minute bar exists, [get_price]
    succeeds with bid and ask equal to the bar's close, spread 0, high and
    low of the bar and market status CLOSED; the no-price failure is
    returned exactly when the symbol is selected and neither a tick nor a
    bar is available. *)
Theorem get_price_closed_market :
  forall (V : Type) (handle : forall X, call X -> V -> X * V) (v : V) self symbol,
    connected self = true ->
    let out := run handle (get_price self symbol) v in
    let res := fst (fst (fst out)) in
    let tr := snd out in
    (forall rate others,
        selects_read tr = [true] -> ticks_read tr = [(symbol, None)] ->
        rates_read tr = [Some (rate :: others)] ->
        exists pd, res = Ok pd
                   /\ pd_symbol pd = symbol
                   /\ pd_bid pd = rate_close rate /\ pd_ask pd = rate_close rate
                   /\ pd_spread pd = 0%Q
                   /\ pd_high pd = rate_high rate /\ pd_low pd = rate_low rate
                   /\ pd_marketStatus pd = CLOSED)
    /\ (res = Fail (NoPriceData symbol) <->
        selects_read tr = [true] /\ ticks_read tr = [(symbol, None)]
        /\ (rates_read tr = [None] \/ rates_read tr = [Some []])).
Proof.
  intros V handle v self symbol Hconn. cbv zeta.
  exact (wp_run _ _ (get_price_fallback self symbol Hconn) V handle v).
Qed.

(** With no tick and the bar (high 2010, low 1990, close 2005), the price
    returned is 2005 on both sides, marked CLOSED. *)
Lemma get_price_closed_market_witness :
  exists pd,
    fst (fst (fst (run scripted (get_price online "XAUUSD") closed_market))) = Ok pd
    /\ pd_bid pd = 2005%Q /\ pd_ask pd = 2005%Q /\ pd_spread pd = 0%Q
    /\ pd_high pd = 2010%Q /\ pd_low pd = 1990%Q /\ pd_marketStatus pd = CLOSED.
Proof.
  destruct (get_price_closed_market Script scripted closed_market online "XAUUSD"
              eq_refl) as [Hbar _].
  destruct (Hbar last_bar [] eq_refl eq_refl eq_refl)
    as (pd & Hres & _ & Hbid & Hask & Hspread & Hhigh & Hlow & Hstatus).
  exists pd. repeat split; assumption.
Defined.

(** ** Retries of a position close *)

Lemma range_last m : (0 < m)%Z -> last (range m) = Some (m - 1)%Z.
Proof.
  intros Hm. unfold range.
  destruct (Z.to_nat m) as [| k] eqn:E; [lia |].
  rewrite List.seq_S, List.map_app. cbn [List.map]. rewrite last_snoc. f_equal. lia.
Qed.

(** The close loop never falls through when its last attempt is
    [max_retries - 1]: the retry guard is false on that attempt. *)
Lemma close_attempts_never_exhausts ticket pos symbol position_type close_type
    volume fillings max_retries :
  forall attempts filling_type,
    last attempts = Some (max_retries - 1)%Z ->
    wp (close_attempts ticket pos symbol position_type close_type volume
          fillings max_retries attempts filling_type)
       (fun _ res => forall n, res <> Fail (CloseFailedAfter n)).
Proof.
  induction attempts as [| attempt rest IH]; intros filling_type Hlast;
    [discriminate |].
  cbn [close_attempts]. exec.
  all: try (intros n; discriminate).
  eapply wp_mono; [| apply IH].
  - cbn beta. auto.
  - rewrite last_cons in Hlast. destruct (last rest) as [y |]; [exact Hlast |].
    injection Hlast as Hlast.
    match goal with
    | H : _ && _ = true |- _ =>
        apply andb_true_iff in H as [_ H]; apply Z.ltb_lt in H; lia
    end.
Qed.

Lemma close_trade_never_exhausts self ticket volume symbol max_retries :
  (0 < max_retries)%Z ->
  wp (close_trade self ticket volume symbol max_retries)
     (fun _ res => forall n, res <> Fail (CloseFailedAfter n)).
Proof.
  intros Hm. unfold close_trade. exec.
  all: try (intros n; discriminate).
  apply close_attempts_never_exhausts. apply range_last. exact Hm.
Qed.

(** The true part of the escalation: the i-th order of the loop carries
    the tolerance of the i-th attempt, each order follows a fresh tick,
    and every pause lasts half a second. *)
Lemma close_attempts_escalation ticket pos symbol position_type close_type
    volume fillings max_retries :
  forall attempts filling_type,
    wp (close_attempts ticket pos symbol position_type close_type volume
          fillings max_retries attempts filling_type)
       (fun tr _ =>
          map (fun ra => req_deviation (fst ra)) (sent_orders tr)
          = map (fun a => 20 + a * 10)%Z (take (length (sent_orders tr)) attempts)
          /\ (length (sent_orders tr) <= length (ticks_read tr))%nat
          /\ Forall (fun p => p = (1 # 2)%Q) (pauses_taken tr)).
Proof.
  induction attempts as [| attempt rest IH]; intros filling_type;
    cbn [close_attempts]; exec; trace_facts.
  all: try (cbn; split; [reflexivity | split; [lia | repeat constructor]]).
  eapply wp_mono; [| apply IH]. cbn beta. intros tr _ (Hd & Ht & Hp).
  trace_facts. fold (sent_orders tr) (ticks_read tr) (pauses_taken tr).
  cbn [map length take]. rewrite Hd.
  split; [reflexivity | split; [lia | constructor; [reflexivity | exact Hp]]].
Qed.

(** Whatever the environment answers, a close with at least one attempt
    never returns the exhaustion error. *)
Lemma close_trade_exhaustion_unreachable :
  forall (V : Type) (handle : forall X, call X -> V -> X * V) (v : V)
         self ticket volume symbol max_retries n,
    (0 < max_retries)%Z ->
    fst (fst (run handle (close_trade self ticket volume symbol max_retries) v))
    <> Fail (CloseFailedAfter n).
Proof.
  intros V handle v self ticket volume symbol max_retries n Hm.
  exact (wp_run _ _ (close_trade_never_exhausts self ticket volume symbol
                       max_retries Hm) V handle v n).
Qed.

(** C5 (defect in the code).  A close with [max_retries = 3] whose three
    orders are all answered with the invalid-request code 10021: the
    three orders go out at tolerances 20, 30 and 40, each after a fresh
    tick, with two pauses of half a second, the first with FOK and the
    next two with IOC (the second capability, not the third); the call
    then fails with the catalog message of the last return code and not
    with the exhaustion error naming the three attempts, which the
    specification promises and line 465 of the source intends. *)
Theorem close_trade_three_invalid_requests :
  let out := run scripted (close_trade online 7 None None 3) three_rejections in
  fst (fst out)
  = Fail (CloseFailed "Invalid request (check volume, symbol, or market status)")
  /\ fst (fst out) <> Fail (CloseFailedAfter 3)
  /\ map (fun ra => req_deviation (fst ra)) (sent_orders (snd out))
     = [20; 30; 40]%Z
  /\ map (fun ra => req_type_filling (fst ra)) (sent_orders (snd out))
     = [ORDER_FILLING_FOK; ORDER_FILLING_IOC; ORDER_FILLING_IOC]
  /\ length (ticks_read (snd out)) = 3%nat
  /\ pauses_taken (snd out) = [(1 # 2)%Q; (1 # 2)%Q].
Proof.
  vm_compute. repeat split; try reflexivity. discriminate.
Qed.

(** ** Subscriptions and workers *)

Lemma wp_bind {A B : Type} (p : Prog A) (f : A -> Prog B) :
  forall (Q : list event -> B -> Prop),
    wp p (fun tr a => wp (f a) (fun tr' b => Q (tr ++ tr') b)) -> wp (bind p f) Q.
Proof.
  induction p as [a | X c k IH]; intros Q H; cbn [bind wp] in *.
  - exact H.
  - intros x. apply IH. exact (H x).
Qed.

Lemma run_bind {V : Type} (handle : forall X, call X -> V -> X * V)
    {A B : Type} (p : Prog A) (f : A -> Prog B) :
  forall v,
    run handle (bind p f) v
    = let '(a, v1, tr1) := run handle p v in
      let '(b, v2, tr2) := run handle (f a) v1 in
      (b, v2, tr1 ++ tr2).
Proof.
  induction p as [a | X c k IH]; intros v; cbn [bind run].
  - destruct (run handle (f a) v) as [[b v2] tr2]. reflexivity.
  - destruct (handle X c v) as [x v1]. rewrite IH.
    destruct (run handle (k x) v1) as [[a v2] tr1].
    destruct (run handle (f a) v2) as [[b v3] tr2]. reflexivity.
Qed.

Lemma registry_inv_same self self' :
  same_registry self self' -> registry_inv self -> registry_inv self'.
Proof.
  intros [Hs Ht] Hinv symbol. unfold registry_inv in Hinv.
  rewrite Hs, Ht. apply Hinv.
Qed.

Lemma get_price_frame self symbol :
  wp (get_price self symbol)
     (fun _ out =>
        same_registry self (snd out)
        /\ connected (snd out) = connected self
        /\ shutdown_event (snd out) = shutdown_event self
        /\ batch_interval (snd out) = batch_interval self
        /\ (forall f, fst out = Fail f -> snd out = self)).
Proof.
  unfold get_price. exec.
  all: cbn; repeat split; try reflexivity; intros; discriminate.
Qed.

Lemma connect_frame self server login password :
  wp (connect self server login password) (fun _ out => same_registry self (snd out)).
Proof.
  unfold connect. exec. all: cbn; split; reflexivity.
Qed.

Lemma registry_inv_init : registry_inv init.
Proof.
  intros symbol. cbn. rewrite !lookup_empty. split.
  - intros [x Hx]. discriminate.
  - intros (l & Hl & _). discriminate.
Qed.

(** What a subscription does to the maps and which threads it starts. *)
Lemma start_price_stream_spec self symbol client_id :
  wp (start_price_stream self symbol client_id)
     (fun tr self' =>
        match price_threads self !! symbol with
        | Some _ =>
            threads_started tr = []
            /\ price_threads self' = price_threads self
            /\ active_subscriptions self'
               = (let l := default [] (active_subscriptions self !! symbol) in
                  if bool_decide (client_id ∈ l) then active_subscriptions self
                  else <[symbol := l ++ [client_id]]> (active_subscriptions self))
        | None =>
            exists t, threads_started tr = [t]
            /\ price_threads self' = <[symbol := t]> (price_threads self)
            /\ active_subscriptions self'
               = <[symbol := [client_id]]> (active_subscriptions self)
        end).
Proof.
  unfold start_price_stream, py_in.
  destruct (price_threads self !! symbol) as [t |] eqn:Et; exec.
  - cbn. destruct (bool_decide _); [discriminate |]. auto.
  - cbn. destruct (bool_decide _); [| discriminate]. auto.
  - exists x. cbn. auto.
Qed.

Lemma registry_inv_insert self self' symbol subscribers t :
  subscribers <> [] ->
  active_subscriptions self' = <[symbol := subscribers]> (active_subscriptions self) ->
  price_threads self' = <[symbol := t]> (price_threads self) ->
  registry_inv self -> registry_inv self'.
Proof.
  intros Hne Hs Ht Hinv k. rewrite Hs, Ht.
  destruct (decide (symbol = k)) as [<- | Hk].
  - rewrite !lookup_insert_eq. split; [eauto | intros _; eauto].
  - rewrite !lookup_insert_ne by exact Hk. apply Hinv.
Qed.

Lemma registry_inv_delete self self' symbol :
  active_subscriptions self' = delete symbol (active_subscriptions self) ->
  price_threads self' = delete symbol (price_threads self) ->
  registry_inv self -> registry_inv self'.
Proof.
  intros Hs Ht Hinv k. rewrite Hs, Ht.
  destruct (decide (symbol = k)) as [<- | Hk].
  - rewrite !lookup_delete_eq. split.
    + intros [x Hx]. discriminate.
    + intros (l & Hl & _). discriminate.
  - rewrite !lookup_delete_ne by exact Hk. apply Hinv.
Qed.

Lemma start_price_stream_inv self symbol client_id :
  registry_inv self ->
  wp (start_price_stream self symbol client_id) (fun _ self' => registry_inv self').
Proof.
  intros Hinv. eapply wp_mono; [| apply start_price_stream_spec].
  cbn beta. intros tr self' H.
  destruct (price_threads self !! symbol) as [t |] eqn:Et.
  - destruct H as (_ & Ht & Hs). cbv zeta in Hs.
    destruct (proj1 (Hinv symbol) (ex_intro _ t Et)) as (l & Hl & Hne).
    rewrite Hl in Hs. cbn [default from_option id] in Hs.
    destruct (bool_decide (client_id ∈ l)).
    + apply (registry_inv_same self); [split; assumption | exact Hinv].
    + apply (registry_inv_insert self self' symbol (l ++ [client_id]) t);
        [ | exact Hs | | exact Hinv].
      * destruct l; discriminate.
      * rewrite Ht. symmetry. apply insert_id. exact Et.
  - destruct H as (t & _ & Ht & Hs).
    apply (registry_inv_insert self self' symbol [client_id] t);
      [discriminate | exact Hs | exact Ht | exact Hinv].
Qed.

Lemma stop_price_stream_inv self symbol client_id :
  registry_inv self -> registry_inv (stop_price_stream self symbol client_id).
Proof.
  intros Hinv. unfold stop_price_stream.
  destruct (active_subscriptions self !! symbol) as [l |] eqn:El; [| exact Hinv].
  destruct (client_given client_id) as [c |].
  - set (l' := if py_in c l then list_remove c l else l).
    destruct l' as [| y l''] eqn:El'.
    + apply (registry_inv_delete self _ symbol); cbn; [| reflexivity | exact Hinv].
      rewrite delete_insert_eq. reflexivity.
    + intros k. cbn.
      destruct (decide (symbol = k)) as [<- | Hk].
      * rewrite lookup_insert_eq. split; [intros _; eauto |].
        intros _. apply Hinv. exists l. split; [exact El |].
        intros ->. subst l'. destruct (py_in c []); discriminate.
      * rewrite lookup_insert_ne by exact Hk. apply Hinv.
  - apply (registry_inv_delete self _ symbol); cbn; [reflexivity .. | exact Hinv].
Qed.

Lemma worker_cleanup_lookup symbol self :
  price_threads (worker_cleanup symbol self) !! symbol = None
  /\ active_subscriptions (worker_cleanup symbol self) !! symbol = None.
Proof. cbn. rewrite !lookup_delete_eq. auto. Qed.

(** When the worker leaves its loop, the maps are those it started from
    without its symbol. *)
Lemma price_worker_loop_exit symbol :
  forall fuel last_price error_count self,
    wp (price_worker_loop fuel symbol last_price error_count self)
       (fun _ r => forall self', r = Some self' ->
          active_subscriptions self' = delete symbol (active_subscriptions self)
          /\ price_threads self' = delete symbol (price_threads self)).
Proof.
  induction fuel as [| fuel IH]; intros last_price error_count self;
    cbn [price_worker_loop].
  - cbn. intros self' H. discriminate.
  - destruct (_ && _ && _).
    + apply wp_bind. eapply wp_mono; [| apply get_price_frame]. cbn beta.
      intros tr [res self1] ([Hs Ht] & _). cbn [snd] in Hs, Ht.
      exec.
      all: try (eapply wp_mono; [| apply IH]; cbn beta;
                intros tr' r H self' Hr; rewrite <- Hs, <- Ht; exact (H self' Hr)).
      intros self' [= <-]. cbn. rewrite Hs, Ht. auto.
    + cbn. intros self' [= <-]. auto.
Qed.

Lemma stop_all_threads_gone (symbols : list string) :
  forall self,
    (forall k, is_Some (price_threads self !! k) ->
               is_Some (active_subscriptions self !! k)) ->
    let self' := foldl (fun s symbol => stop_price_stream s symbol None) self symbols in
    (forall k, is_Some (price_threads self' !! k) ->
               is_Some (active_subscriptions self' !! k))
    /\ (forall k, k ∈ symbols -> price_threads self' !! k = None)
    /\ (forall k, price_threads self !! k = None -> price_threads self' !! k = None).
Proof.
  induction symbols as [| symbol rest IH]; intros self Hsub; cbn [foldl].
  - split; [exact Hsub |]. split; [| auto]. intros k Hk. inversion Hk.
  - set (self1 := stop_price_stream self symbol None).
    assert (Hsub1 : forall k, is_Some (price_threads self1 !! k) ->
                              is_Some (active_subscriptions self1 !! k)).
    { subst self1. unfold stop_price_stream.
      destruct (active_subscriptions self !! symbol) eqn:E; [| exact Hsub].
      cbn. intros k. destruct (decide (symbol = k)) as [<- | Hk].
      - rewrite !lookup_delete_eq. intros [x Hx]. discriminate.
      - rewrite !lookup_delete_ne by exact Hk. apply Hsub. }
    assert (Hgone : price_threads self1 !! symbol = None).
    { subst self1. unfold stop_price_stream.
      destruct (active_subscriptions self !! symbol) eqn:E.
      - cbn. apply lookup_delete_eq.
      - destruct (price_threads self !! symbol) eqn:Et; [| reflexivity].
        destruct (Hsub symbol (ex_intro _ _ Et)) as [x Hx]. congruence. }
    assert (Hkeep : forall k, price_threads self !! k = None ->
                              price_threads self1 !! k = None).
    { subst self1. unfold stop_price_stream. intros k Hk.
      destruct (active_subscriptions self !! symbol) eqn:E; [| exact Hk].
      cbn. destruct (decide (symbol = k)) as [<- | Hne].
      - apply lookup_delete_eq.
      - rewrite lookup_delete_ne by exact Hne. exact Hk. }
    destruct (IH self1 Hsub1) as (H1 & H2 & H3). cbv zeta in *.
    split; [exact H1 |]. split.
    + intros k Hk. apply elem_of_cons in Hk as [-> | Hk]; [apply H3; exact Hgone | auto].
    + intros k Hk. apply H3. apply Hkeep. exact Hk.
Qed.

Lemma stop_price_stream_flags self symbol client_id :
  connected (stop_price_stream self symbol client_id) = connected self
  /\ shutdown_event (stop_price_stream self symbol client_id) = shutdown_event self.
Proof.
  unfold stop_price_stream.
  destruct (active_subscriptions self !! symbol); [| auto].
  destruct (client_given client_id); [| auto].
  destruct (if py_in _ _ then _ else _); auto.
Qed.

Lemma stop_all_flags (symbols : list string) :
  forall self,
    let self' := foldl (fun s symbol => stop_price_stream s symbol None) self symbols in
    connected self' = connected self /\ shutdown_event self' = shutdown_event self.
Proof.
  induction symbols as [| symbol rest IH]; intros self; cbn [foldl]; [auto |].
  destruct (IH (stop_price_stream self symbol None)) as [Hc Hs]. cbv zeta in *.
  destruct (stop_price_stream_flags self symbol None) as [Hc' Hs'].
  rewrite Hc, Hs, Hc', Hs'. auto.
Qed.

Lemma wp_join_threads {A : Type} (k : Prog A) (Q : A -> Prop) :
  wp k (fun _ a => Q a) ->
  forall threads, wp (join_threads threads k) (fun _ a => Q a).
Proof.
  intros Hk. induction threads as [| t rest IH]; cbn [join_threads]; [exact Hk |].
  exec; exact IH.
Qed.

(** The state [disconnect] leaves and the answer it gives, whatever the
    state it starts from. *)
Lemma disconnect_final self :
  wp (disconnect self)
     (fun _ out =>
        fst out = Ok "Disconnected"%string
        /\ connected (snd out) = false
        /\ shutdown_event (snd out) = true
        /\ active_subscriptions (snd out) = ∅
        /\ price_threads (snd out) = ∅).
Proof.
  unfold disconnect. cbv zeta.
  apply (wp_join_threads _ (fun out =>
        fst out = Ok "Disconnected"%string
        /\ connected (snd out) = false
        /\ shutdown_event (snd out) = true
        /\ active_subscriptions (snd out) = ∅
        /\ price_threads (snd out) = ∅)).
  exec. cbn [fst snd set_price_threads set_active_subscriptions connected
             shutdown_event active_subscriptions price_threads].
  repeat split; try reflexivity.
  - apply (stop_all_flags _ (set_shutdown_event true (set_connected false self))).
  - apply (stop_all_flags _ (set_shutdown_event true (set_connected false self))).
Qed.

Lemma registry_inv_empty self :
  active_subscriptions self = ∅ -> price_threads self = ∅ -> registry_inv self.
Proof.
  intros Hs Ht symbol. rewrite Hs, Ht, !lookup_empty. split.
  - intros [x Hx]. discriminate.
  - intros (l & Hl & _). discriminate.
Qed.

Lemma step_inv self self' : step self self' -> registry_inv self -> registry_inv self'.
Proof.
  intros Hstep Hinv. destruct Hstep.
  - apply (registry_inv_same self); [| exact Hinv].
    exact (wp_run _ _ (connect_frame self server login password) V handle v).
  - apply (registry_inv_same self); [| exact Hinv].
    exact (proj1 (wp_run _ _ (get_price_frame self symbol) V handle v)).
  - exact (wp_run _ _ (start_price_stream_inv self symbol client_id Hinv) V handle v).
  - apply stop_price_stream_inv. exact Hinv.
  - destruct (wp_run _ _ (price_worker_loop_exit symbol fuel None 0%nat self)
                V handle v self' H) as [Hs Ht].
    exact (registry_inv_delete self self' symbol Hs Ht Hinv).
  - destruct (wp_run _ _ (disconnect_final self) V handle v) as (_ & _ & _ & Hs & Ht).
    apply registry_inv_empty; assumption.
Qed.

Lemma reachable_inv self : reachable self -> registry_inv self.
Proof.
  induction 1 as [| self self' _ IH Hstep].
  - apply registry_inv_init.
  - exact (step_inv self self' Hstep IH).
Qed.

Lemma start_price_stream_again self symbol client_id t :
  price_threads self !! symbol = Some t ->
  client_id ∈ default [] (active_subscriptions self !! symbol) ->
  wp (start_price_stream self symbol client_id)
     (fun tr self' => threads_started tr = [] /\ self' = self).
Proof.
  intros Ht Hin. unfold start_price_stream, py_in. rewrite Ht.
  rewrite bool_decide_eq_true_2 by exact Hin. cbn. auto.
Qed.

Lemma client_given_nonempty c : c <> ""%string -> client_given (Some c) = Some c.
Proof.
  intros Hc. cbn. destruct (String.eqb c "") eqn:E; [| reflexivity].
  apply String.eqb_eq in E. contradiction.
Qed.

Lemma subscribe_twice_unsubscribe_twice
    {V : Type} (handle : forall X, call X -> V -> X * V) (v v' : V)
    self symbol c1 c2 :
  price_threads self !! symbol = None ->
  c1 <> c2 -> c1 <> ""%string -> c2 <> ""%string ->
  let r1 := run handle (start_price_stream self symbol c1) v in
  let s1 := fst (fst r1) in
  let r2 := run handle (start_price_stream s1 symbol c2) (snd (fst r1)) in
  let s2 := fst (fst r2) in
  let r3 := run handle (start_price_stream s2 symbol c2) v' in
  let s3 := stop_price_stream s2 symbol (Some c1) in
  let s4 := stop_price_stream s3 symbol (Some c2) in
  length (threads_started (snd r1 ++ snd r2)) = 1%nat
  /\ is_Some (price_threads s1 !! symbol)
  /\ active_subscriptions s1 !! symbol = Some [c1]
  /\ price_threads s2 = price_threads s1
  /\ active_subscriptions s2 !! symbol = Some [c1; c2]
  /\ fst (fst r3) = s2 /\ threads_started (snd r3) = []
  /\ price_threads s3 !! symbol = price_threads s1 !! symbol
  /\ active_subscriptions s3 !! symbol = Some [c2]
  /\ price_threads s4 !! symbol = None
  /\ active_subscriptions s4 !! symbol = None.
Proof.
  intros Hnone Hne Hc1 Hc2 r1 s1 r2 s2 r3 s3 s4.
  pose proof (wp_run _ _ (start_price_stream_spec self symbol c1) V handle v) as H1.
  cbv beta in H1. rewrite Hnone in H1. destruct H1 as (t & Hst1 & Ht1 & Hs1).
  fold r1 in Hst1, Ht1, Hs1. fold s1 in Ht1, Hs1.
  assert (Et1 : price_threads s1 !! symbol = Some t)
    by (rewrite Ht1; apply lookup_insert_eq).
  assert (Es1 : active_subscriptions s1 !! symbol = Some [c1])
    by (rewrite Hs1; apply lookup_insert_eq).
  pose proof (wp_run _ _ (start_price_stream_spec s1 symbol c2) V handle
                (snd (fst r1))) as H2.
  cbv beta in H2. rewrite Et1, Es1 in H2. cbn [default from_option id] in H2.
  cbv zeta in H2. destruct H2 as (Hst2 & Ht2 & Hs2).
  fold r2 in Hst2, Ht2, Hs2. fold s2 in Ht2, Hs2.
  rewrite bool_decide_eq_false_2 in Hs2
    by (intros Hin; apply list_elem_of_singleton in Hin; congruence).
  assert (Es2 : active_subscriptions s2 !! symbol = Some [c1; c2])
    by (rewrite Hs2; apply lookup_insert_eq).
  assert (Et2 : price_threads s2 !! symbol = Some t) by (rewrite Ht2; exact Et1).
  destruct (wp_run _ _ (start_price_stream_again s2 symbol c2 t Et2
                          ltac:(rewrite Es2; cbn; repeat constructor)) V handle v')
    as [Hst3 Hs3].
  fold r3 in Hst3, Hs3.
  assert (E3 : s3 = set_active_subscriptions
                      (<[symbol := [c2]]> (active_subscriptions s2)) s2).
  { subst s3. unfold stop_price_stream. rewrite Es2, (client_given_nonempty c1 Hc1).
    unfold py_in. rewrite bool_decide_eq_true_2 by constructor.
    cbn [list_remove]. rewrite decide_True by reflexivity. reflexivity. }
  assert (Es3 : active_subscriptions s3 !! symbol = Some [c2])
    by (rewrite E3; cbn; apply lookup_insert_eq).
  assert (E4 : price_threads s4 !! symbol = None
               /\ active_subscriptions s4 !! symbol = None).
  { subst s4. unfold stop_price_stream. rewrite Es3, (client_given_nonempty c2 Hc2).
    unfold py_in. rewrite bool_decide_eq_true_2 by constructor.
    cbn [list_remove]. rewrite decide_True by reflexivity.
    cbn. rewrite !lookup_delete_eq. auto. }
  unfold threads_started in *. rewrite omap_app, Hst1, Hst2.
  repeat split; try assumption; try reflexivity.
  - eauto.
  - rewrite E3. cbn. rewrite Ht2. reflexivity.
  - apply E4.
  - apply E4.
Qed.


(** C7.  In every state the connector can reach, a symbol has a
    registered worker iff its subscriber list is non-empty.  Starting from
    a symbol without worker, two subscriptions by distinct (non-empty)
    client ids start exactly one thread and leave the two ids subscribed;
    subscribing an id again changes nothing; unsubscribing the first id
    leaves the worker registered, and unsubscribing the second removes the
    subscriber list and the worker entry. *)
Theorem subscription_refcount :
  (forall self, reachable self -> registry_inv self)
  /\ (forall (V : Type) (handle : forall X, call X -> V -> X * V) (v v' : V)
             self symbol c1 c2,
        price_threads self !! symbol = None ->
        c1 <> c2 -> c1 <> ""%string -> c2 <> ""%string ->
        let r1 := run handle (start_price_stream self symbol c1) v in
        let s1 := fst (fst r1) in
        let r2 := run handle (start_price_stream s1 symbol c2) (snd (fst r1)) in
        let s2 := fst (fst r2) in
        let r3 := run handle (start_price_stream s2 symbol c2) v' in
        let s3 := stop_price_stream s2 symbol (Some c1) in
        let s4 := stop_price_stream s3 symbol (Some c2) in
        length (threads_started (snd r1 ++ snd r2)) = 1%nat
        /\ is_Some (price_threads s1 !! symbol)
        /\ active_subscriptions s1 !! symbol = Some [c1]
        /\ price_threads s2 = price_threads s1
        /\ active_subscriptions s2 !! symbol = Some [c1; c2]
        /\ fst (fst r3) = s2 /\ threads_started (snd r3) = []
        /\ price_threads s3 !! symbol = price_threads s1 !! symbol
        /\ active_subscriptions s3 !! symbol = Some [c2]
        /\ price_threads s4 !! symbol = None
        /\ active_subscriptions s4 !! symbol = None).
Proof.
  split.
  - exact reachable_inv.
  - intros V handle v v' self symbol c1 c2.
    exact (subscribe_twice_unsubscribe_twice handle v v' self symbol c1 c2).
Qed.

(** Two clients on one symbol of a fresh connector: one thread started,
    and the state reached satisfies the invariant. *)
Lemma subscription_refcount_witness :
  length (threads_started
            (snd (run scripted (start_price_stream init "XAUUSD" "c1") unselectable)
             ++ snd (run scripted
                       (start_price_stream
                          (fst (fst (run scripted
                                       (start_price_stream init "XAUUSD" "c1")
                                       unselectable)))
                          "XAUUSD" "c2")
                       (snd (fst (run scripted
                                    (start_price_stream init "XAUUSD" "c1")
                                    unselectable)))))) = 1%nat
  /\ registry_inv
       (fst (fst (run scripted (start_price_stream init "XAUUSD" "c1") unselectable))).
Proof.
  destruct subscription_refcount as [Hinv Hscenario]. split.
  - apply (Hscenario Script scripted unselectable unselectable init
             "XAUUSD"%string "c1"%string "c2"%string);
      [reflexivity | discriminate | discriminate | discriminate].
  - apply Hinv. eapply reachable_step; [apply reachable_init |].
    apply (step_subscribe scripted unselectable init "XAUUSD"%string "c1"%string).
Defined.

(** ** Error threshold of a worker *)

Lemma errors_counted_app tr tr' :
  forall count,
    errors_counted count (tr ++ tr') = errors_counted (errors_counted count tr) tr'.
Proof.
  induction tr as [| e tr IH]; intros count; cbn [app errors_counted]; [reflexivity |].
  apply IH.
Qed.

(** One price fetch of a connected connector: one selection, no push, and
    one more error counted exactly when the fetch fails. *)
Lemma get_price_counted self symbol :
  connected self = true ->
  wp (get_price self symbol)
     (fun tr out =>
        (forall count,
            errors_counted count tr
            = match fst out with
              | Ok _ => count
              | Fail _ => S count
              end)
        /\ length (selects_read tr) = 1%nat
        /\ emits_read tr = []).
Proof.
  intros Hconn. unfold get_price. rewrite Hconn. cbn [negb]. exec.
  all: trace_facts; cbn [fst emits_read emit_read omap list_omap].
  all: repeat match goal with
       | H : negb _ = true |- _ => apply negb_true_iff in H
       | H : negb _ = false |- _ => apply negb_false_iff in H
       end; subst.
  all: split; [intros count; reflexivity | split; reflexivity].
Qed.

Lemma live_same symbol self self' :
  same_registry self self' -> connected self' = connected self ->
  shutdown_event self' = shutdown_event self ->
  live symbol self -> live symbol self'.
Proof.
  intros [_ Ht] Hc Hs (Hreg & Hconn & Hshut). unfold live.
  rewrite Ht, Hc, Hs. auto.
Qed.

Lemma live_guard symbol self :
  live symbol self ->
  bool_decide (is_Some (price_threads self !! symbol))
  && connected self && negb (shutdown_event self) = true.
Proof.
  intros (Hreg & -> & ->). rewrite bool_decide_eq_true_2 by exact Hreg. reflexivity.
Qed.

(** The loop of a live worker ends exactly when the error count of the
    specification, kept along its calls, reaches [max_errors]. *)
Lemma price_worker_loop_counted symbol :
  forall fuel last_price error_count self,
    live symbol self -> (error_count < max_errors)%nat ->
    wp (price_worker_loop fuel symbol last_price error_count self)
       (fun tr r =>
          match r with
          | Some _ => errors_counted error_count tr = max_errors
          | None => (errors_counted error_count tr < max_errors)%nat
          end).
Proof.
  induction fuel as [| fuel IH]; intros last_price error_count self Hlive Hlt;
    cbn [price_worker_loop].
  - cbn. exact Hlt.
  - rewrite (live_guard symbol self Hlive).
    apply wp_bind.
    eapply wp_mono;
      [| apply wp_and; [apply get_price_frame
                       | apply get_price_counted; apply Hlive]].
    cbn beta. intros tr [res self1] [(Hreg & Hc & Hs & _) (Hcount & _)].
    cbn [fst snd] in *.
    assert (Hlive1 : live symbol self1) by (eapply live_same; eassumption).
    exec.
    all: try (eapply wp_mono; [| apply IH; [exact Hlive1 |]]; cbn beta;
              [intros tr' r Hr; rewrite errors_counted_app, Hcount;
               cbn [errors_counted pushed fetch_failed]; exact Hr |]).
    all: try exact Hlt.
    all: rewrite ?app_nil_r, ?Hcount.
    all: repeat match goal with
         | H : (_ <=? _)%nat = true |- _ => apply Nat.leb_le in H
         | H : (_ <=? _)%nat = false |- _ => apply Nat.leb_gt in H
         end.
    all: unfold max_errors in *; lia.
Qed.

Section WorkerThreshold.
Context {V : Type}.
Variable handle : forall X : Type, call X -> V -> X * V.

(** Failing fetches that bring the error count of a live worker to
    [max_errors] end it at the last of them. *)
Lemma price_worker_loop_fails symbol :
  forall n fuel error_count last_price self v,
    live symbol self ->
    fetch_fails handle n symbol self v ->
    (0 < n)%nat -> (error_count + n = max_errors)%nat -> (n <= fuel)%nat ->
    let out := run handle (price_worker_loop fuel symbol last_price error_count self) v in
    (exists self',
        fst (fst out) = Some self'
        /\ price_threads self' !! symbol = None
        /\ active_subscriptions self' !! symbol = None)
    /\ length (selects_read (snd out)) = n
    /\ emits_read (snd out) = [].
Proof.
  induction n as [| n IH]; intros fuel error_count last_price self v Hlive Hfails
    Hpos Hsum Hfuel; [lia |].
  destruct fuel as [| fuel]; [lia |]. cbn [price_worker_loop].
  rewrite (live_guard symbol self Hlive). rewrite run_bind.
  pose proof (wp_run _ _ (get_price_frame self symbol) V handle v)
    as (Hreg & Hc & Hs & _).
  pose proof (wp_run _ _ (get_price_counted self symbol (proj1 (proj2 Hlive)))
                V handle v) as (_ & Hsel & Hemit).
  cbn [fetch_fails] in Hfails.
  destruct (run handle (get_price self symbol) v) as [[[res self1] v1] tr1].
  cbn [fst snd] in *.
  destruct Hfails as [[f ->] Hrest].
  assert (Hlive1 : live symbol self1) by (eapply live_same; eassumption).
  destruct (max_errors <=? S error_count)%nat eqn:E.
  - apply Nat.leb_le in E. assert (n = 0%nat) by lia. subst n.
    cbn [run fst snd]. rewrite app_nil_r.
    split; [eexists; split; [reflexivity | apply worker_cleanup_lookup] |].
    split; [exact Hsel |]. exact Hemit.
  - apply Nat.leb_gt in E. cbn [run].
    destruct (handle unit (time_sleep (batch_interval self1)) v1) as [[] v2] eqn:Eh.
    cbn [snd] in Hrest.
    specialize (IH fuel (S error_count) last_price self1 v2 Hlive1 Hrest).
    cbv zeta in IH.
    destruct (run handle (price_worker_loop fuel symbol last_price
                            (S error_count) self1) v2) as [[r v3] tr2].
    cbn [fst snd] in *.
    destruct IH as (Hend & Hsel2 & Hemit2); [lia .. |].
    split; [exact Hend |].
    unfold selects_read, emits_read in *.
    rewrite !omap_app, length_app. cbn [omap list_omap select_read emit_read].
    rewrite Hsel, Hemit, Hsel2, Hemit2. split; reflexivity.
Qed.

(** Fewer failing fetches leave a live worker running. *)
Lemma price_worker_loop_survives symbol :
  forall n error_count last_price self v,
    live symbol self ->
    fetch_fails handle n symbol self v ->
    (error_count + n < max_errors)%nat ->
    fst (fst (run handle (price_worker_loop n symbol last_price error_count self) v))
    = None.
Proof.
  induction n as [| n IH]; intros error_count last_price self v Hlive Hfails Hsum;
    [reflexivity |].
  cbn [price_worker_loop].
  rewrite (live_guard symbol self Hlive). rewrite run_bind.
  pose proof (wp_run _ _ (get_price_frame self symbol) V handle v)
    as (Hreg & Hc & Hs & _).
  cbn [fetch_fails] in Hfails.
  destruct (run handle (get_price self symbol) v) as [[[res self1] v1] tr1].
  cbn [fst snd] in *.
  destruct Hfails as [[f ->] Hrest].
  assert (Hlive1 : live symbol self1) by (eapply live_same; eassumption).
  destruct (max_errors <=? S error_count)%nat eqn:E;
    [apply Nat.leb_le in E; lia |].
  cbn [run].
  destruct (handle unit (time_sleep (batch_interval self1)) v1) as [[] v2] eqn:Eh.
  cbn [snd] in Hrest.
  specialize (IH (S error_count) last_price self1 v2 Hlive1 Hrest).
  destruct (run handle (price_worker_loop n symbol last_price
                          (S error_count) self1) v2) as [[r v3] tr2].
  cbn [fst snd] in *. apply IH. lia.
Qed.
End WorkerThreshold.

Lemma stop_price_stream_absent self symbol client_id :
  active_subscriptions self !! symbol = None ->
  stop_price_stream self symbol client_id = self.
Proof. intros H. unfold stop_price_stream. rewrite H. reflexivity. Qed.

(** C8.  A live worker (symbol registered, connector connected, no
    shutdown) keeps an error count that goes up by one at each failed
    price fetch and back to zero only when it publishes a quote; it leaves
    its loop exactly when that count reaches [max_errors], five.  Started
    from a count of [error_count] (0 for a new worker):
    - [max_errors - error_count] failing fetches in a row end the loop at
      the last of them, after that many fetches and no push; the symbol is
      then gone from the worker registry and from the subscription map,
      and an unsubscribe for it returns the connector unchanged;
    - fewer failing fetches in a row leave the worker running;
    - whatever the environment answers, a worker that has ended has a
      count of exactly [max_errors] along its trace, and one that is still
      running a smaller one. *)
Theorem worker_error_threshold :
  forall (V : Type) (handle : forall X, call X -> V -> X * V) (v : V)
         self symbol fuel last_price error_count,
    live symbol self -> (error_count < max_errors)%nat ->
    let out := run handle (price_worker_loop fuel symbol last_price error_count self)
                 v in
    (fetch_fails handle (max_errors - error_count) symbol self v ->
     (max_errors - error_count <= fuel)%nat ->
     (exists self',
         fst (fst out) = Some self'
         /\ price_threads self' !! symbol = None
         /\ active_subscriptions self' !! symbol = None
         /\ forall client_id, stop_price_stream self' symbol client_id = self')
     /\ length (selects_read (snd out)) = (max_errors - error_count)%nat
     /\ emits_read (snd out) = [])
    /\ (forall n,
          fetch_fails handle n symbol self v ->
          (error_count + n < max_errors)%nat ->
          fst (fst (run handle (price_worker_loop n symbol last_price error_count
                                  self) v)) = None)
    /\ match fst (fst out) with
       | Some _ => errors_counted error_count (snd out) = max_errors
       | None => (errors_counted error_count (snd out) < max_errors)%nat
       end.
Proof.
  intros V handle v self symbol fuel last_price error_count Hlive Hlt. cbv zeta.
  split; [| split].
  - intros Hfails Hfuel.
    destruct (price_worker_loop_fails handle symbol (max_errors - error_count) fuel
                error_count last_price self v Hlive Hfails)
      as ((self' & Hrun & Ht & Hs) & Hsel & Hemit); [lia .. | exact Hfuel |].
    split; [| split; assumption].
    exists self'. repeat split; try assumption.
    intros client_id. apply stop_price_stream_absent. exact Hs.
  - intros n Hfails Hsum.
    exact (price_worker_loop_survives handle symbol n error_count last_price self v
             Hlive Hfails Hsum).
  - exact (wp_run _ _ (price_worker_loop_counted symbol fuel last_price error_count
                         self Hlive Hlt) V handle v).
Qed.

(** On a venue where the symbol cannot be selected, the worker of the
    subscribed connector stops at its fifth fetch and leaves no trace of
    its symbol; after four fetches it is still running. *)
Lemma worker_error_threshold_witness :
  (exists self',
      fst (fst (run scripted (price_worker 9 "XAUUSD" subscribed) unselectable))
      = Some self'
      /\ price_threads self' !! "XAUUSD"%string = None
      /\ active_subscriptions self' !! "XAUUSD"%string = None
      /\ stop_price_stream self' "XAUUSD" (Some "c1"%string) = self')
  /\ length (selects_read
               (snd (run scripted (price_worker 9 "XAUUSD" subscribed) unselectable)))
     = 5%nat
  /\ fst (fst (run scripted (price_worker 4 "XAUUSD" subscribed) unselectable)) = None.
Proof.
  assert (Hlive : live "XAUUSD" subscribed).
  { split; [eexists; vm_compute; reflexivity | split; reflexivity]. }
  destruct (worker_error_threshold Script scripted unselectable subscribed
              "XAUUSD"%string 9%nat None 0%nat Hlive)
    as (Hstop & Hrun & _); [unfold max_errors; lia |].
  split; [| split].
  - destruct Hstop as [(self' & Hend & Ht & Hs & Hunsub) _].
    + vm_compute. repeat split; eexists; reflexivity.
    + unfold max_errors. lia.
    + exists self'. repeat split; try assumption. apply Hunsub.
  - destruct Hstop as (_ & Hsel & _).
    + vm_compute. repeat split; eexists; reflexivity.
    + unfold max_errors. lia.
    + exact Hsel.
  - apply (Hrun 4%nat).
    + vm_compute. repeat split; eexists; reflexivity.
    + unfold max_errors. lia.
Defined.

(** The error count is not reset by a fetch that succeeds without a new
    quote: after one published quote, four failures, the same quote again
    and one more failure, the worker stops at its seventh iteration (and
    is still running after six). *)
Example worker_counts_across_unchanged_quote :
  (exists self',
      fst (fst (run scripted (price_worker 7 "XAUUSD" subscribed) flaky_quotes))
      = Some self')
  /\ fst (fst (run scripted (price_worker 6 "XAUUSD" subscribed) flaky_quotes)) = None.
Proof.
  split; [eexists |]; vm_compute; reflexivity.
Qed.

(** It is reset by a new quote: four failures, a quote, four more
    failures, and the worker is still running; the fifth failure in a row
    stops it. *)
Example worker_count_reset_by_new_quote :
  let venue := quiet None [None; None; None; None; Some tick_2000;
                           None; None; None; None; None] [] [] in
  fst (fst (run scripted (price_worker 9 "XAUUSD" subscribed) venue)) = None
  /\ (exists self',
        fst (fst (run scripted (price_worker 10 "XAUUSD" subscribed) venue))
        = Some self')
  /\ length (emits_read (snd (run scripted (price_worker 10 "XAUUSD" subscribed)
                                venue))) = 1%nat.
Proof.
  cbv zeta. split; [vm_compute; reflexivity |].
  split; [eexists; vm_compute; reflexivity | vm_compute; reflexivity].
Qed.

(** ** Disconnection *)

Lemma disconnect_registry_emptied self :
  registry_inv self ->
  price_threads
    (foldl (fun s symbol => stop_price_stream s symbol None)
       (set_shutdown_event true (set_connected false self))
       (map fst (map_to_list (price_threads self)))) = ∅.
Proof.
  intros Hinv.
  set (self0 := set_shutdown_event true (set_connected false self)).
  assert (Hsub : forall k, is_Some (price_threads self0 !! k) ->
                           is_Some (active_subscriptions self0 !! k)).
  { intros k Hk. destruct (proj1 (Hinv k) Hk) as (l & Hl & _). cbn. eauto. }
  destruct (stop_all_threads_gone (map fst (map_to_list (price_threads self)))
              self0 Hsub) as (_ & Hin & Hout). cbv zeta in Hin, Hout.
  apply map_empty. intros k.
  destruct (price_threads self !! k) as [t |] eqn:Ek.
  - apply Hin. apply list_elem_of_In.
    change k with (fst (k, t)). apply in_map. apply list_elem_of_In.
    apply elem_of_map_to_list. exact Ek.
  - apply Hout. exact Ek.
Qed.

(** From a state satisfying the registry invariant, [disconnect] asks no
    thread whether it is alive and joins none: its only call is
    [mt5.shutdown()]. *)
Lemma disconnect_awaits_nothing
    {V : Type} (handle : forall X, call X -> V -> X * V) (v : V) self :
  registry_inv self ->
  snd (run handle (disconnect self) v) = [Ev mt5_shutdown tt].
Proof.
  intros Hinv. unfold disconnect. cbv zeta.
  change (price_threads (set_shutdown_event true (set_connected false self)))
    with (price_threads self).
  rewrite (disconnect_registry_emptied self Hinv), map_to_list_empty.
  cbn [map join_threads run]. destruct (handle unit mt5_shutdown v) as [[] v1].
  reflexivity.
Qed.


(** Disconnection always succeeds and leaves the connector disconnected,
    signalled and without subscriptions or workers; so does a second
    disconnection. *)
Lemma disconnect_idempotent
    {V : Type} (handle : forall X, call X -> V -> X * V) (v : V) self :
  let out := run handle (disconnect self) v in
  let out2 := run handle (disconnect (snd (fst (fst out)))) (snd (fst out)) in
  (fst (fst (fst out)) = Ok "Disconnected"%string
   /\ fst (fst (fst out2)) = Ok "Disconnected"%string)
  /\ (connected (snd (fst (fst out))) = false
      /\ shutdown_event (snd (fst (fst out))) = true
      /\ active_subscriptions (snd (fst (fst out))) = ∅
      /\ price_threads (snd (fst (fst out))) = ∅)
  /\ (connected (snd (fst (fst out2))) = false
      /\ shutdown_event (snd (fst (fst out2))) = true
      /\ active_subscriptions (snd (fst (fst out2))) = ∅
      /\ price_threads (snd (fst (fst out2))) = ∅).
Proof.
  cbv zeta.
  pose proof (wp_run _ _ (disconnect_final self) V handle v) as (H1 & H1').
  pose proof (wp_run _ _ (disconnect_final
                            (snd (fst (fst (run handle (disconnect self) v)))))
                V handle (snd (fst (run handle (disconnect self) v)))) as (H2 & H2').
  auto.
Qed.

(** C9 (defect in the code).  Disconnecting the connector that has one
    registered worker (thread 0, alive): both this call and a second one
    succeed and leave the connector disconnected, signalled and with empty
    maps; but the only call made is [mt5.shutdown()]: the worker is neither
    asked whether it is alive nor joined, because the first loop has
    emptied the registry the join loop iterates over.  The session is
    released while the signalled worker may still be running. *)
Theorem disconnect_does_not_await_workers :
  let out := run scripted (disconnect subscribed) unselectable in
  let self1 := snd (fst (fst out)) in
  let out2 := run scripted (disconnect self1) (snd (fst out)) in
  let self2 := snd (fst (fst out2)) in
  price_threads subscribed !! "XAUUSD"%string = Some 0%nat
  /\ fst (scripted _ (thread_is_alive 0) unselectable) = true
  /\ fst (fst (fst out)) = Ok "Disconnected"%string
  /\ fst (fst (fst out2)) = Ok "Disconnected"%string
  /\ connected self1 = false /\ shutdown_event self1 = true
  /\ active_subscriptions self1 = ∅ /\ price_threads self1 = ∅
  /\ self2 = self1
  /\ threads_awaited (snd out) = []
  /\ snd out = [Ev mt5_shutdown tt].
Proof.
  vm_compute. repeat split; reflexivity.
Qed.

(** * Further properties *)

(** ** Well-formed subscription maps *)

Lemma list_remove_notin c (l : list string) : c ∉ l -> list_remove c l = l.
Proof.
  induction l as [| y l IH]; intros Hc; cbn [list_remove]; [reflexivity |].
  apply not_elem_of_cons in Hc as [Hne Hc].
  rewrite decide_False by exact Hne. rewrite IH by exact Hc. reflexivity.
Qed.

Lemma list_remove_elem c x (l : list string) :
  NoDup l -> (x ∈ list_remove c l <-> x ∈ l /\ x <> c).
Proof.
  induction l as [| y l IH]; intros Hnd; cbn [list_remove].
  - split; [intros H; inversion H | intros [H _]; inversion H].
  - apply NoDup_cons in Hnd as [Hy Hnd].
    destruct (decide (c = y)) as [-> | Hne].
    + split.
      * intros Hx. split; [right; exact Hx |]. intros ->. contradiction.
      * intros [Hx Hxy]. apply elem_of_cons in Hx as [-> | Hx]; [contradiction | exact Hx].
    + rewrite !elem_of_cons, (IH Hnd). split.
      * intros [-> | [Hx Hxc]]; [split; [left; reflexivity | congruence] |].
        split; [right; exact Hx | exact Hxc].
      * intros [[-> | Hx] Hxc]; [left; reflexivity | right; split; assumption].
Qed.

Lemma list_remove_NoDup c (l : list string) : NoDup l -> NoDup (list_remove c l).
Proof.
  induction l as [| y l IH]; intros Hnd; cbn [list_remove]; [constructor |].
  apply NoDup_cons in Hnd as [Hy Hnd].
  destruct (decide (c = y)); [exact Hnd |].
  apply NoDup_cons. split; [| apply IH; exact Hnd].
  intros Hin. apply (list_remove_elem c y l Hnd) in Hin as [Hin _]. contradiction.
Qed.

Lemma list_remove_snoc c (l : list string) : c ∉ l -> list_remove c (l ++ [c]) = l.
Proof.
  induction l as [| y l IH]; intros Hc; cbn [list_remove app].
  - rewrite decide_True by reflexivity. reflexivity.
  - apply not_elem_of_cons in Hc as [Hne Hc].
    rewrite decide_False by exact Hne. rewrite IH by exact Hc. reflexivity.
Qed.

(** The subscriber list of a symbol after [stop_price_stream] for a
    client: the list without that client, or no entry when nothing is
    left; the worker entry goes with it. *)
Lemma stop_price_stream_entry self symbol c :
  c <> ""%string ->
  (forall l, active_subscriptions self !! symbol = Some l -> NoDup l) ->
  active_subscriptions (stop_price_stream self symbol (Some c)) !! symbol
  = unsub_entry c (active_subscriptions self !! symbol)
  /\ price_threads (stop_price_stream self symbol (Some c)) !! symbol
     = match active_subscriptions self !! symbol with
       | Some l => match list_remove c l with
                   | [] => None
                   | _ => price_threads self !! symbol
                   end
       | None => price_threads self !! symbol
       end.
Proof.
  intros Hc Hnd. unfold stop_price_stream.
  destruct (active_subscriptions self !! symbol) as [l |] eqn:El;
    [| rewrite El; auto].
  rewrite (client_given_nonempty c Hc). unfold py_in. cbn [unsub_entry].
  assert (Hrm : (if bool_decide (c ∈ l) then list_remove c l else l) = list_remove c l).
  { destruct (bool_decide (c ∈ l)) eqn:E; [reflexivity |].
    apply bool_decide_eq_false in E. symmetry. apply list_remove_notin. exact E. }
  rewrite Hrm. destruct (list_remove c l) as [| y l'] eqn:Er; cbn.
  - rewrite !lookup_delete_eq. auto.
  - rewrite lookup_insert_eq. auto.
Qed.

Lemma stop_price_stream_other self symbol client_id k :
  symbol <> k ->
  active_subscriptions (stop_price_stream self symbol client_id) !! k
  = active_subscriptions self !! k
  /\ price_threads (stop_price_stream self symbol client_id) !! k
     = price_threads self !! k.
Proof.
  intros Hk. unfold stop_price_stream.
  destruct (active_subscriptions self !! symbol) as [l |]; [| auto].
  destruct (client_given client_id) as [c |]; cbn.
  - destruct (if py_in c l then list_remove c l else l); cbn.
    + rewrite !lookup_delete_ne by exact Hk. rewrite lookup_insert_ne by exact Hk. auto.
    + rewrite lookup_insert_ne by exact Hk. auto.
  - rewrite !lookup_delete_ne by exact Hk. auto.
Qed.

Lemma stop_price_stream_fields self symbol client_id :
  connected (stop_price_stream self symbol client_id) = connected self
  /\ shutdown_event (stop_price_stream self symbol client_id) = shutdown_event self
  /\ symbol_data (stop_price_stream self symbol client_id) = symbol_data self
  /\ batch_interval (stop_price_stream self symbol client_id) = batch_interval self.
Proof.
  unfold stop_price_stream.
  destruct (active_subscriptions self !! symbol); [| auto].
  destruct (client_given client_id); [| cbn; auto].
  destruct (if py_in _ _ then _ else _); cbn; auto.
Qed.

Lemma connector_eq (a b : MT5Connector) :
  connected a = connected b -> active_subscriptions a = active_subscriptions b ->
  price_threads a = price_threads b -> symbol_data a = symbol_data b ->
  batch_interval a = batch_interval b -> shutdown_event a = shutdown_event b ->
  a = b.
Proof. destruct a, b; cbn; intros; subst; reflexivity. Qed.

Lemma registry_wf_inv self : registry_wf self -> registry_inv self.
Proof.
  intros [Hdom Hl] symbol. rewrite Hdom. split.
  - intros [l El]. exists l. split; [exact El | apply (Hl symbol l El)].
  - intros (l & El & _). eauto.
Qed.

Lemma registry_wf_same self self' :
  same_registry self self' -> registry_wf self -> registry_wf self'.
Proof.
  intros [Hs Ht] [Hdom Hl]. split.
  - intros symbol. rewrite Hs, Ht. apply Hdom.
  - intros symbol l. rewrite Hs. apply Hl.
Qed.

Lemma registry_wf_empty self :
  active_subscriptions self = ∅ -> price_threads self = ∅ -> registry_wf self.
Proof.
  intros Hs Ht. split.
  - intros symbol. rewrite Hs, Ht, !lookup_empty. split; intros [x Hx]; discriminate.
  - intros symbol l. rewrite Hs, lookup_empty. discriminate.
Qed.

Lemma registry_wf_insert self self' symbol subscribers t :
  subscribers <> [] -> NoDup subscribers ->
  active_subscriptions self' = <[symbol := subscribers]> (active_subscriptions self) ->
  price_threads self' = <[symbol := t]> (price_threads self) ->
  registry_wf self -> registry_wf self'.
Proof.
  intros Hne Hnd Hs Ht [Hdom Hl]. split.
  - intros k. rewrite Hs, Ht. destruct (decide (symbol = k)) as [<- | Hk].
    + rewrite !lookup_insert_eq. split; eauto.
    + rewrite !lookup_insert_ne by exact Hk. apply Hdom.
  - intros k l. rewrite Hs. destruct (decide (symbol = k)) as [<- | Hk].
    + rewrite lookup_insert_eq. intros [= <-]. auto.
    + rewrite lookup_insert_ne by exact Hk. apply Hl.
Qed.

Lemma registry_wf_delete self self' symbol :
  active_subscriptions self' = delete symbol (active_subscriptions self) ->
  price_threads self' = delete symbol (price_threads self) ->
  registry_wf self -> registry_wf self'.
Proof.
  intros Hs Ht [Hdom Hl]. split.
  - intros k. rewrite Hs, Ht. destruct (decide (symbol = k)) as [<- | Hk].
    + rewrite !lookup_delete_eq. split; intros [x Hx]; discriminate.
    + rewrite !lookup_delete_ne by exact Hk. apply Hdom.
  - intros k l. rewrite Hs. destruct (decide (symbol = k)) as [<- | Hk].
    + rewrite lookup_delete_eq. discriminate.
    + rewrite lookup_delete_ne by exact Hk. apply Hl.
Qed.

Lemma start_price_stream_wf self symbol client_id :
  registry_wf self ->
  wp (start_price_stream self symbol client_id) (fun _ self' => registry_wf self').
Proof.
  intros Hwf. eapply wp_mono; [| apply start_price_stream_spec].
  cbn beta. intros tr self' H. pose proof Hwf as [Hdom Hl].
  destruct (price_threads self !! symbol) as [t |] eqn:Et.
  - destruct H as (_ & Ht & Hs). cbv zeta in Hs.
    destruct (proj1 (Hdom symbol) (ex_intro _ t Et)) as [l El].
    destruct (Hl symbol l El) as [Hne Hnd].
    rewrite El in Hs. cbn [default from_option id] in Hs.
    destruct (bool_decide (client_id ∈ l)) eqn:Ein.
    + apply (registry_wf_same self); [split; assumption | exact Hwf].
    + apply bool_decide_eq_false in Ein.
      apply (registry_wf_insert self self' symbol (l ++ [client_id]) t);
        [ | | exact Hs | | exact Hwf].
      * destruct l; discriminate.
      * apply NoDup_app. split; [exact Hnd |]. split.
        -- intros x Hx Hx'. apply list_elem_of_singleton in Hx'. subst. contradiction.
        -- apply NoDup_singleton.
      * rewrite Ht. symmetry. apply insert_id. exact Et.
  - destruct H as (t & _ & Ht & Hs).
    apply (registry_wf_insert self self' symbol [client_id] t);
      [discriminate | apply NoDup_singleton | exact Hs | exact Ht | exact Hwf].
Qed.

Lemma stop_price_stream_wf self symbol client_id :
  registry_wf self -> registry_wf (stop_price_stream self symbol client_id).
Proof.
  intros Hwf. pose proof Hwf as [Hdom Hl]. unfold stop_price_stream.
  destruct (active_subscriptions self !! symbol) as [l |] eqn:El; [| exact Hwf].
  destruct (Hl symbol l El) as [Hne Hnd].
  destruct (client_given client_id) as [c |].
  - set (l' := if py_in c l then list_remove c l else l).
    assert (Hnd' : NoDup l').
    { subst l'. destruct (py_in c l); [apply list_remove_NoDup |]; exact Hnd. }
    destruct l' as [| y l''] eqn:El'.
    + apply (registry_wf_delete self _ symbol); cbn; [| reflexivity | exact Hwf].
      rewrite delete_insert_eq. reflexivity.
    + split.
      * intros k. cbn. destruct (decide (symbol = k)) as [<- | Hk].
        -- rewrite lookup_insert_eq. split; [intros _; eauto |].
           intros _. apply Hdom. eauto.
        -- rewrite lookup_insert_ne by exact Hk. apply Hdom.
      * intros k l0. cbn. destruct (decide (symbol = k)) as [<- | Hk].
        -- rewrite lookup_insert_eq. intros [= <-]. split; [discriminate | exact Hnd'].
        -- rewrite lookup_insert_ne by exact Hk. apply Hl.
  - apply (registry_wf_delete self _ symbol); cbn; [reflexivity .. | exact Hwf].
Qed.

Lemma step_wf self self' : step self self' -> registry_wf self -> registry_wf self'.
Proof.
  intros Hstep Hwf. destruct Hstep.
  - apply (registry_wf_same self); [| exact Hwf].
    exact (wp_run _ _ (connect_frame self server login password) V handle v).
  - apply (registry_wf_same self); [| exact Hwf].
    exact (proj1 (wp_run _ _ (get_price_frame self symbol) V handle v)).
  - exact (wp_run _ _ (start_price_stream_wf self symbol client_id Hwf) V handle v).
  - apply stop_price_stream_wf. exact Hwf.
  - destruct (wp_run _ _ (price_worker_loop_exit symbol fuel None 0%nat self)
                V handle v self' H) as [Hs Ht].
    exact (registry_wf_delete self self' symbol Hs Ht Hwf).
  - destruct (wp_run _ _ (disconnect_final self) V handle v) as (_ & _ & _ & Hs & Ht).
    apply registry_wf_empty; assumption.
Qed.

Lemma reachable_wf self : reachable self -> registry_wf self.
Proof.
  induction 1 as [| self self' _ IH Hstep].
  - apply registry_wf_empty; reflexivity.
  - exact (step_wf self self' Hstep IH).
Qed.

(** X1.  In every state the connector can reach, exactly the symbols with
    a registered worker have a subscriber list, and every subscriber list
    is non-empty and holds no client twice. *)
Theorem reachable_registry_wf :
  forall self, reachable self -> registry_wf self.
Proof. exact reachable_wf. Qed.

Lemma reachable_registry_wf_witness : registry_wf subscribed.
Proof.
  apply reachable_registry_wf.
  eapply reachable_step.
  - eapply reachable_step; [apply reachable_init |].
    apply (step_connect scripted unselectable init ""%string 0%Z ""%string).
  - apply (step_subscribe scripted unselectable _ "XAUUSD"%string "c1"%string).
Defined.

(** X2.  Subscribing a client that was not subscribed to a symbol and
    unsubscribing it again gives back the connector as it was. *)
Theorem subscribe_unsubscribe_roundtrip :
  forall (V : Type) (handle : forall X, call X -> V -> X * V) (v : V)
         self symbol c,
    registry_wf self -> c <> ""%string ->
    c ∉ default [] (active_subscriptions self !! symbol) ->
    stop_price_stream
      (fst (fst (run handle (start_price_stream self symbol c) v))) symbol (Some c)
    = self.
Proof.
  intros V handle v self symbol c [Hdom Hl] Hc Hnew.
  pose proof (wp_run _ _ (start_price_stream_spec self symbol c) V handle v) as H.
  cbv beta in H.
  set (s1 := fst (fst (run handle (start_price_stream self symbol c) v))) in *.
  assert (Hfields : connected s1 = connected self
                    /\ shutdown_event s1 = shutdown_event self
                    /\ symbol_data s1 = symbol_data self
                    /\ batch_interval s1 = batch_interval self).
  { subst s1.
    apply (wp_run _ (fun _ s => connected s = connected self
                                /\ shutdown_event s = shutdown_event self
                                /\ symbol_data s = symbol_data self
                                /\ batch_interval s = batch_interval self)).
    unfold start_price_stream. exec; cbn; auto. }
  destruct Hfields as (Hf1 & Hf2 & Hf3 & Hf4).
  destruct (stop_price_stream_fields s1 symbol (Some c)) as (Hg1 & Hg2 & Hg3 & Hg4).
  assert (Hnd1 : forall l, active_subscriptions s1 !! symbol = Some l -> NoDup l).
  { intros l El.
    destruct (price_threads self !! symbol) as [t |] eqn:Et.
    - destruct H as (_ & _ & Hs). cbv zeta in Hs.
      destruct (proj1 (Hdom symbol) (ex_intro _ t Et)) as [l0 El0].
      rewrite El0 in Hs, Hnew. cbn [default from_option id] in Hs, Hnew.
      rewrite bool_decide_eq_false_2 in Hs by exact Hnew.
      rewrite Hs, lookup_insert_eq in El. injection El as <-.
      apply NoDup_app. split; [apply (Hl symbol l0 El0) |]. split.
      + intros x Hx Hx'. apply list_elem_of_singleton in Hx'. subst. contradiction.
      + apply NoDup_singleton.
    - destruct H as (t & _ & _ & Hs).
      rewrite Hs, lookup_insert_eq in El. injection El as <-. apply NoDup_singleton. }
  destruct (stop_price_stream_entry s1 symbol c Hc Hnd1) as [Hes Het].
  apply connector_eq; try congruence.
  - apply map_eq. intros k. destruct (decide (symbol = k)) as [<- | Hk].
    + rewrite Hes.
      destruct (price_threads self !! symbol) as [t |] eqn:Et.
      * destruct H as (_ & _ & Hs). cbv zeta in Hs.
        destruct (proj1 (Hdom symbol) (ex_intro _ t Et)) as [l0 El0].
        rewrite El0 in Hs, Hnew. cbn [default from_option id] in Hs, Hnew.
        rewrite bool_decide_eq_false_2 in Hs by exact Hnew.
        rewrite Hs, lookup_insert_eq. cbn [unsub_entry].
        rewrite (list_remove_snoc c l0 Hnew), El0.
        destruct l0; [destruct (Hl symbol [] El0) as [Hne _]; contradiction | reflexivity].
      * destruct H as (t & _ & _ & Hs).
        rewrite Hs, lookup_insert_eq. cbn [unsub_entry list_remove].
        rewrite decide_True by reflexivity.
        destruct (active_subscriptions self !! symbol) as [l0 |] eqn:El0; [| reflexivity].
        destruct (proj2 (Hdom symbol) (ex_intro _ l0 El0)) as [t' Ht']. congruence.
    + rewrite (proj1 (stop_price_stream_other s1 symbol (Some c) k Hk)).
      destruct (price_threads self !! symbol) as [t |] eqn:Et.
      * destruct H as (_ & _ & Hs). cbv zeta in Hs.
        destruct (bool_decide _) in Hs; rewrite Hs; [reflexivity |].
        apply lookup_insert_ne. exact Hk.
      * destruct H as (t & _ & _ & Hs). rewrite Hs. apply lookup_insert_ne. exact Hk.
  - apply map_eq. intros k. destruct (decide (symbol = k)) as [<- | Hk].
    + rewrite Het.
      destruct (price_threads self !! symbol) as [t |] eqn:Et.
      * destruct H as (_ & Ht & Hs). cbv zeta in Hs.
        destruct (proj1 (Hdom symbol) (ex_intro _ t Et)) as [l0 El0].
        rewrite El0 in Hs, Hnew. cbn [default from_option id] in Hs, Hnew.
        rewrite bool_decide_eq_false_2 in Hs by exact Hnew.
        rewrite Hs, lookup_insert_eq, (list_remove_snoc c l0 Hnew), Ht.
        destruct l0; [destruct (Hl symbol [] El0) as [Hne _]; contradiction | exact Et].
      * destruct H as (t & _ & Ht & Hs).
        rewrite Hs, lookup_insert_eq. cbn [list_remove].
        rewrite decide_True by reflexivity. reflexivity.
    + rewrite (proj2 (stop_price_stream_other s1 symbol (Some c) k Hk)).
      destruct (price_threads self !! symbol) as [t |] eqn:Et.
      * destruct H as (_ & Ht & _). rewrite Ht. reflexivity.
      * destruct H as (t & _ & Ht & _). rewrite Ht. apply lookup_insert_ne. exact Hk.
Qed.

Lemma subscribe_unsubscribe_roundtrip_witness :
  stop_price_stream
    (fst (fst (run scripted (start_price_stream init "XAUUSD" "c1") unselectable)))
    "XAUUSD" (Some "c1"%string)
  = init.
Proof.
  apply subscribe_unsubscribe_roundtrip.
  - apply registry_wf_empty; reflexivity.
  - discriminate.
  - cbn. apply not_elem_of_nil.
Defined.

(** X3.  Unsubscribing a client that is not subscribed to the symbol
    leaves the connector unchanged, and an unsubscription never touches
    the subscribers or the worker of another symbol. *)
Theorem unsubscribe_is_local :
  forall self symbol,
    (forall c, registry_wf self -> c <> ""%string ->
               c ∉ default [] (active_subscriptions self !! symbol) ->
               stop_price_stream self symbol (Some c) = self)
    /\ (forall client_id other, symbol <> other ->
          active_subscriptions (stop_price_stream self symbol client_id) !! other
          = active_subscriptions self !! other
          /\ price_threads (stop_price_stream self symbol client_id) !! other
             = price_threads self !! other).
Proof.
  intros self symbol. split.
  - intros c [Hdom Hl] Hc Hnew. unfold stop_price_stream.
    destruct (active_subscriptions self !! symbol) as [l |] eqn:El; [| reflexivity].
    cbn [default from_option id] in Hnew.
    rewrite (client_given_nonempty c Hc). unfold py_in.
    rewrite bool_decide_eq_false_2 by exact Hnew.
    destruct l as [| y l]; [destruct (Hl symbol [] El) as [Hne _]; contradiction |].
    apply connector_eq; try reflexivity. cbn. apply insert_id. exact El.
  - intros client_id other Hne. apply stop_price_stream_other. exact Hne.
Qed.

Lemma unsubscribe_is_local_witness :
  stop_price_stream subscribed "XAUUSD" (Some "c2"%string) = subscribed.
Proof.
  apply (proj1 (unsubscribe_is_local subscribed "XAUUSD"%string)).
  - apply (step_wf online); [| apply registry_wf_empty; reflexivity].
    apply (step_subscribe scripted unselectable online "XAUUSD"%string "c1"%string).
  - discriminate.
  - vm_compute. intros H. apply list_elem_of_In in H. destruct H as [H | []].
    discriminate.
Defined.

Lemma list_fmap_map {A B : Type} (f : A -> B) (l : list A) : f <$> l = map f l.
Proof. induction l as [| x l IH]; cbn; [| rewrite <- IH]; reflexivity. Qed.

Lemma stop_all_for_client c :
  c <> ""%string ->
  forall symbols self,
    NoDup symbols -> registry_wf self ->
    let self' := foldl (fun s symbol => stop_price_stream s symbol (Some c))
                       self symbols in
    registry_wf self'
    /\ forall k,
         active_subscriptions self' !! k
         = if decide (k ∈ symbols) then unsub_entry c (active_subscriptions self !! k)
           else active_subscriptions self !! k.
Proof.
  intros Hc. induction symbols as [| symbol rest IH]; intros self Hnd Hwf; cbn [foldl].
  - split; [exact Hwf |]. intros k. rewrite decide_False by apply not_elem_of_nil.
    reflexivity.
  - apply NoDup_cons in Hnd as [Hnotin Hnd].
    pose proof (stop_price_stream_wf self symbol (Some c) Hwf) as Hwf1.
    destruct (IH (stop_price_stream self symbol (Some c)) Hnd Hwf1) as [Hwf' Hlook].
    cbv zeta in *. split; [exact Hwf' |]. intros k. rewrite Hlook.
    assert (Hnodup : forall l, active_subscriptions self !! symbol = Some l -> NoDup l)
      by (intros l El; apply (proj2 Hwf symbol l El)).
    destruct (decide (symbol = k)) as [<- | Hk].
    + rewrite decide_False by exact Hnotin.
      rewrite decide_True by (left; reflexivity).
      apply (stop_price_stream_entry self symbol c Hc Hnodup).
    + rewrite (proj1 (stop_price_stream_other self symbol (Some c) k Hk)).
      destruct (decide (k ∈ rest)) as [Hin | Hout].
      * rewrite decide_True by (right; exact Hin). reflexivity.
      * rewrite decide_False; [reflexivity |].
        intros Hin. apply elem_of_cons in Hin as [-> | Hin]; contradiction.
Qed.

Lemma handle_disconnect_entries self c :
  registry_wf self -> c <> ""%string ->
  registry_wf (handle_disconnect self c)
  /\ forall k, active_subscriptions (handle_disconnect self c) !! k
               = unsub_entry c (active_subscriptions self !! k).
Proof.
  intros Hwf Hc. unfold handle_disconnect.
  destruct (stop_all_for_client c Hc
              (map fst (map_to_list (active_subscriptions self))) self) as [Hwf' Hlook].
  - rewrite <- list_fmap_map. apply NoDup_fst_map_to_list.
  - exact Hwf.
  - cbv zeta in *. split; [exact Hwf' |]. intros k. rewrite Hlook.
    destruct (decide _) as [Hin | Hout]; [reflexivity |].
    destruct (active_subscriptions self !! k) as [l |] eqn:El; [| reflexivity].
    exfalso. apply Hout. apply list_elem_of_In.
    change k with (fst (k, l)). apply in_map. apply list_elem_of_In.
    apply elem_of_map_to_list. exact El.
Qed.

(** X4.  When a client's socket disconnects, [handle_disconnect] removes
    that client from the subscribers of every symbol and keeps every
    other subscriber; the maps stay well formed, so a worker stays
    registered exactly for the symbols that still have a subscriber. *)
Theorem handle_disconnect_unsubscribes_client :
  forall self c,
    registry_wf self -> c <> ""%string ->
    registry_wf (handle_disconnect self c)
    /\ (forall symbol subscribers,
          active_subscriptions (handle_disconnect self c) !! symbol = Some subscribers ->
          c ∉ subscribers)
    /\ (forall symbol subscribers x,
          active_subscriptions self !! symbol = Some subscribers ->
          x ∈ subscribers -> x <> c ->
          exists subscribers',
            active_subscriptions (handle_disconnect self c) !! symbol = Some subscribers'
            /\ x ∈ subscribers').
Proof.
  intros self c Hwf Hc.
  destruct (handle_disconnect_entries self c Hwf Hc) as [Hwf' Hlook].
  split; [exact Hwf' |]. split.
  - intros symbol l El. rewrite Hlook in El.
    destruct (active_subscriptions self !! symbol) as [l0 |] eqn:El0; [| discriminate].
    cbn [unsub_entry] in El.
    assert (Hl : l = list_remove c l0)
      by (destruct (list_remove c l0); [discriminate | congruence]).
    rewrite Hl. intros Hin.
    apply (list_remove_elem c c l0 (proj2 (proj2 Hwf symbol l0 El0))) in Hin as [_ Hne].
    contradiction.
  - intros symbol l x El Hx Hxc. rewrite Hlook, El. cbn [unsub_entry].
    assert (Hin : x ∈ list_remove c l)
      by (apply (list_remove_elem c x l (proj2 (proj2 Hwf symbol l El))); auto).
    destruct (list_remove c l) as [| y l'] eqn:Er; [inversion Hin |].
    eexists. split; [reflexivity | exact Hin].
Qed.

Lemma handle_disconnect_unsubscribes_client_witness :
  registry_wf (handle_disconnect subscribed "c1")
  /\ active_subscriptions (handle_disconnect subscribed "c1") !! "XAUUSD"%string = None.
Proof.
  split; [| reflexivity].
  apply handle_disconnect_unsubscribes_client; [| discriminate].
  apply (step_wf online); [| apply registry_wf_empty; reflexivity].
  apply (step_subscribe scripted unselectable online "XAUUSD"%string "c1"%string).
Defined.

(** ** Disconnection and connection *)

Lemma stop_all_fields (symbols : list string) :
  forall self,
    let self' := foldl (fun s symbol => stop_price_stream s symbol None) self symbols in
    symbol_data self' = symbol_data self /\ batch_interval self' = batch_interval self.
Proof.
  induction symbols as [| symbol rest IH]; intros self; cbn [foldl]; [auto |].
  destruct (IH (stop_price_stream self symbol None)) as [Hd Hb]. cbv zeta in *.
  destruct (stop_price_stream_fields self symbol None) as (_ & _ & Hd' & Hb').
  rewrite Hd, Hb, Hd', Hb'. auto.
Qed.

Lemma wp_join_threads_then {A : Type} (k : Prog A) (e : event) (Q : A -> Prop) :
  wp k (fun tr a => tr = [e] /\ Q a) ->
  forall threads,
    wp (join_threads threads k) (fun tr a => last tr = Some e /\ Q a).
Proof.
  intros Hk. induction threads as [| t rest IH]; cbn [join_threads].
  - eapply wp_mono; [| exact Hk]. cbn beta. intros tr a [-> HQ]. auto.
  - exec.
    + eapply wp_mono; [| exact IH]. cbn beta. intros tr a [Hl HQ].
      split; [| exact HQ]. rewrite !last_cons, Hl. reflexivity.
    + eapply wp_mono; [| exact IH]. cbn beta. intros tr a [Hl HQ].
      split; [| exact HQ]. rewrite last_cons, Hl. reflexivity.
Qed.

Lemma disconnect_outcome self :
  wp (disconnect self)
     (fun tr out =>
        last tr = Some (Ev mt5_shutdown tt)
        /\ out = (Ok "Disconnected"%string, disconnected self)).
Proof.
  unfold disconnect. cbv zeta.
  apply (wp_join_threads_then _ (Ev mt5_shutdown tt)
           (fun out => out = (Ok "Disconnected"%string, disconnected self))).
  exec. destruct x. split; [reflexivity |]. f_equal.
  pose proof (stop_all_flags (map fst (map_to_list
                (price_threads (set_shutdown_event true (set_connected false self)))))
                (set_shutdown_event true (set_connected false self))) as [Hc Hs].
  pose proof (stop_all_fields (map fst (map_to_list
                (price_threads (set_shutdown_event true (set_connected false self)))))
                (set_shutdown_event true (set_connected false self))) as [Hd Hb].
  cbv zeta in *. apply connector_eq; cbn; try reflexivity; assumption.
Qed.

(** X5.  [disconnect] succeeds from every state and whatever the
    environment answers: its last call is [mt5.shutdown()], and it leaves
    the connector disconnected, with the shutdown event set and no
    subscription or worker entry, the recorded symbol statistics being
    kept.  Disconnecting again succeeds and changes nothing. *)
Theorem disconnect_succeeds_and_is_idempotent :
  forall (V : Type) (handle : forall X, call X -> V -> X * V) (v v' : V) self,
    let out := run handle (disconnect self) v in
    let out' := run handle (disconnect (snd (fst (fst out)))) v' in
    fst (fst out) = (Ok "Disconnected"%string, disconnected self)
    /\ last (snd out) = Some (Ev mt5_shutdown tt)
    /\ fst (fst out') = fst (fst out)
    /\ snd out' = [Ev mt5_shutdown tt].
Proof.
  intros V handle v v' self. cbv zeta.
  destruct (wp_run _ _ (disconnect_outcome self) V handle v) as [Hlast Hout].
  rewrite Hout. cbn [fst snd].
  destruct (wp_run _ _ (disconnect_outcome (disconnected self)) V handle v')
    as [_ Hout'].
  split; [reflexivity |]. split; [exact Hlast |]. split; [exact Hout' |].
  apply disconnect_awaits_nothing. apply registry_inv_empty; reflexivity.
Qed.

(** X6.  From every state the connector can reach, [disconnect] makes a
    single call, [mt5.shutdown()]: it asks no worker thread whether it is
    alive and joins none. *)
Theorem disconnect_joins_no_thread :
  forall (V : Type) (handle : forall X, call X -> V -> X * V) (v : V) self,
    reachable self ->
    snd (run handle (disconnect self) v) = [Ev mt5_shutdown tt]
    /\ threads_awaited (snd (run handle (disconnect self) v)) = [].
Proof.
  intros V handle v self Hreach.
  rewrite (disconnect_awaits_nothing handle v self (reachable_inv self Hreach)).
  split; reflexivity.
Qed.

Lemma disconnect_joins_no_thread_witness :
  snd (run scripted (disconnect subscribed) unselectable) = [Ev mt5_shutdown tt]
  /\ is_Some (price_threads subscribed !! "XAUUSD"%string).
Proof.
  split.
  - apply disconnect_joins_no_thread.
    eapply reachable_step.
    + eapply reachable_step; [apply reachable_init |].
      apply (step_connect scripted unselectable init ""%string 0%Z ""%string).
    + apply (step_subscribe scripted unselectable _ "XAUUSD"%string "c1"%string).
  - eexists. reflexivity.
Defined.

(** X7.  After a disconnection nothing talks to the venue any more: price
    queries, symbol queries, order placements and position closes fail
    with the not-connected error without a single call, and a worker that
    checks its loop condition leaves at once, also without a call. *)
Theorem nothing_runs_after_disconnect :
  forall (V : Type) (handle : forall X, call X -> V -> X * V) (v v' : V) self
         symbol volume order_type sl_distance tp_distance comment magic
         ticket close_volume close_symbol max_retries fuel,
    let self' := snd (fst (fst (run handle (disconnect self) v))) in
    run handle (get_price self' symbol) v' = (Fail NotConnected, self', v', [])
    /\ run handle (get_symbol_info self' symbol) v' = (Fail NotConnected, v', [])
    /\ run handle (place_trade self' symbol volume order_type sl_distance
                     tp_distance comment magic) v' = (Fail NotConnected, v', [])
    /\ run handle (close_trade self' ticket close_volume close_symbol max_retries) v'
       = (Fail NotConnected, v', [])
    /\ run handle (price_worker (S fuel) symbol self') v'
       = (Some (worker_cleanup symbol self'), v', []).
Proof.
  intros. subst self'.
  destruct (wp_run _ _ (disconnect_outcome self) V handle v) as [_ Hout].
  rewrite Hout. cbn [fst snd]. repeat split.
Qed.

(** ** Connection *)

Lemma connect_cases self server login password :
  wp (connect self server login password)
     (fun _ out =>
        same_registry self (snd out)
        /\ symbol_data (snd out) = symbol_data self
        /\ match fst out with
           | Ok _ | Fail AutoTradingDisabled =>
               connected (snd out) = true /\ shutdown_event (snd out) = false
           | Fail _ => snd out = self
           end).
Proof.
  unfold connect. exec. all: cbn; repeat split; reflexivity.
Qed.

(** X8.  [connect] never touches the subscriptions, the worker registry or
    the symbol statistics.  When initialisation or login fails the
    connector is left exactly as it was; once login has succeeded the
    connector is marked connected and its shutdown event is cleared, also
    when the call then fails because the account forbids automated
    trading. *)
Theorem connect_outcome :
  forall (V : Type) (handle : forall X, call X -> V -> X * V) (v : V)
         self server login password,
    let out := fst (fst (run handle (connect self server login password) v)) in
    same_registry self (snd out)
    /\ symbol_data (snd out) = symbol_data self
    /\ match fst out with
       | Ok _ | Fail AutoTradingDisabled =>
           connected (snd out) = true /\ shutdown_event (snd out) = false
       | Fail _ => snd out = self
       end.
Proof.
  intros V handle v self server login password. cbv zeta.
  exact (wp_run _ _ (connect_cases self server login password) V handle v).
Qed.

(** On an account without automated trading the call fails and the
    connector is connected all the same. *)
Example connect_without_algo_trading :
  let out := fst (fst (run scripted_no_algo (connect init "srv" 1 "pw") unselectable)) in
  fst out = Fail AutoTradingDisabled /\ connected (snd out) = true.
Proof. split; reflexivity. Qed.

(** ** Price queries *)

Lemma py_max_ge a b : (a <= py_max a b)%Q /\ (b <= py_max a b)%Q.
Proof. unfold py_max. destruct (Qltb a b) eqn:E; Qltb_facts; split; lra. Qed.

Lemma py_min_le a b : (py_min a b <= a)%Q /\ (py_min a b <= b)%Q.
Proof. unfold py_min. destruct (Qltb b a) eqn:E; Qltb_facts; split; lra. Qed.

Lemma py_or_nonzero h d : ~ (h == 0)%Q -> py_or (Some h) d = h.
Proof.
  intros Hh. cbn. apply Qeq_bool_false in Hh. rewrite Hh. reflexivity.
Qed.

Lemma get_price_tick self symbol :
  connected self = true ->
  wp (get_price self symbol)
     (fun tr out => forall tick,
        ticks_read tr = [(symbol, Some tick)] ->
        exists pd,
          fst out = Ok pd
          /\ pd_bid pd = bid tick /\ pd_ask pd = ask tick
          /\ (bid tick <= pd_high pd)%Q /\ (ask tick <= pd_high pd)%Q
          /\ (pd_low pd <= bid tick)%Q /\ (pd_low pd <= ask tick)%Q
          /\ (exists sd, symbol_data (snd out) !! symbol = Some sd
                         /\ sd_high sd = Some (pd_high pd)
                         /\ sd_low sd = Some (pd_low pd))
          /\ (forall prev h, symbol_data self !! symbol = Some prev ->
                sd_high prev = Some h -> ~ (h == 0)%Q -> (h <= pd_high pd)%Q)
          /\ (forall prev l, symbol_data self !! symbol = Some prev ->
                sd_low prev = Some l -> ~ (l == 0)%Q -> (pd_low pd <= l)%Q)).
Proof.
  intros Hconn. unfold get_price. rewrite Hconn. cbn [negb]. exec.
  all: trace_facts; intros tick Ht; split_cases.
  all: eexists; split; [reflexivity |]; cbn [fst snd pd_bid pd_ask pd_high pd_low].
  all: split; [reflexivity |]; split; [reflexivity |].
  all: set (hi := py_or _ (bid tick)); set (lo := py_or _ (bid tick)).
  all: pose proof (py_max_ge hi (bid tick)) as [Hh1 Hh2];
       pose proof (py_max_ge (py_max hi (bid tick)) (ask tick)) as [Hh3 Hh4];
       pose proof (py_min_le lo (bid tick)) as [Hl1 Hl2];
       pose proof (py_min_le (py_min lo (bid tick)) (ask tick)) as [Hl3 Hl4].
  all: split; [lra |]; split; [lra |]; split; [lra |]; split; [lra |].
  all: split; [eexists; split; [cbn; apply lookup_insert_eq | split; reflexivity] |].
  all: split; intros prev b Hprev Hb Hne; subst hi lo;
       rewrite Hprev in *; cbn [default from_option id] in *;
       rewrite Hb, (py_or_nonzero b _ Hne) in *; lra.
Qed.

(** X9.  A price query answered with a tick returns that tick's bid and
    ask together with a high and a low that bracket both, records this
    high and low for the symbol, and never narrows the range recorded
    before: the high does not go below a recorded (non-zero) high, the low
    not above a recorded (non-zero) low. *)
Theorem get_price_running_range :
  forall (V : Type) (handle : forall X, call X -> V -> X * V) (v : V)
         self symbol tick,
    let out := run handle (get_price self symbol) v in
    connected self = true ->
    ticks_read (snd out) = [(symbol, Some tick)] ->
    exists pd,
      fst (fst (fst out)) = Ok pd
      /\ pd_bid pd = bid tick /\ pd_ask pd = ask tick
      /\ (bid tick <= pd_high pd)%Q /\ (ask tick <= pd_high pd)%Q
      /\ (pd_low pd <= bid tick)%Q /\ (pd_low pd <= ask tick)%Q
      /\ (exists sd, symbol_data (snd (fst (fst out))) !! symbol = Some sd
                     /\ sd_high sd = Some (pd_high pd)
                     /\ sd_low sd = Some (pd_low pd))
      /\ (forall prev h, symbol_data self !! symbol = Some prev ->
            sd_high prev = Some h -> ~ (h == 0)%Q -> (h <= pd_high pd)%Q)
      /\ (forall prev l, symbol_data self !! symbol = Some prev ->
            sd_low prev = Some l -> ~ (l == 0)%Q -> (pd_low pd <= l)%Q).
Proof.
  intros V handle v self symbol tick out Hconn Ht.
  exact (wp_run _ _ (get_price_tick self symbol Hconn) V handle v tick Ht).
Qed.

Lemma get_price_running_range_witness :
  exists pd,
    fst (fst (fst (run scripted (get_price online "XAUUSD")
                     (quiet (Some (gold None 1)) [Some tick_2000] [] [])))) = Ok pd
    /\ pd_bid pd = 2000%Q /\ pd_ask pd = 2001%Q.
Proof.
  destruct (get_price_running_range Script scripted
              (quiet (Some (gold None 1)) [Some tick_2000] [] [])
              online "XAUUSD"%string tick_2000 eq_refl eq_refl)
    as (pd & Hres & Hbid & Hask & _).
  exists pd. auto.
Defined.

Ltac trace_more :=
  cbn [emits_read emit_read omap list_omap] in *; trace_facts.

Lemma get_price_effects self symbol :
  wp (get_price self symbol)
     (fun tr out =>
        (same_registry self (snd out)
         /\ connected (snd out) = connected self
         /\ shutdown_event (snd out) = shutdown_event self
         /\ batch_interval (snd out) = batch_interval self)
        /\ (forall other, symbol <> other ->
              symbol_data (snd out) !! other = symbol_data self !! other)
        /\ (forall f, fst out = Fail f -> snd out = self)
        /\ sent_orders tr = [] /\ emits_read tr = [] /\ threads_started tr = []).
Proof.
  unfold get_price. exec.
  all: trace_more; cbn [fst snd].
  all: split; [repeat split |].
  all: split; [intros other Hne; cbn; try rewrite lookup_insert_ne by exact Hne;
               reflexivity |].
  all: split; [intros f Hf; try reflexivity; discriminate | auto].
Qed.

(** X10.  A price query changes nothing of the connector but the
    statistics of the queried symbol, and nothing at all when it fails; it
    sends no order, pushes no market data and starts no thread. *)
Theorem get_price_only_updates_its_symbol :
  forall (V : Type) (handle : forall X, call X -> V -> X * V) (v : V) self symbol,
    let out := run handle (get_price self symbol) v in
    let self' := snd (fst (fst out)) in
    (same_registry self self'
     /\ connected self' = connected self
     /\ shutdown_event self' = shutdown_event self
     /\ batch_interval self' = batch_interval self)
    /\ (forall other, symbol <> other ->
          symbol_data self' !! other = symbol_data self !! other)
    /\ (forall f, fst (fst (fst out)) = Fail f -> self' = self)
    /\ sent_orders (snd out) = [] /\ emits_read (snd out) = []
    /\ threads_started (snd out) = [].
Proof.
  intros V handle v self symbol. cbv zeta.
  exact (wp_run _ _ (get_price_effects self symbol) V handle v).
Qed.

Lemma get_price_only_updates_its_symbol_witness :
  snd (fst (fst (run scripted (get_price online "XAUUSD") unselectable))) = online.
Proof.
  destruct (get_price_only_updates_its_symbol Script scripted unselectable online
              "XAUUSD"%string) as (_ & _ & Hfail & _).
  apply (Hfail (SymbolNotSelected "XAUUSD")). reflexivity.
Defined.

(** ** Market-data pushes of a worker *)

(** The quotes pushed in a trace. *)
Lemma emits_read_app tr tr' : emits_read (tr ++ tr') = emits_read tr ++ emits_read tr'.
Proof. unfold emits_read. apply omap_app. Qed.

Lemma get_price_answer self symbol :
  wp (get_price self symbol)
     (fun tr out => emits_read tr = []
                    /\ forall pd, fst out = Ok pd -> pd_symbol pd = symbol).
Proof.
  unfold get_price. exec.
  all: trace_more; cbn [fst]; split; [reflexivity |]; intros pd [= <-]; reflexivity.
Qed.

Lemma price_worker_loop_pushes symbol :
  forall fuel last_price error_count self,
    wp (price_worker_loop fuel symbol last_price error_count self)
       (fun tr _ => quotes_change last_price (quotes_pushed tr)
                    /\ Forall (push_for symbol) (emits_read tr)).
Proof.
  induction fuel as [| fuel IH]; intros last_price error_count self;
    cbn [price_worker_loop].
  - cbn. auto.
  - destruct (_ && _ && _); [| cbn; auto].
    apply wp_bind. eapply wp_mono; [| apply get_price_answer]. cbn beta.
    intros tr [res self1] [Hquiet Hsym]. cbn [fst] in Hsym.
    assert (Hq : forall tr', quotes_pushed (tr ++ tr') = quotes_pushed tr'
                             /\ emits_read (tr ++ tr') = emits_read tr').
    { intros tr'. unfold quotes_pushed. rewrite emits_read_app, Hquiet. auto. }
    exec.
    + eapply wp_mono; [| apply IH]. cbn beta. intros tr' _ [Hc Hf].
      destruct (Hq (Ev (time_sleep (batch_interval self1)) x :: tr')) as [-> ->].
      auto.
    + eapply wp_mono; [| apply IH]. cbn beta. intros tr' _ [Hc Hf].
      match goal with
      | |- context [tr ++ ?l] => destruct (Hq l) as [-> ->]
      end.
      unfold quotes_pushed in *. trace_more. cbn [map fst snd].
      split; [split; [| exact Hc] | constructor; [| exact Hf]].
      * destruct last_price as [[b a'] |]; [| exact I].
        intros [Hb Ha]. cbn [fst snd] in *.
        apply Qeq_eq_bool in Hb, Ha.
        match goal with H : _ && _ = false |- _ => rewrite Hb, Ha in H; discriminate H end.
      * repeat split. apply Hsym. reflexivity.
    + destruct (Hq []) as [-> ->]. cbn. auto.
    + eapply wp_mono; [| apply IH]. cbn beta. intros tr' _ [Hc Hf].
      destruct (Hq (Ev (time_sleep (batch_interval self1)) x :: tr')) as [-> ->].
      auto.
Qed.

(** X11.  A worker pushes a price only when its bid or ask differs from
    the price it pushed last: no two consecutive pushes carry the same
    quote.  Every push is a market-data event for the worker's own symbol,
    sent to the room of that symbol. *)
Theorem worker_pushes_only_changes :
  forall (V : Type) (handle : forall X, call X -> V -> X * V) (v : V)
         self symbol fuel,
    let tr := snd (run handle (price_worker fuel symbol self) v) in
    quotes_change None (quotes_pushed tr)
    /\ Forall (push_for symbol) (emits_read tr).
Proof.
  intros V handle v self symbol fuel. cbv zeta.
  exact (wp_run _ _ (price_worker_loop_pushes symbol fuel None 0%nat self) V handle v).
Qed.

(** The same quote fetched twice in a row is pushed once. *)
Example worker_pushes_repeated_quote_once :
  quotes_pushed
    (snd (run scripted (price_worker 2 "XAUUSD" subscribed)
            (quiet None [Some tick_2000; Some tick_2000] [] [])))
  = [(2000%Q, 2001%Q)].
Proof. vm_compute. reflexivity. Qed.

(** ** Order placement *)

(** The local [sl] (or [tp]) is the value the request carries, or a zero
    when the request carries none. *)
Lemma stop_outcome_reported side at_distance d ndigits stop_level price reported
    submitted :
  stop_outcome side at_distance d ndigits stop_level price reported submitted ->
  submitted = Some reported \/ (submitted = None /\ feq reported fzero = true).
Proof.
  intros (first & Hfirst & Hout). unfold first_stop in Hfirst.
  destruct (truthy_pos d) eqn:Et; cbn [andb] in Hout.
  - destruct (feq first fzero) eqn:Ez; cbn [negb] in Hout.
    + destruct Hout as [-> ->]. right. auto.
    + destruct Hout as [-> _]. left. reflexivity.
  - injection Hfirst as <-. destruct Hout as [-> ->]. right. split; reflexivity.
Qed.

Lemma place_trade_success self symbol volume order_type sl_distance tp_distance
    comment magic :
  wp (place_trade self symbol volume order_type sl_distance tp_distance comment magic)
     (fun tr res => forall ok, res = Ok ok ->
        exists req o,
          last (sent_orders tr) = Some (req, Some o)
          /\ retcode o = TRADE_RETCODE_DONE
          /\ ok_retcode ok = retcode o /\ ok_order ok = res_order o
          /\ ok_deal ok = res_deal o /\ ok_volume ok = res_volume o
          /\ ok_price ok = res_price o /\ ok_comment ok = comment
          /\ req_comment req = comment /\ req_magic req = magic
          /\ req_symbol req = symbol
          /\ (req_sl req = Some (ok_sl ok)
              \/ req_sl req = None /\ feq (ok_sl ok) fzero = true)
          /\ (req_tp req = Some (ok_tp ok)
              \/ req_tp req = None /\ feq (ok_tp ok) fzero = true)).
Proof.
  unfold place_trade. exec.
  all: intros ok Hok; try discriminate; trace_facts.
  all: unfold trade_outcome in Hok;
       destruct (retcode _ =? TRADE_RETCODE_DONE)%Z eqn:Edone; [| discriminate].
  all: injection Hok as <-; Zeqb_facts.
  all: match goal with
       | H : build_request _ _ _ _ _ _ _ _ _ _ = Ok _ |- _ =>
           apply build_request_Ok in H;
           destruct H as ((_ & Hsym & _ & Hmagic & Hcomment & _) & _ & _ & _ & _
                          & Hsl & Htp);
           apply stop_outcome_reported in Hsl, Htp
       end.
  all: eexists; eexists; split; [reflexivity |].
  all: cbn [ok_retcode ok_order ok_deal ok_volume ok_price ok_comment ok_sl ok_tp
            req_comment req_magic req_symbol req_sl req_tp set_deviation].
  all: repeat lazymatch goal with |- _ /\ _ => split end.
  all: first [assumption | reflexivity].
Qed.

(** X12.  A placement reports success only for an order the venue
    answered with the done code, the last one it sent: the order, deal,
    volume and price reported are the venue's, and the stop-loss and
    take-profit reported are the ones of the submitted request (a zero
    when the request carries none). *)
Theorem place_trade_success_is_confirmed :
  forall (V : Type) (handle : forall X, call X -> V -> X * V) (v : V)
         self symbol volume order_type sl_distance tp_distance comment magic ok,
    let out := run handle (place_trade self symbol volume order_type sl_distance
                             tp_distance comment magic) v in
    fst (fst out) = Ok ok ->
    exists req o,
      last (sent_orders (snd out)) = Some (req, Some o)
      /\ retcode o = TRADE_RETCODE_DONE
      /\ ok_retcode ok = retcode o /\ ok_order ok = res_order o
      /\ ok_deal ok = res_deal o /\ ok_volume ok = res_volume o
      /\ ok_price ok = res_price o /\ ok_comment ok = comment
      /\ req_comment req = comment /\ req_magic req = magic
      /\ req_symbol req = symbol
      /\ (req_sl req = Some (ok_sl ok)
          \/ req_sl req = None /\ feq (ok_sl ok) fzero = true)
      /\ (req_tp req = Some (ok_tp ok)
          \/ req_tp req = None /\ feq (ok_tp ok) fzero = true).
Proof.
  intros V handle v self symbol volume order_type sl_distance tp_distance comment
    magic ok out Hok.
  exact (wp_run _ _ (place_trade_success self symbol volume order_type sl_distance
                       tp_distance comment magic) V handle v ok Hok).
Qed.

Lemma place_trade_success_is_confirmed_witness :
  exists req o,
    last (sent_orders (snd (run scripted
            (place_trade online "XAUUSD" (b64 1) "BUY" (Some (b64 (1 # 10))) None "" 0)
            (stop_script 50 tick_2000)))) = Some (req, Some o)
    /\ retcode o = TRADE_RETCODE_DONE
    /\ req_sl req = Some (b64 (20005 # 10)).
Proof.
  destruct (place_trade_success_is_confirmed Script scripted
              (stop_script 50 tick_2000) online "XAUUSD"%string (b64 1) "BUY"%string
              (Some (b64 (1 # 10))) None ""%string 0%Z
              {| ok_order := 1; ok_deal := 1; ok_volume := 1; ok_price := 2001;
                 ok_sl := b64 (20005 # 10);
                 ok_tp := fzero; ok_comment := ""; ok_retcode := TRADE_RETCODE_DONE |})
    as (req & o & Hlast & Hdone & _ & _ & _ & _ & _ & _ & _ & _ & _ & Hsl & _).
  - vm_compute. reflexivity.
  - exists req, o. split; [exact Hlast |]. split; [exact Hdone |].
    destruct Hsl as [Hsl | [Hnone Hzero]]; [exact Hsl | discriminate Hzero].
Defined.

(** What the SL/TP block does with a distance that needs no widening. *)
Lemma stop_outcome_kept side at_distance d ndigits stop_level price reported
    submitted :
  stop_outcome side at_distance d ndigits stop_level price reported submitted ->
  kept side at_distance d ndigits stop_level price submitted.
Proof.
  intros (first & Hfirst & Hout). unfold first_stop in Hfirst. split.
  - intros x first' -> Hpos Hge Hraw Hnz.
    cbn [distance default from_option id] in *.
    rewrite truthy_pos_Some, Hpos in *. rewrite Hraw in Hfirst.
    injection Hfirst as <-. rewrite Hnz, Hge in Hout. cbn [andb negb] in Hout.
    destruct Hout as [-> ->]. reflexivity.
  - intros [-> | (x & -> & Hx)].
    + cbn [truthy_pos andb] in Hout. apply Hout.
    + rewrite truthy_pos_Some, Hx in Hout. cbn [andb] in Hout. apply Hout.
Qed.

Lemma place_trade_keeps_stops self symbol volume order_type sl_distance tp_distance
    comment magic :
  wp (place_trade self symbol volume order_type sl_distance tp_distance comment magic)
     (fun tr _ => forall info req ans,
        In (Some info) (infos_read tr) -> In (req, ans) (sent_orders tr) ->
        stops_kept sl_distance tp_distance info req).
Proof.
  eapply wp_mono; [| apply place_trade_request]. cbn beta.
  intros tr _ H info req ans Hinfo Hsent.
  destruct (H info req ans Hinfo Hsent)
    as (stop_level & tick & request & sl & tp & Hstop & Hticks & Hb & Hreq).
  apply build_request_Ok in Hb.
  destruct Hb as (_ & _ & _ & _ & _ & Hsl & Htp).
  assert (Hsame : req_type req = req_type request /\ req_price req = req_price request
                  /\ req_sl req = req_sl request /\ req_tp req = req_tp request)
    by (destruct Hreq as [-> | ->]; repeat split).
  destruct Hsame as (Etype & Eprice & Esl & Etp).
  intros floor Hfloor. rewrite <- stop_level_spec, Hstop in Hfloor.
  injection Hfloor as <-. rewrite Etype, Eprice, Esl, Etp.
  split; eapply stop_outcome_kept; eassumption.
Qed.

(** X13.  In [place_trade], a positive stop-loss or take-profit distance
    that is not below the instrument's minimum stop distance (first price
    not zero) is submitted as it is, as the price at that distance from
    the reference price rounded to the instrument's digits; without a
    distance, or with a distance that is not positive, the request carries
    no stop-loss (take-profit) at all. *)
Theorem place_trade_stops_unchanged :
  forall (V : Type) (handle : forall X, call X -> V -> X * V) (v : V)
         self symbol volume order_type sl_distance tp_distance comment magic
         info req ans,
    let tr := snd (run handle (place_trade self symbol volume order_type sl_distance
                                 tp_distance comment magic) v) in
    In (Some info) (infos_read tr) -> In (req, ans) (sent_orders tr) ->
    stops_kept sl_distance tp_distance info req.
Proof.
  intros V handle v self symbol volume order_type sl_distance tp_distance comment
    magic info req ans tr Hinfo Hsent.
  exact (wp_run _ _ (place_trade_keeps_stops self symbol volume order_type
                       sl_distance tp_distance comment magic)
           V handle v info req ans Hinfo Hsent).
Qed.

(** A BUY at ask 2001 with distances well above the minimum of 0.5: a
    stop-loss distance of 3 is submitted as 1998; a distance of 0.005 is
    submitted as 2000.99, the float nearest to 2001 - 0.005 lying just
    below the tie. *)
Lemma place_trade_stops_unchanged_witness :
  (exists req ans,
      In (req, ans)
         (sent_orders (snd (run scripted
            (place_trade online "XAUUSD" (b64 1) "BUY" (Some (b64 3)) None "" 0)
            (stop_script 50 tick_2000))))
      /\ req_sl req = Some (b64 1998) /\ req_tp req = None)
  /\ (exists req ans,
      In (req, ans)
         (sent_orders (snd (run scripted
            (place_trade online "XAUUSD" (b64 1) "BUY" (Some (b64 (5 # 1000))) None
               "" 0)
            (stop_script 0 tick_2000))))
      /\ req_sl req = Some (b64 (200099 # 100))).
Proof.
  split.
  - eexists. eexists. split; [vm_compute; left; reflexivity |].
    destruct (place_trade_stops_unchanged Script scripted (stop_script 50 tick_2000)
                online "XAUUSD"%string (b64 1) "BUY"%string (Some (b64 3)) None
                ""%string 0%Z (gold (Some 50%Z) 1) _ _
                ltac:(vm_compute; left; reflexivity)
                ltac:(vm_compute; left; reflexivity) (b64 (1 # 2))
                ltac:(vm_compute; reflexivity)) as ([Hsl _] & [_ Htp]).
    split.
    + apply (Hsl (b64 3)); [reflexivity | reflexivity | reflexivity
                           | vm_compute; reflexivity | reflexivity].
    + apply Htp. left. reflexivity.
  - eexists. eexists. split; [vm_compute; left; reflexivity |].
    destruct (place_trade_stops_unchanged Script scripted (stop_script 0 tick_2000)
                online "XAUUSD"%string (b64 1) "BUY"%string (Some (b64 (5 # 1000)))
                None ""%string 0%Z (gold (Some 0%Z) 1) _ _
                ltac:(vm_compute; left; reflexivity)
                ltac:(vm_compute; left; reflexivity) fzero
                ltac:(vm_compute; reflexivity)) as ([Hsl _] & _).
    apply (Hsl (b64 (5 # 1000))); [reflexivity | reflexivity | reflexivity
                                  | vm_compute; reflexivity | reflexivity].
Defined.

(** ** Position closes *)


Lemma close_attempts_shape ticket pos symbol position_type volume fillings
    max_retries :
  forall attempts filling_type,
    wp (close_attempts ticket pos symbol position_type (closing_side pos) volume
          fillings max_retries attempts filling_type)
       (fun tr _ =>
          Forall (fun ra => closes_position ticket pos symbol (fst ra)) (sent_orders tr)
          /\ map (fun ra => Some (req_price (fst ra))) (sent_orders tr)
             = take (length (sent_orders tr)) (closing_prices pos (ticks_read tr))
          /\ Forall (fun st => fst st = symbol) (ticks_read tr)).
Proof.
  induction attempts as [| attempt rest IH]; intros filling_type;
    cbn [close_attempts]; exec; trace_facts.
  all: try (cbn; split; [repeat constructor | split; [reflexivity | repeat constructor]]).
  eapply wp_mono; [| apply IH]. cbn beta. intros tr _ (Hs & Hp & Ht).
  trace_facts. fold (sent_orders tr) (ticks_read tr).
  split; [constructor; [cbn; repeat split | exact Hs] |].
  split; [| constructor; [reflexivity | exact Ht]].
  cbn [map length take closing_prices snd fst]. unfold closing_prices in Hp.
  rewrite Hp. reflexivity.
Qed.

Lemma close_attempts_retried ticket pos symbol position_type close_type volume
    fillings max_retries :
  forall attempts filling_type,
    wp (close_attempts ticket pos symbol position_type close_type volume
          fillings max_retries attempts filling_type)
       (fun tr _ =>
          (length (sent_orders tr) <= length attempts)%nat
          /\ forall i ra, sent_orders tr !! i = Some ra ->
               (S i < length (sent_orders tr))%nat ->
               exists o, snd ra = Some o /\ retcode o = 10021%Z).
Proof.
  induction attempts as [| attempt rest IH]; intros filling_type;
    cbn [close_attempts]; exec; trace_facts.
  all: try (cbn; split; [lia |]; intros i ra Hi Hlt; cbn in Hlt; lia).
  eapply wp_mono; [| apply IH]. cbn beta. intros tr _ [Hlen Hall].
  trace_facts. fold (sent_orders tr). split; [cbn; lia |].
  intros [| i] ra Hi Hlt; cbn in Hi, Hlt.
  - injection Hi as <-. eexists. split; [reflexivity |].
    match goal with
    | H : _ && _ = true |- _ => apply andb_true_iff in H as [H _]; apply Z.eqb_eq in H; exact H
    end.
  - apply (Hall i ra Hi). lia.
Qed.

Lemma close_attempts_outcome ticket pos symbol position_type close_type volume
    fillings max_retries :
  forall attempts filling_type,
    wp (close_attempts ticket pos symbol position_type close_type volume
          fillings max_retries attempts filling_type)
       (fun tr res =>
          match res with
          | Ok ok =>
              exists req o,
                last (sent_orders tr) = Some (req, Some o)
                /\ retcode o = TRADE_RETCODE_DONE
                /\ cl_retcode ok = retcode o /\ cl_deal ok = res_deal o
                /\ cl_price ok = res_price o /\ cl_volume ok = res_volume o
                /\ cl_profit ok = pos_profit pos /\ cl_symbol ok = symbol
                /\ cl_position_type ok = position_type
          | Fail (CloseFailed msg) =>
              exists req o,
                last (sent_orders tr) = Some (req, Some o)
                /\ retcode o <> TRADE_RETCODE_DONE
                /\ msg = error_msg (retcode o)
          | Fail (CloseFailedCode code comment) =>
              exists req e,
                last (sent_orders tr) = Some (req, None)
                /\ errors_read tr = [e]
                /\ code = error_code_of e /\ comment = error_comment_of e
          | Fail (NoPrice s) =>
              s = symbol /\ last (ticks_read tr) = Some (symbol, None)
          | Fail (CloseFailedAfter n) => n = max_retries
          | Fail _ => False
          end).
Proof.
  induction attempts as [| attempt rest IH]; intros filling_type;
    cbn [close_attempts]; exec; trace_facts.
  all: Zeqb_facts.
  all: try solve [reflexivity | split; reflexivity].
  all: try solve [eexists; eexists; cbn; repeat split;
                  first [assumption | reflexivity]].
  eapply wp_mono; [| apply IH]. cbn beta. intros tr res H. trace_facts.
  fold (sent_orders tr) (ticks_read tr) (errors_read tr).
  destruct res as [ok | f].
  - destruct H as (req & o' & Hl & H). exists req, o'.
    split; [| exact H]. rewrite last_cons, Hl. reflexivity.
  - destruct f; try exact H.
    + destruct H as [-> Hl]. split; [reflexivity |].
      rewrite last_cons, Hl. reflexivity.
    + destruct H as (req & e & Hl & H). exists req, e.
      split; [| exact H]. rewrite last_cons, Hl. reflexivity.
    + destruct H as (req & o' & Hl & H). exists req, o'.
      split; [| exact H]. rewrite last_cons, Hl. reflexivity.
Qed.

Lemma close_trade_orders self ticket volume symbol max_retries :
  wp (close_trade self ticket volume symbol max_retries)
     (fun tr _ => forall pos others,
        In (Some (pos :: others)) (positions_read tr) ->
        Forall (fun ra => closes_position ticket pos
                            (symbol_or symbol (pos_symbol pos)) (fst ra))
               (sent_orders tr)
        /\ map (fun ra => Some (req_price (fst ra))) (sent_orders tr)
           = take (length (sent_orders tr)) (closing_prices pos (ticks_read tr))
        /\ Forall (fun st => fst st = symbol_or symbol (pos_symbol pos))
                  (ticks_read tr)).
Proof.
  unfold close_trade. exec.
  all: try solve [intros pos' others Hpos; trace_facts; split_cases;
                  repeat lazymatch goal with |- _ /\ _ => split end;
                  first [constructor | reflexivity]].
  eapply wp_mono;
    [| apply wp_and; [apply close_attempts_sent | apply close_attempts_shape]].
  cbn beta. intros tr _ [(_ & _ & Hp & _) Hshape] pos' others Hpos.
  trace_facts. fold (positions_read tr) in Hpos. rewrite Hp in Hpos.
  trace_facts. split_cases. exact Hshape.
Qed.

Lemma range_length m : length (range m) = Z.to_nat m.
Proof. unfold range. rewrite length_map, length_seq. reflexivity. Qed.

Lemma close_trade_retries self ticket volume symbol max_retries :
  wp (close_trade self ticket volume symbol max_retries)
     (fun tr _ =>
        map (fun ra => req_deviation (fst ra)) (sent_orders tr)
        = map (fun a => 20 + a * 10)%Z
              (take (length (sent_orders tr)) (range max_retries))
        /\ (length (sent_orders tr) <= Z.to_nat max_retries)%nat
        /\ (length (sent_orders tr) <= length (ticks_read tr))%nat
        /\ Forall (fun p => p = (1 # 2)%Q) (pauses_taken tr)
        /\ (forall i ra, sent_orders tr !! i = Some ra ->
              (S i < length (sent_orders tr))%nat ->
              exists o, snd ra = Some o /\ retcode o = 10021%Z)).
Proof.
  unfold close_trade. exec.
  all: try solve [trace_facts; cbn;
                  repeat lazymatch goal with |- _ /\ _ => split end;
                  first [reflexivity | lia | constructor
                        | intros i ra Hi; rewrite lookup_nil in Hi; discriminate]].
  eapply wp_mono;
    [| apply wp_and; [apply close_attempts_escalation | apply close_attempts_retried]].
  cbn beta. intros tr _ [(Hd & Ht & Hp) [Hlen Hall]]. trace_facts.
  rewrite range_length in Hlen. auto.
Qed.

Lemma close_trade_result self ticket volume symbol max_retries :
  wp (close_trade self ticket volume symbol max_retries)
     (fun tr res =>
        match res with
        | Ok ok =>
            exists pos others req o,
              positions_read tr = [Some (pos :: others)]
              /\ last (sent_orders tr) = Some (req, Some o)
              /\ retcode o = TRADE_RETCODE_DONE
              /\ cl_retcode ok = retcode o /\ cl_deal ok = res_deal o
              /\ cl_price ok = res_price o /\ cl_volume ok = res_volume o
              /\ cl_profit ok = pos_profit pos
              /\ cl_symbol ok = symbol_or symbol (pos_symbol pos)
              /\ cl_position_type ok
                 = (if (pos_type pos =? POSITION_TYPE_BUY)%Z then "BUY" else "SELL")%string
        | Fail (CloseFailed msg) =>
            exists req o,
              last (sent_orders tr) = Some (req, Some o)
              /\ retcode o <> TRADE_RETCODE_DONE
              /\ msg = error_msg (retcode o)
        | Fail (CloseFailedCode code comment) =>
            exists req e,
              last (sent_orders tr) = Some (req, None)
              /\ errors_read tr = [e]
              /\ code = error_code_of e /\ comment = error_comment_of e
        | Fail _ => sent_orders tr = [] \/ (exists s, res = Fail (NoPrice s))
                    \/ (exists n, res = Fail (CloseFailedAfter n))
        end).
Proof.
  unfold close_trade. exec.
  all: try (trace_facts; left; reflexivity).
  eapply wp_mono;
    [| apply wp_and; [apply close_attempts_sent | apply close_attempts_outcome]].
  cbn beta. intros tr res [(_ & _ & Hp & _) Hout]. trace_facts.
  fold (positions_read tr) (sent_orders tr) (errors_read tr).
  rewrite Hp. destruct res as [ok | f].
  - destruct Hout as (req & o' & H). do 4 eexists. split; [reflexivity | exact H].
  - destruct f; try contradiction; try exact Hout; right; eauto.
Qed.

Lemma close_trade_no_attempt self ticket volume symbol max_retries :
  (max_retries <= 0)%Z ->
  wp (close_trade self ticket volume symbol max_retries)
     (fun tr res => sent_orders tr = [] /\ ticks_read tr = []
                    /\ exists f, res = Fail f).
Proof.
  intros Hm. unfold close_trade.
  assert (Hr : range max_retries = []).
  { unfold range. replace (Z.to_nat max_retries) with 0%nat by lia. reflexivity. }
  rewrite Hr. exec.
  all: cbn [close_attempts wp]; trace_facts; eauto.
Qed.

(** X14.  Every order a close sends is a market deal on the side opposite
    to the position, for the position's ticket and magic number and the
    symbol being closed, without stop-loss or take-profit; the i-th order
    is priced from the i-th tick fetched for that symbol, at the bid for a
    long position and at the ask otherwise. *)
Theorem close_trade_orders_close_the_position :
  forall (V : Type) (handle : forall X, call X -> V -> X * V) (v : V)
         self ticket volume symbol max_retries pos others,
    let tr := snd (run handle (close_trade self ticket volume symbol max_retries) v) in
    In (Some (pos :: others)) (positions_read tr) ->
    Forall (fun ra => closes_position ticket pos
                        (symbol_or symbol (pos_symbol pos)) (fst ra))
           (sent_orders tr)
    /\ map (fun ra => Some (req_price (fst ra))) (sent_orders tr)
       = take (length (sent_orders tr)) (closing_prices pos (ticks_read tr))
    /\ Forall (fun st => fst st = symbol_or symbol (pos_symbol pos)) (ticks_read tr).
Proof.
  intros V handle v self ticket volume symbol max_retries pos others tr Hpos.
  exact (wp_run _ _ (close_trade_orders self ticket volume symbol max_retries)
           V handle v pos others Hpos).
Qed.

Lemma close_trade_orders_close_the_position_witness :
  map (fun ra => (req_type (fst ra), req_price (fst ra)))
      (sent_orders (snd (run scripted (close_trade online 7 None None 3)
                           close_retry_script)))
  = [(ORDER_TYPE_SELL, 2000%Q); (ORDER_TYPE_SELL, 2000%Q)]
  /\ Forall (fun ra => closes_position 7 (long_position 1) "XAUUSD" (fst ra))
            (sent_orders (snd (run scripted (close_trade online 7 None None 3)
                                 close_retry_script))).
Proof.
  split; [vm_compute; reflexivity |].
  apply (close_trade_orders_close_the_position Script scripted close_retry_script
           online 7%Z None None 3%Z (long_position 1) []).
  vm_compute. left. reflexivity.
Defined.

(** X15.  A close sends at most [max_retries] orders; the i-th order
    (from 0) carries the price tolerance 20 + 10 i; every order follows a
    tick fetch of its own; every order but the last was answered with
    return code 10021, the only answer that is retried; and each pause
    between attempts lasts half a second. *)
Theorem close_trade_escalates :
  forall (V : Type) (handle : forall X, call X -> V -> X * V) (v : V)
         self ticket volume symbol max_retries,
    let tr := snd (run handle (close_trade self ticket volume symbol max_retries) v) in
    map (fun ra => req_deviation (fst ra)) (sent_orders tr)
    = map (fun a => 20 + a * 10)%Z
          (take (length (sent_orders tr)) (range max_retries))
    /\ (length (sent_orders tr) <= Z.to_nat max_retries)%nat
    /\ (length (sent_orders tr) <= length (ticks_read tr))%nat
    /\ Forall (fun p => p = (1 # 2)%Q) (pauses_taken tr)
    /\ (forall i ra, sent_orders tr !! i = Some ra ->
          (S i < length (sent_orders tr))%nat ->
          exists o, snd ra = Some o /\ retcode o = 10021%Z).
Proof.
  intros V handle v self ticket volume symbol max_retries. cbv zeta.
  exact (wp_run _ _ (close_trade_retries self ticket volume symbol max_retries)
           V handle v).
Qed.

Lemma close_trade_escalates_witness :
  exists ra o,
    sent_orders (snd (run scripted (close_trade online 7 None None 3)
                        close_retry_script)) !! 0%nat = Some ra
    /\ snd ra = Some o /\ retcode o = 10021%Z /\ req_deviation (fst ra) = 20%Z.
Proof.
  destruct (close_trade_escalates Script scripted close_retry_script online 7%Z
              None None 3%Z) as (_ & _ & _ & _ & Hretry).
  destruct (Hretry 0%nat _ eq_refl) as (o & Ho & Hcode); [vm_compute; lia |].
  eexists. exists o. split; [reflexivity |]. auto.
Defined.

(** X16.  What a close returns is decided by the last order it sent: a
    success reports the deal, price and volume of a venue answer carrying
    the done code, with the profit, symbol and side of the position; the
    close-failed error carries the catalog message of the last answer's
    return code, which is not the done code; the coded close-failed error
    follows an order the venue gave no result for, with the code and
    comment of the error read after it. *)
Theorem close_trade_outcome :
  forall (V : Type) (handle : forall X, call X -> V -> X * V) (v : V)
         self ticket volume symbol max_retries,
    let out := run handle (close_trade self ticket volume symbol max_retries) v in
    let tr := snd out in
    match fst (fst out) with
    | Ok ok =>
        exists pos others req o,
          positions_read tr = [Some (pos :: others)]
          /\ last (sent_orders tr) = Some (req, Some o)
          /\ retcode o = TRADE_RETCODE_DONE
          /\ cl_retcode ok = retcode o /\ cl_deal ok = res_deal o
          /\ cl_price ok = res_price o /\ cl_volume ok = res_volume o
          /\ cl_profit ok = pos_profit pos
          /\ cl_symbol ok = symbol_or symbol (pos_symbol pos)
          /\ cl_position_type ok
             = (if (pos_type pos =? POSITION_TYPE_BUY)%Z then "BUY" else "SELL")%string
    | Fail (CloseFailed msg) =>
        exists req o,
          last (sent_orders tr) = Some (req, Some o)
          /\ retcode o <> TRADE_RETCODE_DONE
          /\ msg = error_msg (retcode o)
    | Fail (CloseFailedCode code comment) =>
        exists req e,
          last (sent_orders tr) = Some (req, None)
          /\ errors_read tr = [e]
          /\ code = error_code_of e /\ comment = error_comment_of e
    | Fail _ => sent_orders tr = [] \/ (exists s, fst (fst out) = Fail (NoPrice s))
                \/ (exists n, fst (fst out) = Fail (CloseFailedAfter n))
    end.
Proof.
  intros V handle v self ticket volume symbol max_retries. cbv zeta.
  exact (wp_run _ _ (close_trade_result self ticket volume symbol max_retries)
           V handle v).
Qed.

(** A close whose first order is rejected with 10021 and whose second is
    filled reports the second answer. *)
Example close_trade_reports_last_answer :
  fst (fst (run scripted (close_trade online 7 None None 3) close_retry_script))
  = Ok {| cl_deal := 1; cl_retcode := TRADE_RETCODE_DONE; cl_price := 2000;
          cl_volume := 1; cl_profit := 0; cl_symbol := "XAUUSD";
          cl_position_type := "BUY" |}.
Proof. vm_compute. reflexivity. Qed.

(** X17.  With at least one attempt allowed, a close never answers with
    the attempts-exhausted error, whatever the venue does; with
    [max_retries] zero or negative it fetches no tick, sends no order and
    fails. *)
Theorem close_trade_exhaustion :
  forall (V : Type) (handle : forall X, call X -> V -> X * V) (v : V)
         self ticket volume symbol max_retries,
    let out := run handle (close_trade self ticket volume symbol max_retries) v in
    ((0 < max_retries)%Z -> forall n, fst (fst out) <> Fail (CloseFailedAfter n))
    /\ ((max_retries <= 0)%Z ->
        sent_orders (snd out) = [] /\ ticks_read (snd out) = []
        /\ exists f, fst (fst out) = Fail f).
Proof.
  intros V handle v self ticket volume symbol max_retries. cbv zeta. split.
  - intros Hm.
    exact (wp_run _ _ (close_trade_never_exhausts self ticket volume symbol
                         max_retries Hm) V handle v).
  - intros Hm.
    exact (wp_run _ _ (close_trade_no_attempt self ticket volume symbol
                         max_retries Hm) V handle v).
Qed.

Lemma close_trade_exhaustion_witness :
  fst (fst (run scripted (close_trade online 7 None None 3) three_rejections))
  <> Fail (CloseFailedAfter 3)
  /\ fst (fst (run scripted (close_trade online 7 None None 0) three_rejections))
     = Fail (CloseFailedAfter 0).
Proof.
  split.
  - apply (proj1 (close_trade_exhaustion Script scripted three_rejections online
                    7%Z None None 3%Z)). reflexivity.
  - destruct (proj2 (close_trade_exhaustion Script scripted three_rejections online
                       7%Z None None 0%Z) ltac:(discriminate)) as (_ & _ & f & Hf).
    reflexivity.
Defined.

(** ** Filling capabilities and the symbol endpoints *)

Lemma capable_mod8 fm f : capable (fm mod 8) f = capable fm f.
Proof.
  change 8%Z with (2 ^ 3)%Z.
  destruct f; cbn [capable]; apply Z.mod_pow2_bits_low; lia.
Qed.

Lemma mod8_zero fm :
  (fm mod 8 = 0)%Z
  <-> Z.testbit fm 0 = false /\ Z.testbit fm 1 = false /\ Z.testbit fm 2 = false.
Proof.
  change 8%Z with (2 ^ 3)%Z. split.
  - intros H.
    rewrite <- (Z.mod_pow2_bits_low fm 3 0), <- (Z.mod_pow2_bits_low fm 3 1),
            <- (Z.mod_pow2_bits_low fm 3 2) by lia.
    rewrite H. repeat split.
  - intros (H0 & H1 & H2). apply Z.bits_inj'. intros n Hn.
    rewrite Z.bits_0.
    destruct (Z.lt_ge_cases n 3) as [Hlt | Hge].
    + rewrite Z.mod_pow2_bits_low by lia.
      assert (Hcases : n = 0%Z \/ n = 1%Z \/ n = 2%Z) by lia.
      destruct Hcases as [-> | [-> | ->]]; assumption.
    + apply Z.mod_pow2_bits_high. lia.
Qed.

(** X18.  The capability list decoded from a filling bitmask holds
    exactly the modes whose bit is set (bit 0 FOK, bit 1 IOC, bit 2
    RETURN), each once and in that order; it depends on the bitmask
    modulo 8 only, and it is empty exactly for the multiples of 8. *)
Theorem supported_fillings_decode :
  forall fm : Z,
    (forall f, In f (supported_fillings fm) <-> capable fm f = true)
    /\ NoDup (supported_fillings fm)
    /\ sublist (supported_fillings fm)
               [ORDER_FILLING_FOK; ORDER_FILLING_IOC; ORDER_FILLING_RETURN]
    /\ supported_fillings (fm mod 8) = supported_fillings fm
    /\ (supported_fillings fm = [] <-> (fm mod 8 = 0)%Z).
Proof.
  intros fm. split; [apply supported_fillings_In |].
  split; [| split; [| split]].
  - rewrite supported_fillings_capable. cbn [List.filter capable].
    destruct (Z.testbit fm 0), (Z.testbit fm 1), (Z.testbit fm 2);
      repeat first [apply NoDup_nil_2 | apply NoDup_cons_2];
      rewrite ?elem_of_cons, ?elem_of_nil; intuition discriminate.
  - rewrite supported_fillings_capable. cbn [List.filter capable].
    destruct (Z.testbit fm 0), (Z.testbit fm 1), (Z.testbit fm 2);
      repeat first [apply sublist_skip | apply sublist_cons | apply sublist_nil].
  - rewrite !supported_fillings_capable.
    apply List.filter_ext. intros f. apply capable_mod8.
  - rewrite mod8_zero, supported_fillings_capable. cbn [List.filter capable].
    destruct (Z.testbit fm 0), (Z.testbit fm 1), (Z.testbit fm 2);
      split; intros H; try discriminate; try reflexivity; auto;
      destruct H as (? & ? & ?); discriminate.
Qed.

(** A bitmask with bits beyond the three known ones: 13 = 8 + 4 + 1. *)
Example supported_fillings_13 :
  supported_fillings 13 = [ORDER_FILLING_FOK; ORDER_FILLING_RETURN]
  /\ supported_fillings 8 = [] /\ supported_fillings (-1) = supported_fillings 7.
Proof. repeat split. Qed.

Lemma get_symbol_info_outcome self symbol :
  wp (get_symbol_info self symbol)
     (fun tr res =>
        sent_orders tr = [] /\ ticks_read tr = []
        /\ match res with
           | Ok d =>
               connected self = true
               /\ exists info,
                    tr = [Ev (symbol_select symbol true) true;
                          Ev (symbol_info symbol) (Some info)]
                    /\ d_filling_mode d = filling_mode info
                    /\ d_name d = info_name info
                    /\ d_point d = point info /\ d_digits d = digits info
                    /\ d_spread d = info_spread info
                    /\ d_trade_mode d = trade_mode info
                    /\ d_volume_min d = volume_min info
                    /\ d_volume_max d = volume_max info
                    /\ d_volume_step d = volume_step info
                    /\ d_stops_level d = default 0%Z (stops_level info)
           | Fail f =>
               (f = NotConnected /\ connected self = false /\ tr = [])
               \/ (f = SymbolNotSelected symbol /\ connected self = true
                   /\ tr = [Ev (symbol_select symbol true) false])
               \/ (f = SymbolNotFound symbol /\ connected self = true
                   /\ tr = [Ev (symbol_select symbol true) true;
                            Ev (symbol_info symbol) None])
           end).
Proof.
  unfold get_symbol_info. exec.
  all: trace_facts.
  all: repeat match goal with
       | H : negb _ = true |- _ => apply negb_true_iff in H
       | H : negb _ = false |- _ => apply negb_false_iff in H
       end; subst.
  all: split; [reflexivity | split; [reflexivity |]].
  - left. auto.
  - right. left. auto.
  - split; [assumption |]. eexists. split; [reflexivity |]. cbn. repeat split.
  - right. right. auto.
Qed.

Lemma get_symbol_filling_outcome self symbol :
  wp (get_symbol_filling self symbol)
     (fun tr res =>
        sent_orders tr = [] /\ ticks_read tr = []
        /\ match res with
           | Ok r =>
               connected self = true
               /\ exists info,
                    tr = [Ev (symbol_select symbol true) true;
                          Ev (symbol_info symbol) (Some info)]
                    /\ fr_symbol r = symbol
                    /\ fr_filling_mode r = filling_mode info
                    /\ fr_supported_fillings r
                       = map filling_name (supported_fillings (filling_mode info))
           | Fail f =>
               (f = NotConnected /\ connected self = false /\ tr = [])
               \/ (f = SymbolNotSelected symbol /\ connected self = true
                   /\ tr = [Ev (symbol_select symbol true) false])
               \/ (f = SymbolNotFound symbol /\ connected self = true
                   /\ tr = [Ev (symbol_select symbol true) true;
                            Ev (symbol_info symbol) None])
           end).
Proof.
  unfold get_symbol_filling. apply wp_bind.
  eapply wp_mono; [| apply get_symbol_info_outcome].
  cbn beta. intros tr res (Hs & Ht & Hres).
  destruct res as [d | f]; cbn [wp]; rewrite app_nil_r.
  - split; [exact Hs | split; [exact Ht |]].
    destruct Hres as (Hc & info & Htr & Hfm & _).
    split; [exact Hc |]. exists info. split; [exact Htr |].
    cbn [fr_symbol fr_filling_mode fr_supported_fillings].
    split; [reflexivity |]. split; [exact Hfm |].
    rewrite Hfm. unfold supported_fillings.
    destruct (Z.land _ 1 =? 0)%Z, (Z.land _ 2 =? 0)%Z, (Z.land _ 4 =? 0)%Z;
      reflexivity.
  - split; [exact Hs | split; [exact Ht | exact Hres]].
Qed.

(** X19.  The symbol-filling endpoint answers from one instrument read: a
    success reports the symbol asked for, the instrument's bitmask and the
    names of exactly the capabilities an order would choose from, in the
    same order; it fails with the not-connected error without any venue
    call, with the not-selected error after a refused selection and with
    the not-found error after an empty instrument read; it never fetches a
    tick and never sends an order. *)
Theorem symbol_filling_report :
  forall (V : Type) (handle : forall X, call X -> V -> X * V) (v : V)
         self symbol,
    let out := run handle (get_symbol_filling self symbol) v in
    let tr := snd out in
    sent_orders tr = [] /\ ticks_read tr = []
    /\ match fst (fst out) with
       | Ok r =>
           connected self = true
           /\ exists info,
                tr = [Ev (symbol_select symbol true) true;
                      Ev (symbol_info symbol) (Some info)]
                /\ fr_symbol r = symbol
                /\ fr_filling_mode r = filling_mode info
                /\ fr_supported_fillings r
                   = map filling_name (supported_fillings (filling_mode info))
       | Fail f =>
           (f = NotConnected /\ connected self = false /\ tr = [])
           \/ (f = SymbolNotSelected symbol /\ connected self = true
               /\ tr = [Ev (symbol_select symbol true) false])
           \/ (f = SymbolNotFound symbol /\ connected self = true
               /\ tr = [Ev (symbol_select symbol true) true;
                        Ev (symbol_info symbol) None])
       end.
Proof.
  intros V handle v self symbol. cbv zeta.
  exact (wp_run _ _ (get_symbol_filling_outcome self symbol) V handle v).
Qed.

(** An instrument accepting FOK and RETURN. *)
Example symbol_filling_report_fok_return :
  fst (fst (run scripted (get_symbol_filling online "XAUUSD")
              (quiet (Some (gold None 5)) [] [] [])))
  = Ok {| fr_symbol := "XAUUSD"; fr_filling_mode := 5;
          fr_supported_fillings := ["FOK"; "RETURN"]%string |}.
Proof. vm_compute. reflexivity. Qed.

(** X20.  The endpoint and the order path agree: on an instrument with
    the bitmask the endpoint reported, every order a placement sends
    carries the filling mode the endpoint names first. *)
Theorem endpoint_names_the_submitted_filling :
  forall (V : Type) (handle : forall X, call X -> V -> X * V) (v v' : V)
         self self' symbol r volume order_type sl_distance tp_distance comment
         magic info req ans,
    fst (fst (run handle (get_symbol_filling self symbol) v)) = Ok r ->
    In (Some info)
       (infos_read (snd (run handle (place_trade self' symbol volume order_type
                                       sl_distance tp_distance comment magic) v'))) ->
    filling_mode info = fr_filling_mode r ->
    In (req, ans)
       (sent_orders (snd (run handle (place_trade self' symbol volume order_type
                                        sl_distance tp_distance comment magic) v'))) ->
    head (fr_supported_fillings r) = Some (filling_name (req_type_filling req)).
Proof.
  intros V handle v v' self self' symbol r volume order_type sl_distance
         tp_distance comment magic info req ans Hr Hinfo Hfm Hsent.
  pose proof (wp_run _ _ (get_symbol_filling_outcome self symbol) V handle v)
    as (_ & _ & Hout).
  rewrite Hr in Hout. destruct Hout as (_ & info0 & _ & _ & Hfm0 & Hnames).
  pose proof (wp_run _ _ (place_trade_filling self' symbol volume order_type
                            sl_distance tp_distance comment magic) V handle v'
                info Hinfo) as [Hfirst _].
  specialize (Hfirst req ans Hsent).
  rewrite <- supported_fillings_head in Hfirst.
  rewrite Hnames, <- Hfm0, <- Hfm.
  destruct (supported_fillings (filling_mode info)) as [| f l]; [discriminate |].
  cbn in Hfirst |- *. congruence.
Qed.

Lemma endpoint_names_the_submitted_filling_witness :
  exists r req ans,
    fst (fst (run scripted (get_symbol_filling online "XAUUSD")
                (quiet (Some (gold None 6)) [] [] []))) = Ok r
    /\ In (req, ans)
          (sent_orders (snd (run scripted (place_trade online "XAUUSD" (b64 1) "buy" None
                                             None "" 0)
                               (quiet (Some (gold None 6)) [Some tick_2000]
                                      [Some (done_result 1 2001)] []))))
    /\ head (fr_supported_fillings r) = Some (filling_name (req_type_filling req))
    /\ req_type_filling req = ORDER_FILLING_IOC.
Proof.
  eexists. eexists. eexists.
  split; [vm_compute; reflexivity |].
  split; [vm_compute; left; reflexivity |].
  split; [| reflexivity].
  apply (endpoint_names_the_submitted_filling Script scripted
           (quiet (Some (gold None 6)) [] [] [])
           (quiet (Some (gold None 6)) [Some tick_2000] [Some (done_result 1 2001)] [])
           online online "XAUUSD"%string _
           (b64 1) "buy"%string None None ""%string 0%Z (gold None 6) _
           (Some (done_result 1 2001))).
  - vm_compute. reflexivity.
  - vm_compute. left. reflexivity.
  - reflexivity.
  - vm_compute. left. reflexivity.
Defined.

(** ** What a worker leaves behind *)

Lemma get_price_pauses self symbol :
  wp (get_price self symbol)
     (fun tr out =>
        (same_registry self (snd out)
         /\ connected (snd out) = connected self
         /\ shutdown_event (snd out) = shutdown_event self
         /\ batch_interval (snd out) = batch_interval self)
        /\ sent_orders tr = [] /\ threads_started tr = []
        /\ Forall (fun p => p = (5 # 100)%Q) (pauses_taken tr)).
Proof.
  unfold get_price. exec.
  all: trace_facts; cbn [fst snd].
  all: split; [repeat split |].
  all: split; [reflexivity | split; [reflexivity | repeat constructor]].
Qed.

Lemma price_worker_loop_quiet symbol :
  forall fuel last_price error_count self,
    wp (price_worker_loop fuel symbol last_price error_count self)
       (fun tr r =>
          sent_orders tr = [] /\ threads_started tr = []
          /\ Forall (fun p => p = (5 # 100)%Q \/ p = batch_interval self)
                    (pauses_taken tr)
          /\ match r with
             | Some self' =>
                 active_subscriptions self' = delete symbol (active_subscriptions self)
                 /\ price_threads self' = delete symbol (price_threads self)
                 /\ connected self' = connected self
                 /\ shutdown_event self' = shutdown_event self
                 /\ batch_interval self' = batch_interval self
             | None => True
             end).
Proof.
  induction fuel as [| fuel IH]; intros last_price error_count self;
    cbn [price_worker_loop].
  - cbn. auto.
  - destruct (_ && _ && _); [| cbn; auto 10].
    apply wp_bind. eapply wp_mono; [| apply get_price_pauses]. cbn beta.
    intros tr [res self1] (([Hs Ht] & Hc & He & Hb) & Hno & Hnt & Hp).
    cbn [snd] in Hs, Ht, Hc, He, Hb.
    assert (Hq : forall tr',
               sent_orders (tr ++ tr') = sent_orders tr'
               /\ threads_started (tr ++ tr') = threads_started tr'
               /\ pauses_taken (tr ++ tr') = pauses_taken tr ++ pauses_taken tr').
    { intros tr'. unfold sent_orders, threads_started, pauses_taken in *.
      rewrite !omap_app, Hno, Hnt. auto. }
    assert (Hp' : Forall (fun p => p = (5 # 100)%Q \/ p = batch_interval self)
                         (pauses_taken tr)).
    { eapply Forall_impl; [exact Hp |]. cbn beta. auto. }
    exec.
    all: try (eapply wp_mono; [| apply IH]; cbn beta;
              intros tr' r (Hno' & Hnt' & Hp'' & Hr)).
    all: match goal with
         | |- context [_ ++ ?l] => destruct (Hq l) as (-> & -> & ->)
         end.
    all: trace_facts.
    all: rewrite ?Hb in *.
    all: split; [assumption || reflexivity |].
    all: split; [assumption || reflexivity |].
    all: split; [apply Forall_app; split; [exact Hp' |];
                 repeat first [assumption | apply Forall_nil_2
                              | apply Forall_cons_2; [right; reflexivity |]] |].
    all: try (destruct r as [self' |]; [| exact I];
              rewrite <- Hs, <- Ht, <- Hc, <- He; exact Hr).
    cbn. rewrite Hs, Ht, Hc, He, Hb. auto.
Qed.

(** X21.  A worker only reads prices and pushes them: it sends no order
    and starts no thread, and each of its pauses is the 0.05 s of a price
    query or the connector's batch interval.  When it ends, for whatever
    reason, its symbol is in neither map, every other entry of the two
    maps is as it was when the worker started, and the connection flags
    are untouched. *)
Theorem worker_leaves_clean :
  forall (V : Type) (handle : forall X, call X -> V -> X * V) (v : V)
         self symbol fuel,
    let out := run handle (price_worker fuel symbol self) v in
    sent_orders (snd out) = [] /\ threads_started (snd out) = []
    /\ Forall (fun p => p = (5 # 100)%Q \/ p = batch_interval self)
              (pauses_taken (snd out))
    /\ match fst (fst out) with
       | Some self' =>
           active_subscriptions self' = delete symbol (active_subscriptions self)
           /\ price_threads self' = delete symbol (price_threads self)
           /\ connected self' = connected self
           /\ shutdown_event self' = shutdown_event self
           /\ batch_interval self' = batch_interval self
       | None => True
       end.
Proof.
  intros V handle v self symbol fuel. cbv zeta.
  exact (wp_run _ _ (price_worker_loop_quiet symbol fuel None 0%nat self) V handle v).
Qed.

(** A worker on a venue where nothing can be selected gives up after five
    fetches and four pauses. *)
Example worker_gives_up :
  let out := run scripted (price_worker 9 "XAUUSD" subscribed) unselectable in
  is_Some (fst (fst out))
  /\ length (selects_read (snd out)) = 5%nat
  /\ length (pauses_taken (snd out)) = 4%nat.
Proof.
  cbv zeta. split; [| split; vm_compute; reflexivity].
  eexists. vm_compute. reflexivity.
Qed.

(** X22.  Once the only subscriber of a symbol has unsubscribed, the
    worker of that symbol ends at its next loop test: it makes no call and
    leaves the connector exactly as the unsubscription left it. *)
Theorem worker_stops_after_last_unsubscribe :
  forall (V : Type) (handle : forall X, call X -> V -> X * V) (v : V)
         self symbol c fuel,
    c <> ""%string ->
    active_subscriptions self !! symbol = Some [c] ->
    let self' := stop_price_stream self symbol (Some c) in
    run handle (price_worker (S fuel) symbol self') v = (Some self', v, []).
Proof.
  intros V handle v self symbol c fuel Hc Hsub self'.
  assert (Hgone : active_subscriptions self' !! symbol = None
                  /\ price_threads self' !! symbol = None).
  { destruct (stop_price_stream_entry self symbol c Hc) as [Ha Ht].
    - intros l Hl. rewrite Hsub in Hl. injection Hl as <-.
      apply NoDup_singleton.
    - subst self'. rewrite Ha, Ht, Hsub. cbn.
      rewrite decide_True by reflexivity. auto. }
  destruct Hgone as [Ha Ht].
  unfold price_worker. cbn [price_worker_loop].
  rewrite Ht. rewrite bool_decide_eq_false_2 by (intros [x Hx]; discriminate).
  cbn [andb run]. f_equal. f_equal. f_equal.
  unfold worker_cleanup.
  apply connector_eq; cbn; try reflexivity.
  - apply delete_id. exact Ha.
  - apply delete_id. exact Ht.
Qed.

Lemma worker_stops_after_last_unsubscribe_witness :
  run scripted (price_worker 1 "XAUUSD"
                  (stop_price_stream subscribed "XAUUSD" (Some "c1"%string)))
      unselectable
  = (Some (stop_price_stream subscribed "XAUUSD" (Some "c1"%string)), unselectable, []).
Proof.
  apply (worker_stops_after_last_unsubscribe Script scripted unselectable subscribed
           "XAUUSD"%string "c1"%string 0%nat).
  - discriminate.
  - reflexivity.
Defined.
